(** * Git synchronisation scripts of 7heredland: a shallow embedding

    The repository is a set of Python command-line scripts that drive [git]
    through [subprocess], the GitHub REST API through [requests], and an
    append-only activity log.  This development embeds the reconciliation
    logic of three of them,

      - [blackland-manager.py]   (modules [Blackland] and [BlacklandMenus]),
      - [git-full-manager.py]    (modules [GitFullManager] and [GitFullMenus]),
      - [git_pull.py]            (module [GitPull]),

    as functions in a state-and-exception monad over an abstract host (the
    operating system, the [git] binary, the network), and proves properties
    of the command sequences they issue and of the lines they record.  The
    functions that talk to GitHub through PyGithub and to the user through
    [rich] run on a host with a journal of the calls and of the answers
    (module [Hub]). *)

From Stdlib Require Import String Ascii List Bool Arith ZArith Lia.
From Stdlib Require Import Numbers.DecimalString.
Import ListNotations.
Local Open Scope string_scope.
Local Open Scope list_scope.

(* ===================================================================== *)
(** * Python string operations used by the scripts *)
(* ===================================================================== *)

Module PyStr.

(** [s.startswith(p)] *)
Definition startswith (s p : string) : bool := String.prefix p s.

(** [sub in s] for strings. *)
Fixpoint contains (sub s : string) : bool :=
  String.prefix sub s ||
  match s with
  | EmptyString => false
  | String _ rest => contains sub rest
  end.

(** [s.replace(old, new)] for a non-empty [old]: every occurrence, scanned
    from the left, occurrences do not overlap.  [skip] counts the characters
    of a match that are still to be dropped. *)
Fixpoint replace_from (skip : nat) (old new s : string) : string :=
  match s with
  | EmptyString => EmptyString
  | String c rest =>
      match skip with
      | S k => replace_from k old new rest
      | O =>
          if String.prefix old s
          then new ++ replace_from (String.length old - 1) old new rest
          else String c (replace_from 0 old new rest)
      end
  end.

(** With an empty [old] Python puts [new] before every character and at the
    end. *)
Fixpoint intersperse (new s : string) : string :=
  match s with
  | EmptyString => new
  | String c rest => new ++ String c (intersperse new rest)
  end.

Definition replace (s old new : string) : string :=
  match old with
  | EmptyString => intersperse new s
  | _ => replace_from 0 old new s
  end.

(** The characters [str.strip()] removes.  In ASCII: TAB, LF, VT, FF, CR,
    the separators FS, GS, RS, US, and the space. *)
Definition is_space (c : ascii) : bool :=
  let n := nat_of_ascii c in
  (Nat.leb 9 n && Nat.leb n 13) || (Nat.leb 28 n && Nat.leb n 32).

(** Beyond ASCII, in the UTF-8 bytes of the text: U+0085 and U+00A0, two
    bytes each; U+1680, U+2000 to U+200A, U+2028, U+2029, U+202F, U+205F
    and U+3000, three bytes each. *)
Definition is_space2 (a b : ascii) : bool :=
  Nat.eqb (nat_of_ascii a) 194 &&
  (Nat.eqb (nat_of_ascii b) 133 || Nat.eqb (nat_of_ascii b) 160).

Definition is_space3 (a b c : ascii) : bool :=
  let x := nat_of_ascii a in
  let y := nat_of_ascii b in
  let z := nat_of_ascii c in
  (Nat.eqb x 225 && Nat.eqb y 154 && Nat.eqb z 128) ||
  (Nat.eqb x 226 && Nat.eqb y 128 &&
   ((Nat.leb 128 z && Nat.leb z 138) || Nat.eqb z 168 || Nat.eqb z 169
    || Nat.eqb z 175)) ||
  (Nat.eqb x 226 && Nat.eqb y 129 && Nat.eqb z 159) ||
  (Nat.eqb x 227 && Nat.eqb y 128 && Nat.eqb z 128).

(** [s.lstrip()] *)
Fixpoint lstrip (s : string) : string :=
  match s with
  | EmptyString => EmptyString
  | String a r1 =>
      if is_space a then lstrip r1
      else match r1 with
           | EmptyString => s
           | String b r2 =>
               if is_space2 a b then lstrip r2
               else match r2 with
                    | EmptyString => s
                    | String c r3 => if is_space3 a b c then lstrip r3 else s
                    end
           end
  end.

(** [s.rstrip()]: a character stays as long as the text from it on is not
    white space only. *)
Fixpoint rstrip (s : string) : string :=
  match s with
  | EmptyString => EmptyString
  | String c rest =>
      match lstrip s with
      | EmptyString => EmptyString
      | _ => String c (rstrip rest)
      end
  end.

(** [s.strip()] *)
Definition strip (s : string) : string := rstrip (lstrip s).

(** [s.split(sep)] for a one-character separator. *)
Fixpoint split (sep : ascii) (s : string) : list string :=
  match s with
  | EmptyString => [EmptyString]
  | String c rest =>
      if Ascii.eqb c sep then EmptyString :: split sep rest
      else match split sep rest with
           | h :: t => String c h :: t
           | [] => [String c EmptyString]
           end
  end.

(** [s.split(sep)[-1]] *)
Definition split_last (sep : ascii) (s : string) : string :=
  List.last (split sep s) EmptyString.

(** [sep.join(xs)] *)
Definition join (sep : string) (xs : list string) : string :=
  String.concat sep xs.

(** [os.path.join(a, b)] on POSIX. *)
Definition path_join (a b : string) : string :=
  if startswith b "/" then b
  else match a with
       | EmptyString => b
       | _ => if startswith (string_of_list_ascii (rev (list_ascii_of_string a))) "/"
              then a ++ b else a ++ "/" ++ b
       end.

(** [s.rstrip(c)] for one character. *)
Fixpoint rstrip_char (c : ascii) (s : string) : string :=
  match s with
  | EmptyString => EmptyString
  | String a rest =>
      match rstrip_char c rest with
      | EmptyString => if Ascii.eqb a c then EmptyString else String a EmptyString
      | r => String a r
      end
  end.

(** [os.path.dirname(p)] on POSIX: the text up to the last slash, without
    its trailing slashes unless it is made of slashes only. *)
Definition dirname (p : string) : string :=
  match removelast (split "/" p) with
  | [] => EmptyString
  | parts =>
      let head := (join "/" parts ++ "/")%string in
      match rstrip_char "/" head with
      | EmptyString => head
      | h => h
      end
  end.

(** [x in (a, b, ...)] for strings. *)
Definition mem (x : string) (xs : list string) : bool :=
  existsb (String.eqb x) xs.

(** The line feed. *)
Definition nl : string := String (ascii_of_nat 10) EmptyString.

(** Truth value of a string: [if s:] *)
Definition truthy (s : string) : bool :=
  match s with EmptyString => false | _ => true end.

(** [str(n)] for a natural number. *)
Definition str_of_nat (n : nat) : string := NilZero.string_of_uint (Nat.to_uint n).

(** [repr(s)] for a string of printable characters: single quotes, unless
    the text holds a single quote and no double quote; backslash and the
    chosen quote are escaped. *)
Definition dquote : ascii := ascii_of_nat 34.
Definition squote : ascii := ascii_of_nat 39.
Definition backslash : ascii := ascii_of_nat 92.

Fixpoint escape (q : ascii) (s : string) : string :=
  match s with
  | EmptyString => EmptyString
  | String c rest =>
      if Ascii.eqb c q || Ascii.eqb c backslash
      then String backslash (String c (escape q rest))
      else String c (escape q rest)
  end.

Definition repr (s : string) : string :=
  let q := if contains (String squote EmptyString) s &&
              negb (contains (String dquote EmptyString) s)
           then dquote else squote in
  String q (escape q s ++ String q EmptyString).

(** [repr(xs)] for a list of strings. *)
Definition repr_list (xs : list string) : string :=
  "[" ++ join ", " (map repr xs) ++ "]".

End PyStr.

(* ===================================================================== *)
(** * The markup of the console *)
(* ===================================================================== *)

Module Rich.
Local Open Scope string_scope.

(** [console.print] of rich reads its text as markup: "[" followed by a
    lower-case letter, "#", "@" or "/" opens a tag that runs to the next
    "]", and a tag that starts with "/" closes one.  [MarkupError] is raised
    for a closing tag that matches no open one, and for nothing else in the
    texts of these scripts.  A text without "[/" holds no closing tag; put
    into a line of a script, whose own closing tags match its own opening
    ones, it cannot make the line raise. *)
Definition closes_no_tag (text : string) : bool :=
  negb (PyStr.contains "[/" text).

Example test_closes_no_tag :
  closes_no_tag "/home/gost/7heBlackLand/r" = true /\
  closes_no_tag "['git', '-C', '/w/r', 'push']" = true /\
  closes_no_tag "/w/[/x]" = false.
Proof. repeat split. Qed.

End Rich.


(* ===================================================================== *)
(** * The host and the effects of a script *)
(* ===================================================================== *)

Module Effects.

(** Python exceptions, as far as the scripts tell them apart:
    [except subprocess.CalledProcessError] catches the first only,
    [except Exception] the first two, and nothing catches [SystemExit]. *)
Inductive exn : Type :=
| CalledProcessError (cmd : list string) (returncode : nat)
| PyException (class_name message : string)
| SystemExit (code : nat).

Definition is_CalledProcessError (e : exn) : bool :=
  match e with CalledProcessError _ _ => true | _ => false end.

Definition is_Exception (e : exn) : bool :=
  match e with SystemExit _ => false | _ => true end.

(** [str(e)], the text an f-string shows for [{e}]. *)
Definition str_exn (e : exn) : string :=
  match e with
  | CalledProcessError cmd rc =>
      "Command '" ++ PyStr.repr_list cmd ++ "' returned non-zero exit status "
        ++ PyStr.str_of_nat rc ++ "."
  | PyException _ msg => msg
  | SystemExit code => PyStr.str_of_nat code
  end.

(** What [r.json()] gives for a repository: an object, with or without the
    [default_branch] key, or some other JSON value. *)
Inductive json : Type :=
| JObject (default_branch : option string)
| JOther.

(** What [requests.get] does: it raises (no connection, timeout), or it
    returns a response with its [ok] flag and a body that may not be JSON. *)
Inductive http_result : Type :=
| HttpRaises (message : string)
| HttpResponse (ok : bool) (body : option json).

(** Calls into GitPython, [shutil] and [tempfile] made by the upload. *)
Inductive libop : Type :=
| Mkdtemp (prefix : string)
| CloneFrom (url dir branch : string) (depth : nat)
| OpenRepo (dir : string)
| CheckoutNew (dir branch : string)
| CopyInto (src dir : string)
| RemoveUnwanted (dir : string)
| AddAll (dir : string)
| IsDirty (dir : string)
| IndexCommit (dir message : string)
| RemoteOrigin (dir : string)
| RemotePush (dir refspec : string) (force : bool)
| GitFetch (dir remote : string)
| Rmtree (dir : string).

Inductive libres : Type :=
| LibRaises (message : string)
| LibDone
| LibFlag (b : bool)
| LibText (s : string).

(** The collaborators of a script: processes, network, files, clock,
    terminal input and the libraries above, over a world [W] of their own. *)
Class Host (W : Type) : Type := {
  subprocess_exec : list string -> option string -> W -> (nat * string) * W;
  requests_get : string -> W -> http_result * W;
  fs_makedirs : string -> W -> bool * W;
  fs_append : string -> string -> W -> bool * W;
  fs_isdir : string -> W -> bool;
  fs_exists : string -> W -> bool;
  time_strftime : W -> string;
  read_input : string -> W -> string * W;
  library : libop -> W -> libres * W
}.

(** What an execution leaves behind. *)
Inductive event : Type :=
| Spawn (argv : list string) (cwd : option string) (rc : nat)
| Print (text : string)
| Append (path text : string) (written : bool)
| Http (url : string)
| Input (prompt answer : string)
| Lib (op : libop) (res : libres).

Record state (W : Type) : Type := mkState {
  world : W;
  trace : list event
}.
Arguments mkState {W} _ _.
Arguments world {W} _.
Arguments trace {W} _.

Inductive outcome (A : Type) : Type :=
| Return (a : A)
| Raise (e : exn).
Arguments Return {A} _.
Arguments Raise {A} _.

Definition M (W A : Type) : Type := state W -> outcome A * state W.

Section Monad.
Context {W : Type} {host : Host W}.

Definition ret {A} (a : A) : M W A := fun st => (Return a, st).

Definition bind {A B} (m : M W A) (k : A -> M W B) : M W B :=
  fun st =>
    match m st with
    | (Return a, st') => k a st'
    | (Raise e, st') => (Raise e, st')
    end.

Definition raise {A} (e : exn) : M W A := fun st => (Raise e, st).

(** [try: m  except <catches> as e: handler e] *)
Definition try_except {A} (m : M W A) (catches : exn -> bool)
    (handler : exn -> M W A) : M W A :=
  fun st =>
    match m st with
    | (Return a, st') => (Return a, st')
    | (Raise e, st') => if catches e then handler e st' else (Raise e, st')
    end.

(** [try: m  finally: cleanup] *)
Definition try_finally {A} (m : M W A) (cleanup : M W unit) : M W A :=
  fun st =>
    match m st with
    | (r, st') =>
        match cleanup st' with
        | (Return _, st'') => (r, st'')
        | (Raise e, st'') => (Raise e, st'')
        end
    end.

Definition emit (e : event) : M W unit :=
  fun st => (Return tt, mkState (world st) (trace st ++ [e])).

(** [for x in xs: body x] *)
Fixpoint for_each {A} (xs : list A) (body : A -> M W unit) : M W unit :=
  match xs with
  | [] => ret tt
  | x :: rest => bind (body x) (fun _ => for_each rest body)
  end.

(** [wp m Q st]: running [m] from [st] ends in an outcome and a state that
    satisfy [Q]. *)
Definition wp {A} (m : M W A) (Q : outcome A -> state W -> Prop)
    (st : state W) : Prop :=
  Q (fst (m st)) (snd (m st)).

Record completed : Type := mkCompleted {
  returncode : nat;
  stdout : string
}.

(** [subprocess.run(cmd, cwd=cwd, check=check)]: a non-zero exit status
    raises [CalledProcessError] when [check] is set. *)
Definition subprocess_run (cmd : list string) (cwd : option string)
    (check : bool) : M W completed :=
  fun st =>
    let '((rc, out), w) := subprocess_exec cmd cwd (world st) in
    let st' := mkState w (trace st ++ [Spawn cmd cwd rc]) in
    if check && negb (Nat.eqb rc 0)
    then (Raise (CalledProcessError cmd rc), st')
    else (Return (mkCompleted rc out), st').

(** [subprocess.check_output(cmd, text=True)] *)
Definition check_output (cmd : list string) : M W string :=
  bind (subprocess_run cmd None true) (fun c => ret (stdout c)).

(** [console.print(text)] and [print(text)].  The console of rich reads the
    text as markup and raises [MarkupError] on a closing tag that matches no
    open one (see [Rich]); here the call returns, as it does on every line
    whose inserted parts hold no closing tag.  The facts that say that a
    function returns for every path, or that a command follows a line with
    a path or a branch in it, are stated for texts that
    [Rich.closes_no_tag] accepts. *)
Definition console_print (text : string) : M W unit := emit (Print text).

(** [os.makedirs(path, exist_ok=True)] *)
Definition os_makedirs (path : string) : M W unit :=
  fun st =>
    let '(ok, w) := fs_makedirs path (world st) in
    if ok then (Return tt, mkState w (trace st))
    else (Raise (PyException "OSError" path), mkState w (trace st)).

(** [with open(path, "a") as f: f.write(text)] *)
Definition append_to (path text : string) : M W unit :=
  fun st =>
    let '(ok, w) := fs_append path text (world st) in
    let st' := mkState w (trace st ++ [Append path text ok]) in
    if ok then (Return tt, st') else (Raise (PyException "OSError" path), st').

(** [time.strftime('%Y-%m-%d %H:%M:%S')], also [datetime.now().strftime] *)
Definition strftime : M W string := fun st => (Return (time_strftime (world st)), st).

Definition os_path_isdir (path : string) : M W bool :=
  fun st => (Return (fs_isdir path (world st)), st).

Definition os_path_exists (path : string) : M W bool :=
  fun st => (Return (fs_exists path (world st)), st).

(** [input(prompt)] *)
Definition input (prompt : string) : M W string :=
  fun st =>
    let '(answer, w) := read_input prompt (world st) in
    (Return answer, mkState w (trace st ++ [Input prompt answer])).

Record response : Type := mkResponse {
  ok : bool;
  body : option json
}.

(** [requests.get(url, headers=..., timeout=...)] *)
Definition requests_get_ (url : string) : M W response :=
  fun st =>
    let '(r, w) := requests_get url (world st) in
    let st' := mkState w (trace st ++ [Http url]) in
    match r with
    | HttpRaises msg => (Raise (PyException "RequestException" msg), st')
    | HttpResponse o b => (Return (mkResponse o b), st')
    end.

(** [r.json()] *)
Definition response_json (r : response) : M W json :=
  match body r with
  | Some j => ret j
  | None => raise (PyException "JSONDecodeError" "Expecting value")
  end.

(** [j.get(key, default)] for the key [default_branch]. *)
Definition json_get_default_branch (j : json) (default : string) : M W string :=
  match j with
  | JObject (Some b) => ret b
  | JObject None => ret default
  | JOther => raise (PyException "AttributeError" "object has no attribute 'get'")
  end.

(** A call into a library that raises or returns. *)
Definition lib (op : libop) : M W libres :=
  fun st =>
    let '(r, w) := library op (world st) in
    let st' := mkState w (trace st ++ [Lib op r]) in
    match r with
    | LibRaises msg => (Raise (PyException "Exception" msg), st')
    | _ => (Return r, st')
    end.

Definition lib_ (op : libop) : M W unit := bind (lib op) (fun _ => ret tt).

(** A call made with [ignore_errors=True]. *)
Definition lib_ignore_errors (op : libop) : M W unit :=
  fun st =>
    let '(r, w) := library op (world st) in
    (Return tt, mkState w (trace st ++ [Lib op r])).

Definition lib_flag (op : libop) : M W bool :=
  bind (lib op) (fun r => match r with LibFlag b => ret b | _ => ret false end).

Definition lib_text (op : libop) : M W string :=
  bind (lib op) (fun r => match r with LibText s => ret s | _ => ret EmptyString end).

End Monad.

(** Observations of a trace. *)
Definition spawned (t : list event) : list (list string) :=
  flat_map (fun e => match e with Spawn argv _ _ => [argv] | _ => [] end) t.

Definition printed (t : list event) : list string :=
  flat_map (fun e => match e with Print s => [s] | _ => [] end) t.

Definition logged (t : list event) : list string :=
  flat_map (fun e => match e with Append _ s true => [s] | _ => [] end) t.

Definition lib_calls (t : list event) : list libop :=
  flat_map (fun e => match e with Lib op _ => [op] | _ => [] end) t.

Definition requested (t : list event) : list string :=
  flat_map (fun e => match e with Http u => [u] | _ => [] end) t.

Fixpoint argv_eqb (a b : list string) : bool :=
  match a, b with
  | [], [] => true
  | x :: a', y :: b' => String.eqb x y && argv_eqb a' b'
  | _, _ => false
  end.

(** The lookup failed: no answer at all, or an answer that is not [ok]. *)
Definition api_failed (r : http_result) : bool :=
  match r with
  | HttpRaises _ => true
  | HttpResponse o _ => negb o
  end.

(** The shapes of the push and pull commands. *)
Definition is_plain_push (argv : list string) : bool :=
  match argv with ["git"; "-C"; _; "push"] => true | _ => false end.

Definition is_rebase (argv : list string) : bool :=
  match argv with ["git"; "-C"; _; "pull"; "--rebase"] => true | _ => false end.

Definition is_force_with_lease (argv : list string) : bool :=
  match argv with
  | ["git"; "-C"; _; "push"; "--force-with-lease"] => true
  | _ => false
  end.

(** A push that overwrites the remote whatever its tip is: [--force] or
    [-f] on the command line. *)
Definition is_unconditional_force (argv : list string) : bool :=
  match argv with
  | "git" :: "-C" :: _ :: "push" :: flags
  | "git" :: "push" :: flags => PyStr.mem "--force" flags || PyStr.mem "-f" flags
  | _ => false
  end.

(** The same through GitPython: [origin.push(..., force=True)]. *)
Definition is_forced_lib_push (op : libop) : bool :=
  match op with RemotePush _ _ true => true | _ => false end.

Definition count {A} (f : A -> bool) (xs : list A) : nat :=
  List.length (filter f xs).

End Effects.

Declare Scope py_scope.
Delimit Scope py_scope with py.
Notation "x <- m ;; k" := (Effects.bind m (fun x => k))
  (at level 61, m at next level, right associativity) : py_scope.
Notation "m ;; k" := (Effects.bind m (fun _ => k))
  (at level 61, right associativity) : py_scope.

(* ===================================================================== *)
(** * The working directory and the listing of a directory *)
(* ===================================================================== *)

Module System.
Import Effects.

(** [os.chdir] and [os.listdir] as the host answers them: a directory that
    cannot be entered or listed makes the call raise. *)
Class Process (W : Type) : Type := {
  process_chdir : string -> W -> bool * W;
  process_listdir : string -> W -> option (list string)
}.

Section Calls.
Context {W : Type} {host : Host W} {process : Process W}.

(** [os.chdir(path)] *)
Definition os_chdir (path : string) : M W unit :=
  fun st =>
    let '(entered, w) := process_chdir path (world st) in
    if entered then (Return tt, mkState w (trace st))
    else (Raise (PyException "FileNotFoundError" path), mkState w (trace st)).

(** [os.listdir(path)] *)
Definition os_listdir (path : string) : M W (list string) :=
  fun st =>
    match process_listdir path (world st) with
    | Some names => (Return names, st)
    | None => (Raise (PyException "FileNotFoundError" path), st)
    end.

End Calls.
End System.

(* ===================================================================== *)
(** * blackland-manager.py *)
(* ===================================================================== *)

Module Blackland.
Import Effects.
Local Open Scope py_scope.
Local Open Scope string_scope.

Definition REPO_PATH : string := "/home/gost/7heBlackLand".
Definition DEFAULT_COMMIT_MSG : string := "Welcome to Blackland".
Definition LOG_FILE : string :=
  PyStr.path_join "/home/gost/all-project/git-all" "git_actions.log".

(** The fields of a PyGithub [Repository] the script reads. *)
Record Repository : Type := mkRepository {
  name : string;
  full_name : string;
  owner_login : string;
  default_branch : string;
  clone_url : string
}.

Section Script.
Context {W : Type} {host : Host W}.

(** [TOKEN] is read from the environment and [login] is [user.login] of the
    authenticated user; the script exits at start-up without them. *)
Variable TOKEN : string.
Variable login : string.

(** [log_action(msg)]: one stamped line appended to [LOG_FILE]; a failure to
    write is swallowed. *)
Definition log_action (msg : string) : M W unit :=
  try_except
    (os_makedirs (PyStr.dirname LOG_FILE) ;;
     ts <- strftime ;;
     append_to LOG_FILE ("[" ++ ts ++ "] " ++ msg ++ PyStr.nl))
    is_Exception
    (fun _ => ret tt).

(** [run_cmd(cmd, cwd, capture)]: the command is announced, then run with
    [check=True]. *)
Definition run_cmd (cmd : list string) (cwd : option string) (capture : bool)
  : M W completed :=
  let display :=
    match cwd with
    | Some d =>
        if PyStr.truthy d then "(cwd=" ++ d ++ ") " ++ PyStr.join " " cmd
        else PyStr.join " " cmd
    | None => PyStr.join " " cmd
    end in
  console_print ("🚀 " ++ display) ;;
  if capture then subprocess_run cmd cwd true
  else subprocess_run cmd cwd true.

(** [get_github_default_branch(owner, repo_name)] *)
Definition get_github_default_branch (owner repo_name : string) : M W string :=
  let url := "https://api.github.com/repos/" ++ owner ++ "/" ++ repo_name in
  found <- try_except
             (r <- requests_get_ url ;;
              if ok r
              then (j <- response_json r ;;
                    b <- json_get_default_branch j "main" ;;
                    ret (Some b))
              else ret None)
             is_Exception
             (fun _ => ret None) ;;
  match found with
  | Some b => ret b
  | None => ret "main"
  end.

(** [ensure_remote_tokenized(repo_path)] *)
Definition ensure_remote_tokenized (repo_path : string) : M W unit :=
  try_except
    (out <- check_output ["git"; "-C"; repo_path; "remote"; "get-url"; "origin"] ;;
     let origin := PyStr.strip out in
     if PyStr.startswith origin "https://" && negb (PyStr.contains "@" origin)
     then
       let new := PyStr.replace origin "https://" ("https://" ++ TOKEN ++ "@") in
       subprocess_run ["git"; "-C"; repo_path; "remote"; "set-url"; "origin"; new]
                      None true ;;
       log_action ("Tokenized origin for " ++ repo_path)
     else ret tt)
    is_Exception
    (fun _ => ret tt).

(** The default branch as [ensure_branch_alignment_local] determines it
    (its statements between the fetch and the reading of the local branch). *)
Definition remote_default_branch (repo_path : string) (repo_name : option string)
  : M W string :=
  let default_branch := "main" in
  let from_origin_head :=
    try_except
      (raw <- check_output ["git"; "-C"; repo_path; "symbolic-ref";
                            "refs/remotes/origin/HEAD"] ;;
       let out := PyStr.strip raw in
       if PyStr.truthy out && PyStr.startswith out "refs/remotes/origin/"
       then ret (PyStr.split_last "/" out)
       else ret default_branch)
      is_Exception
      (fun _ => ret default_branch) in
  match repo_name with
  | Some n =>
      if PyStr.truthy n then get_github_default_branch login n
      else from_origin_head
  | None => from_origin_head
  end.

(** [ensure_branch_alignment_local(repo_path, repo_name)] *)
Definition ensure_branch_alignment_local (repo_path : string)
    (repo_name : option string) : M W unit :=
  try_except
    (subprocess_run ["git"; "-C"; repo_path; "fetch"; "--all"] None false ;;
     default_branch <- remote_default_branch repo_path repo_name ;;
     local_branch <-
       try_except
         (out <- check_output ["git"; "-C"; repo_path; "rev-parse";
                               "--abbrev-ref"; "HEAD"] ;;
          ret (PyStr.strip out))
         is_Exception
         (fun _ => ret default_branch) ;;
     if negb (String.eqb local_branch default_branch)
     then
       console_print ("🔁 Aligning branch: local '" ++ local_branch
                      ++ "' → remote default '" ++ default_branch
                      ++ "' in " ++ repo_path) ;;
       subprocess_run ["git"; "-C"; repo_path; "checkout"; default_branch]
                      None false ;;
       subprocess_run ["git"; "-C"; repo_path; "branch"; "--set-upstream-to";
                       "origin/" ++ default_branch; default_branch] None false ;;
       log_action ("Aligned " ++ repo_path ++ " branch " ++ local_branch
                   ++ " -> " ++ default_branch)
     else ret tt)
    is_Exception
    (fun _ => ret tt).

(** [safe_push(repo_path, commit_msg)] *)
Definition safe_push (repo_path commit_msg : string) : M W bool :=
  try_except
    (run_cmd ["git"; "-C"; repo_path; "push"] None false ;;
     log_action ("Pushed " ++ repo_path) ;;
     ret true)
    is_CalledProcessError
    (fun e =>
       console_print ("[yellow]Push failed (trying recovery): " ++ str_exn e
                      ++ "[/yellow]") ;;
       try_except
         (run_cmd ["git"; "-C"; repo_path; "fetch"; "origin"] None false ;;
          try_except
            (run_cmd ["git"; "-C"; repo_path; "pull"; "--rebase"] None false ;;
             ret tt)
            is_CalledProcessError
            (fun _ =>
               run_cmd ["git"; "-C"; repo_path; "push"; "--force-with-lease"]
                       None false ;;
               ret tt) ;;
          log_action ("Recovered push for " ++ repo_path) ;;
          ret true)
         is_Exception
         (fun ex =>
            console_print ("[red]Push recovery failed: " ++ str_exn ex ++ "[/red]") ;;
            log_action ("Push recovery failed for " ++ repo_path ++ ": "
                        ++ str_exn ex) ;;
            ret false)).

(** [upload_file_to_github(repo, file_path, branch_name, commit_message)].
    The copy of [file_path] into the clone and the removal of [.env] and
    [__pycache__] are one library call each; the removal does not raise. *)
Definition upload_file_to_github (repo : Repository)
    (file_path branch_name commit_message : string) : M W bool :=
  temp_dir <- lib_text (Mkdtemp "gh_upload_") ;;
  let repo_url := "https://" ++ TOKEN ++ "@github.com/" ++ owner_login repo
                  ++ "/" ++ name repo ++ ".git" in
  let refspec := branch_name ++ ":" ++ branch_name in
  cloned <-
    try_except
      (console_print ("[blue]Cloning " ++ full_name repo
                      ++ " into temp dir...[/blue]") ;;
       lib_ (CloneFrom repo_url temp_dir branch_name 1) ;;
       ret true)
      is_Exception
      (fun _ =>
         try_except
           (default <- (if PyStr.truthy (default_branch repo)
                        then ret (default_branch repo)
                        else get_github_default_branch (owner_login repo)
                                                       (name repo)) ;;
            lib_ (CloneFrom repo_url temp_dir default 1) ;;
            lib_ (OpenRepo temp_dir) ;;
            (if negb (String.eqb branch_name default)
             then lib_ (CheckoutNew temp_dir branch_name)
             else ret tt) ;;
            ret true)
           is_Exception
           (fun e =>
              console_print ("[red]Clone failed: " ++ str_exn e ++ "[/red]") ;;
              lib_ignore_errors (Rmtree temp_dir) ;;
              ret false)) ;;
  if negb cloned then ret false
  else
    try_finally
      (try_except
         (lib_ (CopyInto file_path temp_dir) ;;
          lib_ignore_errors (RemoveUnwanted temp_dir) ;;
          lib_ (OpenRepo temp_dir) ;;
          lib_ (AddAll temp_dir) ;;
          dirty <- lib_flag (IsDirty temp_dir) ;;
          pushed <-
            (if dirty : bool
             then
               lib_ (IndexCommit temp_dir
                       (if PyStr.truthy commit_message then commit_message
                        else DEFAULT_COMMIT_MSG)) ;;
               lib_ (RemoteOrigin temp_dir) ;;
               try_except
                 (lib_ (RemotePush temp_dir refspec false) ;; ret true)
                 is_Exception
                 (fun _ =>
                    try_except
                      (lib_ (GitFetch temp_dir "origin") ;;
                       lib_ (RemotePush temp_dir refspec true) ;;
                       ret true)
                      is_Exception
                      (fun e =>
                         console_print ("[red]Push failed after recovery: "
                                        ++ str_exn e ++ "[/red]") ;;
                         log_action ("Upload push failed for " ++ full_name repo
                                     ++ ": " ++ str_exn e) ;;
                         ret false))
             else
               console_print "[yellow]No changes to commit.[/yellow]" ;;
               ret true) ;;
          if pushed : bool
          then
            console_print ("[green]✅ Uploaded to " ++ full_name repo ++ "@"
                           ++ branch_name ++ "[/green]") ;;
            log_action ("Uploaded " ++ file_path ++ " -> " ++ full_name repo
                        ++ "@" ++ branch_name) ;;
            ret true
          else ret false)
         is_Exception
         (fun e =>
            console_print ("[red]Upload failed: " ++ str_exn e ++ "[/red]") ;;
            log_action ("Upload failed for " ++ full_name repo ++ ": "
                        ++ str_exn e) ;;
            ret false))
      (lib_ignore_errors (Rmtree temp_dir)).

(** [clone_repo_to_workspace(repo)] *)
Definition clone_repo_to_workspace (repo : Repository) : M W unit :=
  os_makedirs REPO_PATH ;;
  let local_path := PyStr.path_join REPO_PATH (name repo) in
  present <- os_path_exists local_path ;;
  if present : bool
  then console_print ("[yellow]Already exists: " ++ name repo
                      ++ " → skipping[/yellow]")
  else
    let clone_url :=
      if PyStr.startswith (clone_url repo) "https://"
         && negb (PyStr.contains "@" (clone_url repo))
      then PyStr.replace (clone_url repo) "https://" ("https://" ++ TOKEN ++ "@")
      else clone_url repo in
    try_except
      (run_cmd ["git"; "clone"; clone_url; local_path] None false ;;
       ensure_remote_tokenized local_path ;;
       ensure_branch_alignment_local local_path (Some (name repo)) ;;
       console_print ("[green]Cloned " ++ full_name repo ++ " -> " ++ local_path
                      ++ "[/green]") ;;
       log_action ("Cloned " ++ full_name repo ++ " to " ++ local_path))
      is_CalledProcessError
      (fun e =>
         console_print ("[red]Clone failed for " ++ full_name repo ++ ": "
                        ++ str_exn e ++ "[/red]") ;;
         log_action ("Clone failed for " ++ full_name repo ++ ": " ++ str_exn e)).

(** One turn of the loop of [batch_workspace_manager] over the directory [d]. *)
Definition batch_workspace_step (choice commit_msg d : string) : M W unit :=
  let path := PyStr.path_join REPO_PATH d in
  console_print (PyStr.nl ++ "📂 [bold cyan]" ++ d ++ "[/bold cyan]") ;;
  ensure_remote_tokenized path ;;
  ensure_branch_alignment_local path (Some d) ;;
  try_except
    ((if PyStr.mem choice ["1"; "3"]
      then
        console_print "🔄 Pulling..." ;;
        run_cmd ["git"; "-C"; path; "pull"] None false ;;
        console_print "[green]Pulled.[/green]" ;;
        log_action ("Pulled " ++ d)
      else ret tt) ;;
     (if PyStr.mem choice ["2"; "3"]
      then
        console_print "⬆️ Adding & committing..." ;;
        run_cmd ["git"; "-C"; path; "add"; "."] None false ;;
        commit <- subprocess_run ["git"; "-C"; path; "commit"; "-m"; commit_msg]
                                 None false ;;
        if Nat.eqb (returncode commit) 0
        then
          pushed <- safe_push path commit_msg ;;
          if pushed : bool then console_print "[green]Pushed.[/green]" else ret tt
        else console_print "[yellow]Nothing to commit.[/yellow]"
      else ret tt))
    is_CalledProcessError
    (fun e =>
       console_print ("[red]Git operation failed for " ++ d ++ ": " ++ str_exn e
                      ++ "[/red]") ;;
       log_action ("Git error " ++ d ++ ": " ++ str_exn e)).

(** The loop of [batch_workspace_manager] for the choices 1, 2 and 3, over
    [repo_dirs], the sorted directories of the workspace that hold a [.git];
    [choice] and [commit_msg] are the answers given at the menu. *)
Definition batch_workspace_manager (repo_dirs : list string)
    (choice commit_msg : string) : M W unit :=
  for_each repo_dirs (batch_workspace_step choice commit_msg) ;;
  console_print (PyStr.nl ++ "✨ Batch operations completed." ++ PyStr.nl).

(** [ensure_git_identity()], run once when the script starts.  The [return]
    inside its [try] is the flag [complete]. *)
Definition ensure_git_identity : M W unit :=
  complete <-
    try_except
      (out1 <- check_output ["git"; "config"; "--global"; "user.name"] ;;
       let name := PyStr.strip out1 in
       out2 <- check_output ["git"; "config"; "--global"; "user.email"] ;;
       let email := PyStr.strip out2 in
       ret (PyStr.truthy name && PyStr.truthy email))
      is_CalledProcessError
      (fun _ => ret false) ;;
  if complete : bool then ret tt
  else
    console_print "⚙️ Setting default git identity..." ;;
    subprocess_run ["git"; "config"; "--global"; "user.name"; "Auto Commit Bot"]
                   None false ;;
    subprocess_run ["git"; "config"; "--global"; "user.email";
                    "autocommit@example.com"] None false ;;
    log_action "Set default git identity to Auto Commit Bot".

End Script.
End Blackland.

(* ===================================================================== *)
(** * git-full-manager.py *)
(* ===================================================================== *)

Module GitFullManager.
Import Effects.
Local Open Scope py_scope.
Local Open Scope string_scope.

Definition REPO_PATH : string := "/home/gost/7heBlackLand".
Definition DEFAULT_COMMIT_MSG : string := "Welcome to Blackland".
Definition LOG_FILE : string := "/home/gost/all-project/git-all/git_actions.log".

Section Script.
Context {W : Type} {host : Host W}.
Variable TOKEN : string.
Variable login : string.

(** [log_action(action)]: here a failure to write raises. *)
Definition log_action (action : string) : M W unit :=
  os_makedirs (PyStr.dirname LOG_FILE) ;;
  ts <- strftime ;;
  append_to LOG_FILE ("[" ++ ts ++ "] " ++ action ++ PyStr.nl).

(** [run_shell(cmd, cwd, silent)] *)
Definition run_shell (cmd : list string) (cwd : option string) (silent : bool)
  : M W unit :=
  (if negb silent then console_print ("🚀 " ++ PyStr.join " " cmd) else ret tt) ;;
  subprocess_run cmd cwd true ;;
  ret tt.

(** [get_default_branch(repo_name)] *)
Definition get_default_branch (repo_name : string) : M W string :=
  let url := "https://api.github.com/repos/" ++ login ++ "/" ++ repo_name in
  found <- try_except
             (r <- requests_get_ url ;;
              if ok r
              then (j <- response_json r ;;
                    b <- json_get_default_branch j "main" ;;
                    ret (Some b))
              else ret None)
             is_Exception
             (fun _ => ret None) ;;
  match found with
  | Some b => ret b
  | None => ret "main"
  end.

(** [fix_remote_with_token(repo_path)] *)
Definition fix_remote_with_token (repo_path : string) : M W unit :=
  try_except
    (out <- check_output ["git"; "-C"; repo_path; "remote"; "get-url"; "origin"] ;;
     let url := PyStr.strip out in
     if negb (PyStr.contains "@" url) && PyStr.startswith url "https://"
     then
       let new_url := PyStr.replace url "https://" ("https://" ++ TOKEN ++ "@") in
       subprocess_run ["git"; "-C"; repo_path; "remote"; "set-url"; "origin";
                       new_url] None false ;;
       ret tt
     else ret tt)
    is_Exception
    (fun _ => ret tt).

(** [ensure_branch_alignment(repo_path, repo_name)] *)
Definition ensure_branch_alignment (repo_path repo_name : string) : M W unit :=
  try_except
    (default_branch <- get_default_branch repo_name ;;
     out <- check_output ["git"; "-C"; repo_path; "rev-parse"; "--abbrev-ref";
                          "HEAD"] ;;
     let local_branch := PyStr.strip out in
     if negb (String.eqb local_branch default_branch)
     then
       console_print ("🔁 Aligning branch from " ++ local_branch ++ " → "
                      ++ default_branch) ;;
       subprocess_run ["git"; "-C"; repo_path; "fetch"; "origin"; default_branch]
                      None false ;;
       subprocess_run ["git"; "-C"; repo_path; "checkout"; default_branch]
                      None false ;;
       subprocess_run ["git"; "-C"; repo_path; "branch"; "--set-upstream-to";
                       "origin/" ++ default_branch] None false ;;
       log_action ("Aligned " ++ repo_name ++ " branch " ++ local_branch ++ " → "
                   ++ default_branch)
     else ret tt)
    is_Exception
    (fun _ => ret tt).

(** One turn of the loop of [batch_git_manager] over the directory [r]. *)
Definition batch_git_step (ch r : string) : M W unit :=
  let msg := DEFAULT_COMMIT_MSG in
  let path := PyStr.path_join REPO_PATH r in
  console_print (PyStr.nl ++ "📂 [green]" ++ r ++ "[/green]") ;;
  fix_remote_with_token path ;;
  ensure_branch_alignment path r ;;
  try_except
    ((if PyStr.mem ch ["1"; "3"]
      then
        console_print "🔄 Pulling..." ;;
        run_shell ["git"; "-C"; path; "pull"] None true
      else ret tt) ;;
     (if PyStr.mem ch ["2"; "3"]
      then
        run_shell ["git"; "-C"; path; "add"; "."] None true ;;
        commit <- subprocess_run ["git"; "-C"; path; "commit"; "-m"; msg]
                                 None false ;;
        if Nat.eqb (returncode commit) 0
        then
          run_shell ["git"; "-C"; path; "push"] None true ;;
          console_print "✅ Pushed!"
        else ret tt
      else ret tt))
    is_CalledProcessError
    (fun e => console_print ("[red]Error in " ++ r ++ ": " ++ str_exn e ++ "[/red]")).

(** The loop of [batch_git_manager] for the choices 1, 2 and 3, over [repos],
    the directories of the workspace that hold a [.git]; the commit message
    is [DEFAULT_COMMIT_MSG] whenever a commit is made. *)
Definition batch_git_manager (repos : list string) (ch : string) : M W unit :=
  for_each repos (batch_git_step ch).

(** [ensure_git_identity()], run once when the script starts; its
    [log_action] is the one that raises. *)
Definition ensure_git_identity : M W unit :=
  complete <-
    try_except
      (out1 <- check_output ["git"; "config"; "--global"; "user.name"] ;;
       let name := PyStr.strip out1 in
       out2 <- check_output ["git"; "config"; "--global"; "user.email"] ;;
       let email := PyStr.strip out2 in
       ret (PyStr.truthy name && PyStr.truthy email))
      is_CalledProcessError
      (fun _ => ret false) ;;
  if complete : bool then ret tt
  else
    console_print "⚙️ Setting default git identity..." ;;
    subprocess_run ["git"; "config"; "--global"; "user.name"; "Auto Commit Bot"]
                   None false ;;
    subprocess_run ["git"; "config"; "--global"; "user.email";
                    "autocommit@example.com"] None false ;;
    log_action "Set default git identity.".

End Script.
End GitFullManager.

(* ===================================================================== *)
(** * git_pull.py *)
(* ===================================================================== *)

Module GitPull.
Import Effects.
Local Open Scope py_scope.
Local Open Scope string_scope.

Definition REPO_PATH : string :=
  "/home/gost/all-project/git-all/7heBlackLand.github.io".
Definition LOG_FILE : string :=
  PyStr.path_join "/home/gost/all-project/git-all" "git_actions.log".

Section Script.
Context {W : Type} {host : Host W}.
Variable token : string.

(** [run(cmd, silent)] *)
Definition run (cmd : list string) (silent : bool) : M W unit :=
  (if negb silent then console_print ("🚀 Running: " ++ PyStr.join " " cmd)
   else ret tt) ;;
  subprocess_run cmd None true ;;
  ret tt.

(** [log_action(action_text)] *)
Definition log_action (action_text : string) : M W unit :=
  ts <- strftime ;;
  append_to LOG_FILE ("[" ++ ts ++ "] " ++ action_text ++ PyStr.nl).

(** The block "Ensure repo exists" at the top of the script. *)
Definition ensure_repo_exists : M W unit :=
  present <- os_path_isdir REPO_PATH ;;
  if present : bool then ret tt
  else
    console_print ("⚠️ Repository not found at:" ++ PyStr.nl ++ "   " ++ REPO_PATH
                   ++ PyStr.nl) ;;
    console_print "1️⃣  Clone a new repository" ;;
    console_print "2️⃣  Cancel / Exit" ;;
    answer <- input (PyStr.nl ++ "👉 Enter your choice (1-2): ") ;;
    let choice := PyStr.strip answer in
    if String.eqb choice "1"
    then
      typed <- input (PyStr.nl ++ "🌐 Enter GitHub repository URL to clone: ") ;;
      let repo_url := PyStr.strip typed in
      if negb (PyStr.truthy repo_url)
      then console_print "❌ No URL provided. Exiting..." ;; raise (SystemExit 0)
      else
        let repo_url :=
          if PyStr.startswith repo_url "https://"
             && negb (PyStr.contains "@" repo_url)
          then PyStr.replace repo_url "https://" ("https://" ++ token ++ "@")
          else repo_url in
        os_makedirs (PyStr.dirname REPO_PATH) ;;
        try_except
          (run ["git"; "clone"; repo_url; REPO_PATH] false ;;
           console_print ("✅ Repository cloned successfully into:" ++ PyStr.nl
                          ++ "   " ++ REPO_PATH ++ PyStr.nl) ;;
           log_action ("Cloned repository from " ++ repo_url))
          is_CalledProcessError
          (fun e =>
             console_print ("❌ Failed to clone repository: " ++ str_exn e) ;;
             raise (SystemExit 1))
    else console_print "👋 Cancelled by user. Exiting..." ;; raise (SystemExit 0).

(** The block "Load .env": [token] is the value of [GITHUB_TOKEN], empty
    when the variable is not set. *)
Definition require_token : M W unit :=
  if negb (PyStr.truthy token)
  then console_print "❌ Error: GITHUB_TOKEN not found in .env file." ;;
       raise (SystemExit 1)
  else ret tt.

(** The block "Configure git identity". *)
Definition configure_git_identity : M W unit :=
  try_except
    (run ["git"; "config"; "user.name"; "Auto Commit Bot"] true ;;
     run ["git"; "config"; "user.email"; "autocommit@example.com"] true)
    is_CalledProcessError
    (fun _ => console_print "⚠️ Warning: Could not set git identity.").

(** The block "Fix remote URL with token". *)
Definition fix_remote_url : M W unit :=
  try_except
    (out <- check_output ["git"; "remote"; "get-url"; "origin"] ;;
     let origin_url := PyStr.strip out in
     if negb (PyStr.contains "@" origin_url)
     then
       let origin_url :=
         PyStr.replace origin_url "https://" ("https://" ++ token ++ "@") in
       run ["git"; "remote"; "set-url"; "origin"; origin_url] true
     else ret tt)
    is_CalledProcessError
    (fun _ => console_print "⚠️ Warning: Could not update remote origin URL.").

(** The block "Perform Git Pull". *)
Definition perform_git_pull : M W unit :=
  try_except
    (console_print (PyStr.nl ++ "🔄 Pulling latest changes from GitHub...") ;;
     run ["git"; "pull"] false ;;
     console_print ("✅ Repository updated successfully!" ++ PyStr.nl) ;;
     log_action "Pulled latest changes from GitHub")
    is_CalledProcessError
    (fun e =>
       console_print ("❌ Git pull failed: " ++ str_exn e ++ PyStr.nl) ;;
       log_action ("Git pull failed: " ++ str_exn e)).

Context {process : System.Process W}.

(** The first script of the file, from its first line to the pull. *)
Definition git_pull : M W unit :=
  require_token ;;
  ensure_repo_exists ;;
  System.os_chdir REPO_PATH ;;
  configure_git_identity ;;
  fix_remote_url ;;
  perform_git_pull.

(** The second script of the file, under the comment [git_push.py]; its
    functions [run] and [log_action] are those of the first, defined again. *)
Definition git_push : M W unit :=
  require_token ;;
  present <- os_path_isdir REPO_PATH ;;
  if negb present
  then console_print ("❌ Repository not found at " ++ REPO_PATH
                      ++ ". Please clone it first.") ;;
       raise (SystemExit 1)
  else
    System.os_chdir REPO_PATH ;;
    configure_git_identity ;;
    fix_remote_url ;;
    console_print (PyStr.nl ++ "📦 Ready to push local changes...") ;;
    log_action "git_push.py started - ready for push logic".

(** The file as Python runs it: one script after the other. *)
Definition main : M W unit := git_pull ;; git_push.

End Script.
End GitPull.

(* ===================================================================== *)
(** * Python lists and integers *)
(* ===================================================================== *)

Module PyList.

(** [xs[i]]: a negative index counts from the end, and [None] stands for
    IndexError. *)
Definition index {A} (xs : list A) (i : Z) : option A :=
  let n := Z.of_nat (List.length xs) in
  if (0 <=? i)%Z then nth_error xs (Z.to_nat i)
  else if (- n <=? i)%Z then nth_error xs (Z.to_nat (n + i))
  else None.

(** [sorted(xs)] for strings: by code point, which on UTF-8 text is the
    order of the bytes. *)
Fixpoint insert (x : string) (xs : list string) : list string :=
  match xs with
  | [] => [x]
  | y :: rest => if String.leb x y then x :: xs else y :: insert x rest
  end.

Definition sorted (xs : list string) : list string := fold_right insert [] xs.

End PyList.

Module PyInt.

(** [int(s)] on ASCII text: white space around, an optional sign, decimal
    digits, single underscores between digits; [None] stands for
    ValueError. *)
Definition digit (c : ascii) : option Z :=
  let n := nat_of_ascii c in
  if Nat.leb 48 n && Nat.leb n 57 then Some (Z.of_nat (n - 48)) else None.

Fixpoint digits (acc : Z) (after_digit : bool) (s : string) : option Z :=
  match s with
  | EmptyString => if after_digit then Some acc else None
  | String c rest =>
      match digit c with
      | Some d => digits (10 * acc + d) true rest
      | None =>
          if Ascii.eqb c "_" && after_digit then digits acc false rest
          else None
      end
  end.

Definition int (s : string) : option Z :=
  match PyStr.strip s with
  | String "-" rest => option_map Z.opp (digits 0 false rest)
  | String "+" rest => digits 0 false rest
  | text => digits 0 false text
  end.

End PyInt.

(* ===================================================================== *)
(** * PyGithub and the prompts of rich *)
(* ===================================================================== *)

Module Hub.
Import Effects.
Local Open Scope string_scope.

(** A repository as PyGithub lists it: the fields the scripts read. *)
Record listed : Type := mkListed {
  repository :> Blackland.Repository;
  private : bool
}.

(** The calls the scripts make; a repository is named by its [full_name]. *)
Inductive call : Type :=
| GetRepos
| CreateRepo (name description : string) (private auto_init : bool)
| DeleteRepo (full_name : string)
| GetGitRef (full_name ref : string)
| DeleteGitRef (full_name ref : string)
| GetContents (full_name path ref : string)
| UpdateFile (full_name path message content sha branch : string)
| CreateFile (full_name path message content branch : string).

(** What a call gives: an exception, of class [GithubException] or not, or
    a value. *)
Inductive answer : Type :=
| Fails (github_exception : bool) (message : string)
| Done
| Repos (rs : list listed)
| Repo (r : listed)
| Content (path sha : string).

(** GitHub and the terminal: the API, [Prompt.ask], [Confirm.ask], and the
    text rich renders for a table and for a panel. *)
Class Service (W : Type) : Type := {
  github : call -> W -> answer * W;
  prompt_ask : string -> option string -> W -> string * W;
  confirm_ask : string -> option bool -> W -> bool * W;
  table_text : string -> list string -> list (list string) -> string;
  panel_text : string -> string
}.

(** What the user and GitHub were asked, in order. *)
Inductive entry : Type :=
| Api (c : call) (a : answer)
| Asked (prompt : string) (default : option string) (reply : string)
| Confirmed (question : string) (default : option bool) (reply : bool).

(** The world of a script that talks to GitHub: the host's, and the journal
    of what was asked. *)
Record desk (W : Type) : Type := mkDesk {
  under : W;
  journal : list entry
}.
Arguments mkDesk {W} _ _.
Arguments under {W} _.
Arguments journal {W} _.

Definition on_desk {W A} (f : W -> A * W) (d : desk W) : A * desk W :=
  let '(a, w) := f (under d) in (a, mkDesk w (journal d)).

#[global] Instance desk_host {W : Type} {host : Host W} : Host (desk W) := {
  subprocess_exec := fun argv cwd => on_desk (subprocess_exec argv cwd);
  requests_get := fun url => on_desk (requests_get url);
  fs_makedirs := fun path => on_desk (fs_makedirs path);
  fs_append := fun path text => on_desk (fs_append path text);
  fs_isdir := fun path d => fs_isdir path (under d);
  fs_exists := fun path d => fs_exists path (under d);
  time_strftime := fun d => time_strftime (under d);
  read_input := fun prompt => on_desk (read_input prompt);
  library := fun op => on_desk (library op)
}.

#[global] Instance desk_process {W : Type} {process : System.Process W}
  : System.Process (desk W) := {
  process_chdir := fun path => on_desk (System.process_chdir path);
  process_listdir := fun path d => System.process_listdir path (under d)
}.

Definition is_GithubException (e : exn) : bool :=
  match e with
  | PyException "GithubException" _ => true
  | _ => false
  end.

Section Calls.
Context {W : Type} {host : Host W} {service : Service W}.

Definition note (e : entry) (w : W) (st : state (desk W)) : state (desk W) :=
  mkState (mkDesk w (journal (world st) ++ [e])) (trace st).

(** A call of the API: it raises or returns. *)
Definition api (c : call) : M (desk W) answer :=
  fun st =>
    let '(a, w) := github c (under (world st)) in
    let st' := note (Api c a) w st in
    match a with
    | Fails true msg => (Raise (PyException "GithubException" msg), st')
    | Fails false msg => (Raise (PyException "Exception" msg), st')
    | _ => (Return a, st')
    end.

Definition api_ (c : call) : M (desk W) unit := bind (api c) (fun _ => ret tt).

(** [list(user.get_repos())] *)
Definition get_repos : M (desk W) (list listed) :=
  bind (api GetRepos)
       (fun a => match a with
                 | Repos rs => ret rs
                 | _ => raise (PyException "TypeError" "not a list")
                 end).

(** [user.create_repo(...)] *)
Definition create_repo (name description : string) (private auto_init : bool)
  : M (desk W) listed :=
  bind (api (CreateRepo name description private auto_init))
       (fun a => match a with
                 | Repo r => ret r
                 | _ => raise (PyException "TypeError" "not a repository")
                 end).

(** [repo.get_contents(path, ref=branch)] for a file: its path and sha. *)
Definition get_contents (full_name path ref : string) : M (desk W) (string * string) :=
  bind (api (GetContents full_name path ref))
       (fun a => match a with
                 | Content p sha => ret (p, sha)
                 | _ => raise (PyException "AttributeError" "not a file")
                 end).

(** [Prompt.ask(prompt, default=...)] *)
Definition Prompt_ask (prompt : string) (default : option string)
  : M (desk W) string :=
  fun st =>
    let '(reply, w) := prompt_ask prompt default (under (world st)) in
    (Return reply, note (Asked prompt default reply) w st).

(** [Confirm.ask(question, default=...)] *)
Definition Confirm_ask (question : string) (default : option bool)
  : M (desk W) bool :=
  fun st =>
    let '(reply, w) := confirm_ask question default (under (world st)) in
    (Return reply, note (Confirmed question default reply) w st).

(** [console.print(table)] and [console.print(Panel(text))] *)
Definition print_table (title : string) (columns : list string)
    (rows : list (list string)) : M (desk W) unit :=
  console_print (table_text title columns rows).

Definition print_panel (text : string) : M (desk W) unit :=
  console_print (panel_text text).

(** [[x for x in xs if test(x)]] *)
Fixpoint keep_if {A} (test : A -> M (desk W) bool) (xs : list A)
  : M (desk W) (list A) :=
  match xs with
  | [] => ret []
  | x :: rest =>
      bind (test x)
           (fun keep =>
              bind (keep_if test rest)
                   (fun kept => ret (if keep : bool then x :: kept else kept)))
  end.

End Calls.

(** The rows of a table of repositories: number, name, visibility. *)
Definition numbered_rows (shown : Blackland.Repository -> string)
    (rs : list listed) : list (list string) :=
  map (fun ir : nat * listed =>
         [PyStr.str_of_nat (fst ir); shown (snd ir);
          if private (snd ir) then "🔒" else "🌍"])
      (combine (seq 1 (List.length rs)) rs).

(** What was asked of GitHub. *)
Definition api_calls (j : list entry) : list call :=
  flat_map (fun e => match e with Api c _ => [c] | _ => [] end) j.

End Hub.

(* ===================================================================== *)
(** * blackland-manager.py: the functions over the API and the menus *)
(* ===================================================================== *)

Module BlacklandMenus.
Import Effects Hub.
Local Open Scope py_scope.
Local Open Scope string_scope.

Section Script.
Context {W : Type} {host : Host W} {process : System.Process W}
        {service : Service W}.
Variable TOKEN : string.
Variable login : string.

(** [int(s)] of Python; [None] stands for ValueError. *)
Variable int : string -> option Z.

(** [list_repos(limit)], for a limit that is not negative. *)
Definition list_repos (limit : nat) : M (desk W) (list listed) :=
  try_except
    (repos <- get_repos ;;
     ret (firstn limit repos))
    is_Exception
    (fun e =>
       console_print ("[red]Failed to load repos: " ++ str_exn e ++ "[/red]") ;;
       ret []).

(** [create_repo_interactive()]; it returns [None] when the creation
    fails. *)
Definition create_repo_interactive : M (desk W) (option listed) :=
  name <- Prompt_ask "Repository name" None ;;
  description <- Prompt_ask "Description" (Some ("Repository " ++ name)) ;;
  is_private <- Confirm_ask "Make repository PRIVATE?" (Some false) ;;
  auto_init <- Confirm_ask "Initialize with README?" (Some false) ;;
  try_except
    (repo <- create_repo name description is_private auto_init ;;
     console_print ("[green]Created " ++ Blackland.full_name repo ++ "[/green]") ;;
     Blackland.log_action ("Created repo " ++ Blackland.full_name repo) ;;
     ret (Some repo))
    is_Exception
    (fun e =>
       if is_GithubException e
       then console_print ("[red]GitHub API error: " ++ str_exn e ++ "[/red]") ;;
            ret None
       else console_print ("[red]Error creating repo: " ++ str_exn e ++ "[/red]") ;;
            ret None).

(** [delete_repo_interactive(repo)] *)
Definition delete_repo_interactive (repo : listed) : M (desk W) unit :=
  sure <- Confirm_ask ("Delete " ++ Blackland.full_name repo
                       ++ "? This is irreversible.") (Some false) ;;
  if negb sure
  then console_print "[cyan]Cancelled[/cyan]"
  else
    try_except
      (api_ (DeleteRepo (Blackland.full_name repo)) ;;
       console_print ("[green]Deleted " ++ Blackland.full_name repo ++ "[/green]") ;;
       Blackland.log_action ("Deleted " ++ Blackland.full_name repo))
      is_Exception
      (fun e =>
         console_print ("[red]Delete failed: " ++ str_exn e ++ "[/red]")).

(** [delete_branch_api(repo)] *)
Definition delete_branch_api (repo : listed) : M (desk W) unit :=
  name <- Prompt_ask "Branch name to delete" None ;;
  if String.eqb name (Blackland.default_branch repo)
  then console_print "[yellow]Cannot delete default branch.[/yellow]"
  else
    try_except
      (api_ (GetGitRef (Blackland.full_name repo) ("heads/" ++ name)) ;;
       api_ (DeleteGitRef (Blackland.full_name repo) ("heads/" ++ name)) ;;
       console_print ("[green]Deleted branch " ++ name ++ "[/green]") ;;
       Blackland.log_action ("Deleted branch " ++ name ++ " in "
                             ++ Blackland.full_name repo))
      is_Exception
      (fun e =>
         console_print ("[red]Delete branch failed: " ++ str_exn e ++ "[/red]")).


(** [select_repo_interactive()] *)
Definition select_repo_interactive : M (desk W) (option listed) :=
  repos <- list_repos 200 ;;
  match repos with
  | [] =>
      console_print "[yellow]No repositories found.[/yellow]" ;;
      create <- Confirm_ask "Create one now?" None ;;
      if create : bool then create_repo_interactive else ret None
  | _ =>
      print_table ("Your repositories (top "
                   ++ PyStr.str_of_nat (List.length repos) ++ ")")
                  ["No"; "Name"; "Private"]
                  (numbered_rows Blackland.name repos) ;;
      console_print "[blue]0[/blue] → Create new repository" ;;
      choice <- Prompt_ask "Enter number" (Some "1") ;;
      match int choice with
      | None => console_print "[red]Invalid input[/red]" ;; ret None
      | Some idx =>
          if (idx =? 0)%Z then create_repo_interactive
          else if ((1 <=? idx) && (idx <=? Z.of_nat (List.length repos)))%Z
          then ret (PyList.index repos (idx - 1))
          else console_print "[red]Choice out of range[/red]" ;; ret None
      end
  end.

(** [batch_workspace_manager()]: the listing of the workspace, the menu,
    the cloning of what is missing, and the loop of
    [Blackland.batch_workspace_manager]. *)
Definition batch_workspace_manager : M (desk W) unit :=
  present <- os_path_isdir Blackland.REPO_PATH ;;
  if negb present
  then console_print ("[red]Workspace not found: " ++ Blackland.REPO_PATH
                      ++ "[/red]")
  else
    names <- System.os_listdir Blackland.REPO_PATH ;;
    found <- keep_if (fun d => os_path_isdir
                                 (PyStr.path_join Blackland.REPO_PATH d)) names ;;
    let dirs := PyList.sorted found in
    repo_dirs <- keep_if (fun d => os_path_isdir
                                     (PyStr.path_join
                                        (PyStr.path_join Blackland.REPO_PATH d)
                                        ".git")) dirs ;;
    match repo_dirs with
    | [] => console_print
              "[red]No local git repositories found in workspace.[/red]"
    | _ =>
        print_panel "[bold cyan]Batch Workspace Manager[/bold cyan]" ;;
        console_print ("1) Pull all" ++ PyStr.nl ++ "2) Push all" ++ PyStr.nl
                       ++ "3) Sync all (pull then push)" ++ PyStr.nl
                       ++ "4) Clone missing (from remote)" ++ PyStr.nl
                       ++ "5) Back") ;;
        answer <- Prompt_ask "Enter choice" (Some "5") ;;
        let choice := PyStr.strip answer in
        if String.eqb choice "5" then ret tt
        else
          commit_msg <-
            (if PyStr.mem choice ["2"; "3"]
             then Prompt_ask "Commit message" (Some Blackland.DEFAULT_COMMIT_MSG)
             else ret Blackland.DEFAULT_COMMIT_MSG) ;;
          if String.eqb choice "4"
          then
            repos <- list_repos 1000 ;;
            for_each repos
              (fun r : listed =>
                 there <- os_path_exists
                            (PyStr.path_join Blackland.REPO_PATH
                                             (Blackland.name r)) ;;
                 if negb there
                 then Blackland.clone_repo_to_workspace TOKEN login r
                 else ret tt)
          else Blackland.batch_workspace_manager TOKEN login repo_dirs choice
                                                 commit_msg
    end.

End Script.
End BlacklandMenus.

(* ===================================================================== *)
(** * git-full-manager.py: the functions over the API and the menus *)
(* ===================================================================== *)

Module GitFullMenus.
Import Effects Hub.
Local Open Scope py_scope.
Local Open Scope string_scope.

Section Script.
Context {W : Type} {host : Host W} {process : System.Process W}
        {service : Service W}.
Variable TOKEN : string.
Variable login : string.

(** [int(s)] of Python; [None] stands for ValueError. *)
Variable int : string -> option Z.

Definition int_or_raise (s : string) : M (desk W) Z :=
  match int s with
  | Some i => ret i
  | None => raise (PyException "ValueError" s)
  end.

(** [repos[i]] *)
Definition item (repos : list listed) (i : Z) : M (desk W) listed :=
  match PyList.index repos i with
  | Some r => ret r
  | None => raise (PyException "IndexError" "list index out of range")
  end.

(** [list_repos()] *)
Definition list_repos : M (desk W) (list listed) :=
  repos <- get_repos ;;
  print_table "Your Repositories" ["No"; "Name"; "Private"]
              (numbered_rows Blackland.name repos) ;;
  ret repos.

(** [delete_repo()] *)
Definition delete_repo : M (desk W) unit :=
  repos <- list_repos ;;
  answer <- Prompt_ask "Enter repo number to delete" None ;;
  idx <- int_or_raise answer ;;
  repo <- item repos (idx - 1) ;;
  sure <- Confirm_ask ("Are you sure you want to delete " ++ Blackland.name repo
                       ++ "?") (Some false) ;;
  if sure : bool
  then
    api_ (DeleteRepo (Blackland.full_name repo)) ;;
    console_print ("🗑️ Deleted " ++ Blackland.name repo) ;;
    GitFullManager.log_action ("Deleted repo " ++ Blackland.name repo)
  else ret tt.

(** The loop of [clone_repositories_to_workspace] over [to_clone]. *)
Definition clone_each (to_clone : list listed) : M (desk W) unit :=
  for_each to_clone
    (fun r : listed =>
       let local_path := PyStr.path_join GitFullManager.REPO_PATH
                                         (Blackland.name r) in
       there <- os_path_exists local_path ;;
       if there : bool
       then console_print ("⚠️ Skipping " ++ Blackland.name r
                           ++ " (already exists)")
       else
         let url := PyStr.replace (Blackland.clone_url r) "https://"
                                  ("https://" ++ TOKEN ++ "@") in
         console_print ("🔽 Cloning " ++ Blackland.name r ++ " ...") ;;
         GitFullManager.run_shell ["git"; "clone"; url; local_path] None true ;;
         GitFullManager.log_action ("Cloned " ++ Blackland.name r)).

(** [[int(x.strip()) for x in raw.split(",")]] *)
Fixpoint numbers (parts : list string) : M (desk W) (list Z) :=
  match parts with
  | [] => ret []
  | x :: rest =>
      i <- int_or_raise (PyStr.strip x) ;;
      more <- numbers rest ;;
      ret (i :: more)
  end.

(** [[repos[i - 1] for i in idxs]] *)
Fixpoint chosen (repos : list listed) (idxs : list Z) : M (desk W) (list listed) :=
  match idxs with
  | [] => ret []
  | i :: rest =>
      r <- item repos (i - 1) ;;
      rs <- chosen repos rest ;;
      ret (r :: rs)
  end.

(** [clone_repositories_to_workspace()] *)
Definition clone_repositories_to_workspace : M (desk W) unit :=
  os_makedirs GitFullManager.REPO_PATH ;;
  repos <- get_repos ;;
  console_print ("[bold cyan]Clone Options:[/bold cyan]" ++ PyStr.nl ++ "1) All"
                 ++ PyStr.nl ++ "2) Choose Specific" ++ PyStr.nl ++ "3) Cancel") ;;
  ch <- Prompt_ask "Choice" (Some "3") ;;
  if String.eqb ch "3" then ret tt
  else
    let to_clone := if String.eqb ch "1" then repos else [] in
    to_clone <-
      (if String.eqb ch "2"
       then
         print_table "Select Repositories" ["No"; "Name"]
                     (map (fun ir : nat * listed =>
                             [PyStr.str_of_nat (fst ir); Blackland.name (snd ir)])
                          (combine (seq 1 (List.length repos)) repos)) ;;
         raw <- Prompt_ask "Enter numbers (comma-separated)" None ;;
         idxs <- numbers (PyStr.split "," raw) ;;
         chosen repos idxs
       else ret to_clone) ;;
    clone_each to_clone.

(** [batch_git_manager()]: the listing of the workspace, the menu, and the
    loop of [GitFullManager.batch_git_manager]. *)
Definition batch_git_manager : M (desk W) unit :=
  present <- os_path_isdir GitFullManager.REPO_PATH ;;
  if negb present
  then console_print "[red]Workspace missing![/red]"
  else
    names <- System.os_listdir GitFullManager.REPO_PATH ;;
    repos <- keep_if (fun d => os_path_isdir
                                 (PyStr.path_join
                                    (PyStr.path_join GitFullManager.REPO_PATH d)
                                    ".git")) names ;;
    match repos with
    | [] => console_print "[red]No local repos found.[/red]"
    | _ =>
        console_print (PyStr.nl ++ "[bold cyan]Batch Operations[/bold cyan]"
                       ++ PyStr.nl ++ "1) Pull all" ++ PyStr.nl ++ "2) Push all"
                       ++ PyStr.nl ++ "3) Sync all" ++ PyStr.nl ++ "4) Cancel"
                       ++ PyStr.nl) ;;
        ch <- Prompt_ask "Choice" (Some "4") ;;
        if String.eqb ch "4" then ret tt
        else GitFullManager.batch_git_manager TOKEN login repos ch
    end.

End Script.
End GitFullMenus.

(* ===================================================================== *)
(** * Commands, recorded lines, and what the scripts rely on from git *)
(* ===================================================================== *)

Module Contract.
Import Effects.

(** The command lines of the alignment and of the tokenization, and the URL
    of the API lookup. *)
Definition git_fetch_all (p : string) : list string :=
  ["git"; "-C"; p; "fetch"; "--all"].
Definition git_get_url (p : string) : list string :=
  ["git"; "-C"; p; "remote"; "get-url"; "origin"].
Definition git_set_url (p u : string) : list string :=
  ["git"; "-C"; p; "remote"; "set-url"; "origin"; u].
Definition git_rev_parse (p : string) : list string :=
  ["git"; "-C"; p; "rev-parse"; "--abbrev-ref"; "HEAD"].
Definition git_symbolic_ref (p : string) : list string :=
  ["git"; "-C"; p; "symbolic-ref"; "refs/remotes/origin/HEAD"].
Definition api_url (owner repo_name : string) : string :=
  ("https://api.github.com/repos/" ++ owner ++ "/" ++ repo_name)%string.

(** The commands of [safe_push]. *)
Definition push_cmd (p : string) : list string := ["git"; "-C"; p; "push"].
Definition fetch_cmd (p : string) : list string :=
  ["git"; "-C"; p; "fetch"; "origin"].
Definition rebase_cmd (p : string) : list string :=
  ["git"; "-C"; p; "pull"; "--rebase"].
Definition lease_cmd (p : string) : list string :=
  ["git"; "-C"; p; "push"; "--force-with-lease"].

(** The five ways a call of [safe_push] can go: its result and the commands
    it has run, in order. *)
Inductive push_run (p : string) : bool -> list (list string) -> Prop :=
| run_direct : push_run p true [push_cmd p]
| run_fetch_failed : push_run p false [push_cmd p; fetch_cmd p]
| run_rebased : push_run p true [push_cmd p; fetch_cmd p; rebase_cmd p]
| run_forced :
    push_run p true [push_cmd p; fetch_cmd p; rebase_cmd p; lease_cmd p]
| run_force_rejected :
    push_run p false [push_cmd p; fetch_cmd p; rebase_cmd p; lease_cmd p].

(** A failure is reported on the console: a line in red. *)
Definition reported (t : list event) : bool :=
  existsb (fun s => PyStr.startswith s "[red]") (printed t).

(** The events that make the processing of a working copy fail in
    [batch_workspace_manager]: a pull or an add that exits non-zero, and in
    the recovery of [safe_push] a fetch or a push with lease that does. *)
Definition blackland_failure (e : event) : bool :=
  match e with
  | Spawn ["git"; "-C"; _; "pull"] _ (S _) => true
  | Spawn ["git"; "-C"; _; "add"; "."] _ (S _) => true
  | Spawn ["git"; "-C"; _; "fetch"; "origin"] _ (S _) => true
  | Spawn ["git"; "-C"; _; "push"; "--force-with-lease"] _ (S _) => true
  | _ => false
  end.

(** The same for [batch_git_manager]: a pull, an add or a push that exits
    non-zero. *)
Definition gitfull_failure (e : event) : bool :=
  match e with
  | Spawn ["git"; "-C"; _; "pull"] _ (S _) => true
  | Spawn ["git"; "-C"; _; "add"; "."] _ (S _) => true
  | Spawn ["git"; "-C"; _; "push"] _ (S _) => true
  | _ => false
  end.

(** What one turn of a batch loop leaves in the trace: the directory is
    announced first, and a failure among the events that follow is
    reported. *)
Definition turn_of (announce : string -> string) (failure : event -> bool)
    (d : string) (ext : list event) : Prop :=
  exists rest,
    ext = Print (announce d) :: rest /\
    (existsb failure rest = true -> reported rest = true).

(** How the two batch loops announce a directory. *)
Definition blackland_announce (d : string) : string :=
  (PyStr.nl ++ "📂 [bold cyan]" ++ d ++ "[/bold cyan]")%string.
Definition gitfull_announce (r : string) : string :=
  (PyStr.nl ++ "📂 [green]" ++ r ++ "[/green]")%string.

(** The lines of an alignment: on the console, and in the log. *)
Definition aligning_line (local_branch default_branch p : string) : string :=
  ("🔁 Aligning branch: local '" ++ local_branch ++ "' → remote default '"
   ++ default_branch ++ "' in " ++ p)%string.
Definition stamped (ts msg : string) : string :=
  ("[" ++ ts ++ "] " ++ msg ++ PyStr.nl)%string.

(** The branch a lookup yields on the answer [r] of the API. *)
Definition branch_in (r : http_result) : string :=
  match r with
  | HttpResponse true (Some (JObject (Some b))) => b
  | _ => "main"
  end.

(** The URL is one that the scripts rewrite, and its rewriting. *)
Definition needs_token (url : string) : bool :=
  PyStr.startswith url "https://" && negb (PyStr.contains "@" url).
Definition tokenized (token url : string) : string :=
  PyStr.replace url "https://" ("https://" ++ token ++ "@").

Definition is_set_url (argv : list string) : bool :=
  match argv with
  | ["git"; "-C"; _; "remote"; "set-url"; "origin"; _] => true
  | _ => false
  end.

(** No command of the trace exited with a non-zero status. *)
Definition all_succeeded (t : list event) : bool :=
  forallb (fun e => match e with Spawn _ _ (S _) => false | _ => true end) t.

(** Commands of the scripts that leave the checked-out branch alone. *)
Definition keeps_branch (argv : list string) : bool :=
  match argv with
  | ["git"; "-C"; _; "fetch"; "--all"] => true
  | ["git"; "-C"; _; "fetch"; "origin"; _] => true
  | ["git"; "-C"; _; "symbolic-ref"; _] => true
  | ["git"; "-C"; _; "rev-parse"; "--abbrev-ref"; "HEAD"] => true
  | ["git"; "-C"; _; "branch"; "--set-upstream-to"; _] => true
  | ["git"; "-C"; _; "branch"; "--set-upstream-to"; _; _] => true
  | ["git"; "-C"; _; "remote"; "get-url"; "origin"] => true
  | ["git"; "-C"; _; "remote"; "set-url"; "origin"; _] => true
  | _ => false
  end.

(** A host whose git keeps, for each working copy, a checked-out branch and
    the URL of [origin].  Both are observed as Python reads them: the text a
    command prints, with the surrounding white space removed.  Nothing is
    assumed of [git checkout]: its exit status does not tell whether the
    branch has changed (a name that is also a path is checked out as a path,
    with status 0, and a hook can fail after the switch). *)
Class Git {W : Type} (host : Host W) : Type := {
  branch_of : W -> string -> string;
  origin_of : W -> string -> string;

  rev_parse_reads : forall p w rc out w',
    subprocess_exec (git_rev_parse p) None w = ((rc, out), w') ->
    rc = 0 -> PyStr.strip out = branch_of w p;
  branch_kept : forall argv w r w',
    keeps_branch argv = true ->
    subprocess_exec argv None w = (r, w') ->
    branch_of w' = branch_of w;

  get_url_reads : forall p w rc out w',
    subprocess_exec (git_get_url p) None w = ((rc, out), w') ->
    origin_of w' = origin_of w /\ (rc = 0 -> PyStr.strip out = origin_of w p);
  set_url_writes : forall p u w rc out w',
    subprocess_exec (git_set_url p u) None w = ((rc, out), w') ->
    origin_of w' p = if Nat.eqb rc 0 then PyStr.strip u else origin_of w p;

  request_keeps : forall url w r w',
    requests_get url w = (r, w') ->
    branch_of w' = branch_of w /\ origin_of w' = origin_of w;
  makedirs_keeps : forall path w r w',
    fs_makedirs path w = (r, w') ->
    branch_of w' = branch_of w /\ origin_of w' = origin_of w;
  append_keeps : forall path text w r w',
    fs_append path text w = (r, w') ->
    branch_of w' = branch_of w /\ origin_of w' = origin_of w
}.

(** ** The commands and the lines of an alignment *)




End Contract.

(* ===================================================================== *)
(** * What is looked at in a run *)
(* ===================================================================== *)

Module Watch.
Import Effects Contract.
Local Open Scope string_scope.
Local Open Scope list_scope.

(** ** Commands *)

(** The git subcommand of a command line, a leading [-C <path>] aside. *)
Definition subcommand (argv : list string) : option string :=
  match argv with
  | g :: rest =>
      if String.eqb g "git"
      then match rest with
           | c :: _ :: s :: _ => if String.eqb c "-C" then Some s else Some c
           | s :: _ => Some s
           | [] => None
           end
      else None
  | [] => None
  end.

Definition runs (words : list string) (argv : list string) : bool :=
  match subcommand argv with
  | Some s => PyStr.mem s words
  | None => false
  end.

Definition upkeep : list string :=
  ["remote"; "fetch"; "symbolic-ref"; "rev-parse"; "checkout"; "branch"].

Definition commit_succeeded (e : event) : bool :=
  match e with
  | Spawn argv _ 0 => runs ["commit"] argv
  | _ => false
  end.

Definition is_plain_pull (argv : list string) : bool :=
  match argv with
  | [g; c; _; s] => argv_eqb [g; c; s] ["git"; "-C"; "pull"]
  | _ => false
  end.

(** A command that is not one of the upkeep. *)
Definition beyond_upkeep (argv : list string) : bool := negb (runs upkeep argv).

(** The line [run_cmd] prints for a command, and a trace in which every
    command comes right after that line; [said] is the line printed by the
    event before, if it was a print. *)
Definition announcement (argv : list string) : string :=
  ("🚀 " ++ PyStr.join " " argv)%string.

Fixpoint announced (said : option string) (t : list event) : bool :=
  match t with
  | [] => true
  | Print s :: rest => announced (Some s) rest
  | Spawn argv _ _ :: rest =>
      match said with
      | Some s => String.eqb s (announcement argv)
      | None => false
      end && announced None rest
  | _ :: rest => announced None rest
  end.

(** ** The identity and the workspace *)

Definition read_name : list string := ["git"; "config"; "--global"; "user.name"].
Definition read_email : list string := ["git"; "config"; "--global"; "user.email"].
Definition set_name : list string :=
  ["git"; "config"; "--global"; "user.name"; "Auto Commit Bot"].
Definition set_email : list string :=
  ["git"; "config"; "--global"; "user.email"; "autocommit@example.com"].

Definition identity_complete {W} {host : Host W} (w : W) : bool :=
  match subprocess_exec read_name None w with
  | ((0, out1), w1) =>
      match subprocess_exec read_email None w1 with
      | ((0, out2), _) =>
          PyStr.truthy (PyStr.strip out1) && PyStr.truthy (PyStr.strip out2)
      | _ => false
      end
  | _ => false
  end.

Definition git_clone (url path : string) : list string := ["git"; "clone"; url; path].
Definition workspace_clone_url (token : string) (repo : Blackland.Repository) : string :=
  if needs_token (Blackland.clone_url repo)
  then tokenized token (Blackland.clone_url repo)
  else Blackland.clone_url repo.
Definition workspace_path (repo : Blackland.Repository) : string :=
  PyStr.path_join Blackland.REPO_PATH (Blackland.name repo).

(** ** Parts of a script *)

Section Parts.
Context {W : Type}.

(** A part of a script none of whose commands satisfies [f], however it
    ends. *)
Definition spawns_none {A} (f : list string -> bool) (m : M W A) : Prop :=
  forall st, exists r w ext,
    m st = (r, mkState w (trace st ++ ext)) /\
    existsb f (spawned ext) = false.

End Parts.

(** ** The library calls of the upload *)

(** The answer of a library call is an exception. *)
Definition raises (r : libres) : bool :=
  match r with LibRaises _ => true | _ => false end.

Definition text_of (r : libres) : string :=
  match r with LibText s => s | _ => EmptyString end.

Definition flag_of (r : libres) : bool :=
  match r with LibFlag b => b | _ => false end.


Definition is_push_call (op : libop) : bool :=
  match op with RemotePush _ _ _ => true | _ => false end.

Definition is_commit_call (op : libop) : bool :=
  match op with IndexCommit _ _ => true | _ => false end.

(** A commit that went through. *)
Definition commit_made (e : event) : bool :=
  match e with
  | Lib (IndexCommit _ _) r => negb (raises r)
  | _ => false
  end.

(** ** [git_pull.py] *)

Definition git_pull_cmd : list string := ["git"; "pull"].

(** What the part of [git_pull.py] after the clone can print, the one line
    that depends on the run aside, and what it can log. *)
Definition sync_warnings : list string :=
  ["⚠️ Warning: Could not set git identity.";
   "⚠️ Warning: Could not update remote origin URL.";
   (PyStr.nl ++ "🔄 Pulling latest changes from GitHub...")%string;
   "🚀 Running: git pull";
   ("✅ Repository updated successfully!" ++ PyStr.nl)%string].

Definition pull_failure (rc : nat) : string :=
  ("Git pull failed: " ++ str_exn (CalledProcessError git_pull_cmd rc))%string.

Definition sync_print (s : string) : Prop :=
  In s sync_warnings \/ exists rc, s = ("❌ " ++ pull_failure rc ++ PyStr.nl)%string.

Definition sync_record (s : string) : Prop :=
  exists ts,
    s = stamped ts "Pulled latest changes from GitHub" \/
    exists rc, s = stamped ts (pull_failure rc).

(** The answers typed at the prompts. *)
Definition answered (t : list event) : list string :=
  flat_map (fun e => match e with Input _ a => [a] | _ => [] end) t.

(** ** GitHub and the terminal *)

Import Hub.

Definition is_delete_repo (c : call) : bool :=
  match c with DeleteRepo _ => true | _ => false end.
(** The repositories a listing shows: the answer of [GetRepos]. *)
Definition listing (a : answer) : list listed :=
  match a with Repos rs => rs | _ => [] end.
(** The answer of a call is an exception. *)
Definition failed (a : answer) : bool :=
  match a with Fails _ _ => true | _ => false end.
Definition confirmed (j : list entry) : bool :=
  existsb (fun e => match e with Confirmed _ _ true => true | _ => false end) j.

(** ** The clone loop of [git-full-manager.py] *)

(** A command that fails is the last one, and its error is how the run
    ends. *)
Definition stops_at_failure {A} (r : outcome A) (ext : list event) : Prop :=
  forall cmd cwd rc,
    In (Spawn cmd cwd (S rc)) ext ->
    r = Raise (CalledProcessError cmd (S rc)) /\
    List.last (spawned ext) [] = cmd.

(** The lines of [clone_repositories_to_workspace] for one repository. *)
Definition clone_lines (r : listed) : list string :=
  [("⚠️ Skipping " ++ Blackland.name r ++ " (already exists)")%string;
   ("🔽 Cloning " ++ Blackland.name r ++ " ...")%string].
Definition clone_record (r : listed) (s : string) : Prop :=
  exists ts, s = stamped ts ("Cloned " ++ Blackland.name r)%string.

(** The command of [clone_repositories_to_workspace] for one repository:
    the URL it clones from holds the token. *)
Definition gitfull_clone_cmd (TOKEN : string) (r : listed) : list string :=
  git_clone (PyStr.replace (Blackland.clone_url r) "https://"
                           ("https://" ++ TOKEN ++ "@"))
            (PyStr.path_join GitFullManager.REPO_PATH (Blackland.name r)).

(** The error of a run of the clone loop that a command has ended: it is
    the [CalledProcessError] of the clone of one of the repositories, which
    carries the command line with the URL and the token in it. *)
Definition clone_error {A} (TOKEN : string) (to_clone : list listed)
    (r : outcome A) (ext : list event) : Prop :=
  forall cmd cwd rc,
    In (Spawn cmd cwd (S rc)) ext ->
    exists r0, In r0 to_clone /\ cmd = gitfull_clone_cmd TOKEN r0 /\
               r = Raise (CalledProcessError (gitfull_clone_cmd TOKEN r0) (S rc)).

(** An exception of the reading of a selection: a part that is no number,
    or a number that is no index of the list. *)
Definition is_selection_error (e : exn) : bool :=
  match e with
  | PyException c _ => PyStr.mem c ["ValueError"; "IndexError"]
  | _ => false
  end.

Definition ends_in {A} (c : exn -> bool) (r : outcome A) : bool :=
  match r with
  | Raise e => c e
  | Return _ => false
  end.

(** ** The turns of the batch loops *)






End Watch.

(* ===================================================================== *)
(** * A small host to run the scripts on *)
(* ===================================================================== *)

Module Sim.
Import Effects.
Local Open Scope string_scope.

(** One machine: per working copy the checked-out branch, the URL of
    [origin] and the target of [origin/HEAD]; the exit status every command
    line meets (0 lets it act); the answers of the API, of the file system,
    of the terminal and of the libraries. *)
Record world : Type := mkWorld {
  branches : string -> string;
  origins : string -> string;
  origin_head : string -> option string;
  exit_status : list string -> nat;
  api : string -> http_result;
  log_writable : bool;
  clock : string;
  dirs : list string;
  answers : list string;
  libs : libop -> libres
}.

Definition update (f : string -> string) (k v : string) : string -> string :=
  fun x => if String.eqb x k then v else f x.

Definition set_branch (w : world) (p b : string) : world :=
  mkWorld (update (branches w) p b) (origins w) (origin_head w) (exit_status w)
          (api w) (log_writable w) (clock w) (dirs w) (answers w) (libs w).

Definition set_origin (w : world) (p u : string) : world :=
  mkWorld (branches w) (update (origins w) p u) (origin_head w) (exit_status w)
          (api w) (log_writable w) (clock w) (dirs w) (answers w) (libs w).

Definition pop_answer (w : world) : string * world :=
  match answers w with
  | [] => (EmptyString, w)
  | a :: rest =>
      (a, mkWorld (branches w) (origins w) (origin_head w) (exit_status w)
                  (api w) (log_writable w) (clock w) (dirs w) rest (libs w))
  end.

(** A command that exits with a non-zero status has no effect; git refuses
    to check out a name with white space around it.  The commands the
    machine knows are told apart by their words, the path aside. *)
Definition exec (argv : list string) (cwd : option string) (w : world)
  : (nat * string) * world :=
  match exit_status w argv with
  | S n => ((S n, EmptyString), w)
  | O =>
      match argv with
      | [g; c; p; a; b] =>
          if argv_eqb [g; c; a] ["git"; "-C"; "checkout"]
          then if String.eqb (PyStr.strip b) b
               then ((0, EmptyString), set_branch w p b)
               else ((1, EmptyString), w)
          else if argv_eqb [g; c; a; b]
                    ["git"; "-C"; "symbolic-ref"; "refs/remotes/origin/HEAD"]
          then match origin_head w p with
               | Some r => ((0, r ++ PyStr.nl), w)
               | None => ((128, EmptyString), w)
               end
          else ((0, EmptyString), w)
      | [g; c; p; a; b; o] =>
          if argv_eqb [g; c; a; b; o] ["git"; "-C"; "remote"; "get-url"; "origin"]
          then ((0, origins w p ++ PyStr.nl), w)
          else if argv_eqb [g; c; a; b; o]
                    ["git"; "-C"; "rev-parse"; "--abbrev-ref"; "HEAD"]
          then ((0, branches w p ++ PyStr.nl), w)
          else ((0, EmptyString), w)
      | [g; c; p; a; b; o; u] =>
          if argv_eqb [g; c; a; b; o] ["git"; "-C"; "remote"; "set-url"; "origin"]
          then ((0, EmptyString), set_origin w p u)
          else ((0, EmptyString), w)
      | _ => ((0, EmptyString), w)
      end
  end.

#[global] Instance host : Host world := {
  subprocess_exec := exec;
  requests_get := fun url w => (api w url, w);
  fs_makedirs := fun _ w => (true, w);
  fs_append := fun _ _ w => (log_writable w, w);
  fs_isdir := fun p w => existsb (String.eqb p) (dirs w);
  fs_exists := fun p w => existsb (String.eqb p) (dirs w);
  time_strftime := clock;
  read_input := fun _ w => pop_answer w;
  library := fun op w => (libs w op, w)
}.

(** The branch and the URL as the scripts read them off the machine. *)
Definition branch_seen (w : world) (p : string) : string :=
  PyStr.strip (branches w p ++ PyStr.nl).
Definition origin_seen (w : world) (p : string) : string :=
  PyStr.strip (origins w p ++ PyStr.nl).

Definition start (w : world) : state world := mkState w [].

(** A machine on which everything succeeds: one working copy [/w/r] on
    branch [dev], cloned over plain https. *)
Definition calm : world :=
  mkWorld (fun _ => "dev") (fun _ => "https://github.com/o/r.git")
          (fun _ => Some "refs/remotes/origin/main") (fun _ => 0)
          (fun _ => HttpResponse true (Some (JObject (Some "main"))))
          true "2025-01-01 00:00:00" [] [] (fun _ => LibDone).

Definition with_exit (w : world) (f : list string -> nat) : world :=
  mkWorld (branches w) (origins w) (origin_head w) f
          (api w) (log_writable w) (clock w) (dirs w) (answers w) (libs w).

Definition with_api (w : world) (f : string -> http_result) : world :=
  mkWorld (branches w) (origins w) (origin_head w) (exit_status w)
          f (log_writable w) (clock w) (dirs w) (answers w) (libs w).

Definition with_answers (w : world) (a : list string) : world :=
  mkWorld (branches w) (origins w) (origin_head w) (exit_status w)
          (api w) (log_writable w) (clock w) (dirs w) a (libs w).

Definition with_libs (w : world) (f : libop -> libres) : world :=
  mkWorld (branches w) (origins w) (origin_head w) (exit_status w)
          (api w) (log_writable w) (clock w) (dirs w) (answers w) f.

(** The commands of [cmds] exit with status 1, all others with 0. *)
Definition failing (cmds : list (list string)) : list string -> nat :=
  fun argv => if existsb (argv_eqb argv) cmds then 1 else 0.

(** The remote of [/w/r] has moved on: a plain push is rejected, while a
    fetch and a rebase go through. *)
Definition diverged : world :=
  with_exit calm (failing [Contract.push_cmd "/w/r"]).

(** The API cannot be reached. *)
Definition offline : world :=
  with_api calm (fun _ => HttpRaises "Connection timed out").


(** The repository [o/r] as PyGithub describes it. *)
Definition repo : Blackland.Repository :=
  Blackland.mkRepository "r" "o/r" "o" "main" "https://github.com/o/r.git".

(** A machine without the working copy of [git_pull.py], where the user
    asks for a clone and types the URL of [o/r]. *)
Definition fresh_clone : world :=
  with_answers calm ["1"; "https://github.com/o/r.git"].

(** The clone of [o/r] into the workspace fails. *)
Definition clone_refused (token : string) : world :=
  with_exit calm
    (failing [["git"; "clone";
               ("https://" ++ token ++ "@github.com/o/r.git")%string;
               "/home/gost/7heBlackLand/r"]]).

(** In the workspace the pull of the working copy [a] fails. *)
Definition pull_refused : world :=
  with_exit calm (failing [["git"; "-C"; "/home/gost/7heBlackLand/a"; "pull"]]).

(** An upload whose clone has changes and whose plain push is rejected. *)
Definition push_rejected : world :=
  with_libs calm
    (fun op =>
       match op with
       | Mkdtemp _ => LibText "/tmp/gh_upload_0"
       | IsDirty _ => LibFlag true
       | RemotePush _ _ false => LibRaises "rejected (fetch first)"
       | _ => LibDone
       end).

Definition with_dirs (w : world) (d : list string) : world :=
  mkWorld (branches w) (origins w) (origin_head w) (exit_status w)
          (api w) (log_writable w) (clock w) d (answers w) (libs w).

(** The workspace holds the working copy of [o/r] already. *)
Definition already_cloned : world :=
  with_dirs calm ["/home/gost/7heBlackLand"; "/home/gost/7heBlackLand/r"].

(** The workspace holds two working copies, [b] and [a], and a directory
    [notes] that is none. *)
Definition workspace : world :=
  with_dirs calm
    ["/home/gost/7heBlackLand";
     "/home/gost/7heBlackLand/b"; "/home/gost/7heBlackLand/b/.git";
     "/home/gost/7heBlackLand/notes";
     "/home/gost/7heBlackLand/a"; "/home/gost/7heBlackLand/a/.git"].

(** The entry of the directory [p] that the path [d] stands for, if [d] is
    right under [p]. *)
Definition entry_of (p d : string) : list string :=
  let stem := (p ++ "/")%string in
  if String.prefix stem d
  then
    let name := String.substring (String.length stem)
                                 (String.length d - String.length stem) d in
    if PyStr.contains "/" name || negb (PyStr.truthy name) then [] else [name]
  else [].

#[global] Instance process : System.Process world := {
  System.process_chdir := fun p w => (existsb (String.eqb p) (dirs w), w);
  System.process_listdir := fun p w =>
    if existsb (String.eqb p) (dirs w)
    then Some (flat_map (entry_of p) (dirs w))
    else None
}.

(** A second repository of the account, private. *)
Definition repo_s : Blackland.Repository :=
  Blackland.mkRepository "s" "o/s" "o" "trunk" "https://github.com/o/s.git".

(** GitHub lists [o/r] and [o/s] and grants every call; the user types the
    [answers] in turn, an empty answer standing for the default, and
    confirms with [y]. *)
#[global] Instance service : Hub.Service world := {
  Hub.github := fun c w =>
    (match c with
     | Hub.GetRepos => Hub.Repos [Hub.mkListed repo false; Hub.mkListed repo_s true]
     | Hub.CreateRepo n _ p _ =>
         Hub.Repo (Hub.mkListed
                     (Blackland.mkRepository n ("o/" ++ n) "o" "main"
                        ("https://github.com/o/" ++ n ++ ".git")) p)
     | Hub.GetContents _ path _ => Hub.Content path "0a1b2c"
     | _ => Hub.Done
     end, w);
  Hub.prompt_ask := fun _ default w =>
    let '(a, w') := pop_answer w in
    (match default with
     | Some d => if PyStr.truthy a then a else d
     | None => a
     end, w');
  Hub.confirm_ask := fun _ default w =>
    let '(a, w') := pop_answer w in
    (match default with
     | Some d => if PyStr.truthy a then String.eqb a "y" else d
     | None => String.eqb a "y"
     end, w');
  Hub.table_text := fun title _ _ => title;
  Hub.panel_text := fun text => text
}.

(** The machine at the start of a run that talks to GitHub. *)
Definition at_desk (w : world) : state (Hub.desk world) :=
  mkState (Hub.mkDesk w []) [].

(** ** A remote that can refuse a push *)

(** The machine, and for each working copy what its remote makes of a push:
    [behind] tells that the remote holds commits the copy lacks, so that the
    two have diverged; [guarded] that the remote refuses the push for a
    reason of its own (a protected branch, a hook that declines, credentials
    without the right to write).  A plain push is accepted when neither
    holds; every other command is the machine's. *)
Record forge : Type := mkForge {
  machine : world;
  behind : string -> bool;
  guarded : string -> bool
}.

Definition on_machine {A} (f : world -> A * world) (r : forge) : A * forge :=
  let (a, w) := f (machine r) in (a, mkForge w (behind r) (guarded r)).

Definition forge_exec (argv : list string) (cwd : option string) (r : forge)
  : (nat * string) * forge :=
  match argv with
  | [g; c; p; a] =>
      if argv_eqb [g; c; a] ["git"; "-C"; "push"] && (behind r p || guarded r p)
      then ((1, EmptyString), r)
      else on_machine (exec argv cwd) r
  | _ => on_machine (exec argv cwd) r
  end.

#[global] Instance forge_host : Host forge := {
  subprocess_exec := forge_exec;
  requests_get := fun url => on_machine (requests_get url);
  fs_makedirs := fun p => on_machine (fs_makedirs p);
  fs_append := fun p text => on_machine (fs_append p text);
  fs_isdir := fun p r => fs_isdir p (machine r);
  fs_exists := fun p r => fs_exists p (machine r);
  time_strftime := fun r => time_strftime (machine r);
  read_input := fun prompt => on_machine (read_input prompt);
  library := fun op => on_machine (library op)
}.

(** The working copy [/w/r] holds everything its remote holds, and the
    remote takes no push from it. *)
Definition protected_remote : forge :=
  mkForge calm (fun _ => false) (String.eqb "/w/r").

End Sim.

(* ===================================================================== *)
(** * Facts *)
(* ===================================================================== *)

Import Effects Contract.
Local Open Scope string_scope.
Local Open Scope list_scope.

Example test_replace :
  PyStr.replace "https://github.com/o/r.git" "https://" "https://T@" =
  "https://T@github.com/o/r.git".
Proof. reflexivity. Qed.

Example test_replace_all :
  PyStr.replace "https://h/https://x" "https://" "https://T@" =
  "https://T@h/https://T@x".
Proof. reflexivity. Qed.

Example test_strip : PyStr.strip (" main" ++ PyStr.nl)%string = "main".
Proof. reflexivity. Qed.

(** A no-break space (U+00A0), an ideographic space (U+3000) and a line
    separator (U+2028) go with [strip] as the ASCII white space does; a
    letter with an accent (U+00E0) stays. *)
Example test_strip_unicode :
  PyStr.strip ("1" ++ String (ascii_of_nat 194) (String (ascii_of_nat 160) ""))
    = "1" /\
  PyStr.strip (String (ascii_of_nat 227) (String (ascii_of_nat 128)
                 (String (ascii_of_nat 128) " a b "))
               ++ String (ascii_of_nat 226) (String (ascii_of_nat 128)
                 (String (ascii_of_nat 168) ""))) = "a b" /\
  PyStr.strip (String (ascii_of_nat 195) (String (ascii_of_nat 160) " "))
    = String (ascii_of_nat 195) (String (ascii_of_nat 160) "").
Proof. repeat split. Qed.

Example test_split_last : PyStr.split_last "/" "refs/remotes/origin/main" = "main".
Proof. reflexivity. Qed.

Example test_repr_list :
  PyStr.repr_list ["git"; "-C"; "/w/a"; "push"] = "['git', '-C', '/w/a', 'push']".
Proof. reflexivity. Qed.

Example test_dirname :
  PyStr.dirname "/home/gost/all-project/git-all/git_actions.log" =
  "/home/gost/all-project/git-all" /\ PyStr.dirname "/a" = "/" /\
  PyStr.dirname "a" = "" /\ PyStr.dirname "/a//b" = "/a".
Proof. repeat split. Qed.

(** ** Strings *)

Lemma prefix_nil (s : string) : String.prefix "" s = true.
Proof. now destruct s. Qed.

Lemma string_app_assoc (a b c : string) :
  (a ++ (b ++ c) = (a ++ b) ++ c)%string.
Proof. induction a as [|x a IH]; [reflexivity|]. cbn. now rewrite IH. Qed.

Lemma contains_cons (sub : string) (c : ascii) (s : string) :
  PyStr.contains sub (String c s) =
  String.prefix sub (String c s) || PyStr.contains sub s.
Proof. reflexivity. Qed.

Lemma contains_app_r (sub a b : string) :
  PyStr.contains sub b = true -> PyStr.contains sub (a ++ b)%string = true.
Proof.
  intros H. induction a as [|c a IH]; [exact H|].
  cbn [String.append]. rewrite contains_cons, IH. apply orb_true_r.
Qed.

Lemma contains_at_head (s : string) :
  PyStr.contains "@" (String "@" s) = true.
Proof.
  cbn [PyStr.contains String.prefix].
  destruct (ascii_dec "@" "@"); [|congruence]. now rewrite prefix_nil.
Qed.

Lemma is_space_at (c : ascii) :
  PyStr.is_space c = true -> String.prefix "@" (String c EmptyString) = false.
Proof.
  intros H. cbn [String.prefix].
  destruct (ascii_dec "@" c) as [<-|]; [discriminate H|reflexivity].
Qed.

Lemma prefix_at (c : ascii) (r : string) :
  String.prefix "@" (String c r) = String.prefix "@" (String c EmptyString).
Proof.
  cbn [String.prefix]. destruct (ascii_dec "@" c); [apply prefix_nil|reflexivity].
Qed.

(** The first byte of white space beyond ASCII is no [@]. *)
Lemma is_space2_at (a b : ascii) :
  PyStr.is_space2 a b = true -> String.prefix "@" (String a EmptyString) = false.
Proof.
  intros H. cbn [String.prefix].
  destruct (ascii_dec "@" a) as [<-|]; [discriminate H|reflexivity].
Qed.

Lemma is_space2_at_second (a b : ascii) :
  PyStr.is_space2 a b = true -> String.prefix "@" (String b EmptyString) = false.
Proof.
  intros H. cbn [String.prefix].
  destruct (ascii_dec "@" b) as [<-|]; [|reflexivity].
  unfold PyStr.is_space2 in H. cbn in H. now rewrite andb_false_r in H.
Qed.

Lemma is_space3_at (a b c : ascii) :
  PyStr.is_space3 a b c = true ->
  String.prefix "@" (String a EmptyString) = false /\
  String.prefix "@" (String b EmptyString) = false /\
  String.prefix "@" (String c EmptyString) = false.
Proof.
  intros H. cbn [String.prefix]. repeat split.
  - destruct (ascii_dec "@" a) as [<-|]; [discriminate H|reflexivity].
  - destruct (ascii_dec "@" b) as [<-|]; [|reflexivity].
    unfold PyStr.is_space3 in H. cbn in H.
    now rewrite ?andb_false_r in H.
  - destruct (ascii_dec "@" c) as [<-|]; [|reflexivity].
    unfold PyStr.is_space3 in H. cbn in H.
    now rewrite ?andb_false_r in H.
Qed.

(** The line feed ends no white space of two or three bytes. *)
Lemma is_space2_nl (a : ascii) : PyStr.is_space2 a "010" = false.
Proof. unfold PyStr.is_space2. cbn. apply andb_false_r. Qed.

Lemma is_space3_nl (a b : ascii) : PyStr.is_space3 a b "010" = false.
Proof. unfold PyStr.is_space3. cbn. now rewrite ?andb_false_r. Qed.

Lemma nl_is_line_feed : PyStr.nl = String "010" EmptyString.
Proof. reflexivity. Qed.

(** The line feed that ends the output of a command goes with [lstrip]
    when nothing else is left, and stays at the end otherwise. *)
Lemma lstrip_app_nl (s : string) :
  PyStr.lstrip (s ++ PyStr.nl) =
  match PyStr.lstrip s with
  | EmptyString => EmptyString
  | r => (r ++ PyStr.nl)%string
  end.
Proof.
  rewrite nl_is_line_feed.
  remember (String.length s) as n eqn:Hn.
  assert (Hle : String.length s <= n) by lia. clear Hn.
  revert s Hle. induction n as [|n IH]; intros s Hle.
  - destruct s; [reflexivity|cbn in Hle; lia].
  - destruct s as [|a r1]; [reflexivity|].
    cbn [String.append PyStr.lstrip String.length] in *.
    destruct (PyStr.is_space a); [apply IH; lia|].
    destruct r1 as [|b r2]; cbn [String.append String.length] in *.
    { now rewrite is_space2_nl. }
    destruct (PyStr.is_space2 a b); [apply IH; lia|].
    destruct r2 as [|c r3]; cbn [String.append String.length] in *.
    { now rewrite is_space3_nl. }
    destruct (PyStr.is_space3 a b c); [apply IH; lia|reflexivity].
Qed.

Lemma rstrip_app_nl (s : string) :
  PyStr.rstrip (s ++ PyStr.nl) = PyStr.rstrip s.
Proof.
  induction s as [|c s IH]; [reflexivity|].
  change (String c s ++ PyStr.nl)%string with (String c (s ++ PyStr.nl)).
  cbn [PyStr.rstrip].
  change (String c (s ++ PyStr.nl)) with (String c s ++ PyStr.nl)%string.
  rewrite lstrip_app_nl, IH.
  destruct (PyStr.lstrip (String c s)); reflexivity.
Qed.

(** The line feed that ends the output of a command goes with [strip]. *)
Lemma strip_app_nl (s : string) : PyStr.strip (s ++ PyStr.nl) = PyStr.strip s.
Proof.
  unfold PyStr.strip. rewrite lstrip_app_nl.
  destruct (PyStr.lstrip s) as [|c r]; [reflexivity|apply rstrip_app_nl].
Qed.

(** What [lstrip] does at the head of a text. *)
Lemma lstrip_head (s : string) :
  (exists a r, s = String a r /\ PyStr.is_space a = true /\
               PyStr.lstrip s = PyStr.lstrip r) \/
  (exists a b r, s = String a (String b r) /\ PyStr.is_space2 a b = true /\
                 PyStr.lstrip s = PyStr.lstrip r) \/
  (exists a b c r, s = String a (String b (String c r)) /\
                   PyStr.is_space3 a b c = true /\
                   PyStr.lstrip s = PyStr.lstrip r) \/
  PyStr.lstrip s = s.
Proof.
  destruct s as [|a r1]; [now do 3 right|]. cbn [PyStr.lstrip].
  destruct (PyStr.is_space a) eqn:E1; [left; now exists a, r1|].
  destruct r1 as [|b r2]; [now do 3 right|].
  destruct (PyStr.is_space2 a b) eqn:E2; [right; left; now exists a, b, r2|].
  destruct r2 as [|c r3]; [now do 3 right|].
  destruct (PyStr.is_space3 a b c) eqn:E3;
    [right; right; left; now exists a, b, c, r3|now do 3 right].
Qed.

Lemma contains_at_cons (c : ascii) (s : string) :
  String.prefix "@" (String c EmptyString) = false ->
  PyStr.contains "@" (String c s) = PyStr.contains "@" s.
Proof. intros H. now rewrite contains_cons, prefix_at, H. Qed.

Lemma contains_at_lstrip (s : string) :
  PyStr.contains "@" s = true -> PyStr.contains "@" (PyStr.lstrip s) = true.
Proof.
  remember (String.length s) as n eqn:Hn.
  assert (Hle : String.length s <= n) by lia. clear Hn.
  revert s Hle. induction n as [|n IH]; intros s Hle.
  - destruct s; [exact (fun H => H)|cbn in Hle; lia].
  - destruct (lstrip_head s) as [(a & r & -> & E & ->)|
                                 [(a & b & r & -> & E & ->)|
                                  [(a & b & c & r & -> & E & ->)| ->]]];
      cbn [String.length] in Hle; [| | |exact (fun H => H)].
    + rewrite (contains_at_cons a r (is_space_at a E)). apply IH. lia.
    + rewrite (contains_at_cons a _ (is_space2_at a b E)),
        (contains_at_cons b _ (is_space2_at_second a b E)). apply IH. lia.
    + destruct (is_space3_at a b c E) as (Ha & Hb & Hc).
      rewrite (contains_at_cons a _ Ha), (contains_at_cons b _ Hb),
        (contains_at_cons c _ Hc). apply IH. lia.
Qed.

Lemma contains_at_rstrip (s : string) :
  PyStr.contains "@" s = true -> PyStr.contains "@" (PyStr.rstrip s) = true.
Proof.
  induction s as [|c s IH]; [exact (fun H => H)|].
  intros H. cbn [PyStr.rstrip].
  pose proof (contains_at_lstrip _ H) as Hl.
  destruct (PyStr.lstrip (String c s)) as [|c' r]; [discriminate Hl|].
  rewrite contains_cons in H |- *. rewrite prefix_at in H |- *.
  destruct (String.prefix "@" (String c EmptyString)); [reflexivity|].
  now apply IH.
Qed.

(** White space around a URL hides no [@]. *)
Lemma contains_at_strip (s : string) :
  PyStr.contains "@" s = true -> PyStr.contains "@" (PyStr.strip s) = true.
Proof.
  intros H. unfold PyStr.strip. now apply contains_at_rstrip, contains_at_lstrip.
Qed.

Lemma prefix_split (a s : string) :
  String.prefix a s = true -> exists r, s = (a ++ r)%string.
Proof.
  revert s. induction a as [|c a IH]; intros s H.
  - now exists s.
  - destruct s as [|c' s]; [discriminate H|]. cbn [String.prefix] in H.
    destruct (ascii_dec c c') as [<-|]; [|discriminate H].
    destruct (IH s H) as [r ->]. now exists r.
Qed.

(** A rewritten URL holds an [@], whatever the token. *)
Lemma tokenized_contains_at (token url : string) :
  PyStr.startswith url "https://" = true ->
  PyStr.contains "@" (tokenized token url) = true.
Proof.
  intros H. destruct (prefix_split _ _ H) as [r ->].
  unfold tokenized, PyStr.replace.
  cbn [String.append PyStr.replace_from String.prefix String.length Nat.sub].
  repeat match goal with
         | |- context [ascii_dec ?a ?a] =>
             destruct (ascii_dec a a); [|congruence]
         end.
  rewrite prefix_nil.
  cbn [String.append]. do 8 apply (contains_app_r "@" (String _ EmptyString)).
  rewrite <- string_app_assoc. apply contains_app_r. apply contains_at_head.
Qed.

Lemma prefix_app_self (s r : string) : String.prefix s (s ++ r) = true.
Proof.
  induction s as [|c s IH]; [apply prefix_nil|].
  cbn [String.append String.prefix]. now destruct (ascii_dec c c).
Qed.

Lemma contains_app_self (s r : string) : PyStr.contains s (s ++ r) = true.
Proof.
  destruct s as [|c s]; [destruct r; cbn; now rewrite ?prefix_nil|].
  change (String c s ++ r)%string with (String c (s ++ r)).
  rewrite contains_cons.
  change (String c (s ++ r)) with (String c s ++ r)%string.
  now rewrite prefix_app_self.
Qed.

(** A rewritten URL holds the token as it is. *)
Lemma tokenized_contains_token (token url : string) :
  PyStr.startswith url "https://" = true ->
  PyStr.contains token (tokenized token url) = true.
Proof.
  intros H. destruct (prefix_split _ _ H) as [r ->].
  unfold tokenized, PyStr.replace.
  cbn [String.append PyStr.replace_from String.prefix String.length Nat.sub].
  repeat match goal with
         | |- context [ascii_dec ?a ?a] =>
             destruct (ascii_dec a a); [|congruence]
         end.
  rewrite prefix_nil.
  cbn [String.append]. do 8 apply (contains_app_r token (String _ EmptyString)).
  rewrite <- string_app_assoc. apply contains_app_self.
Qed.

(** ** Traces *)

Lemma printed_app (a b : list event) : printed (a ++ b) = printed a ++ printed b.
Proof. apply flat_map_app. Qed.

Lemma logged_app (a b : list event) : logged (a ++ b) = logged a ++ logged b.
Proof. apply flat_map_app. Qed.

Lemma reported_app (a b : list event) :
  reported (a ++ b) = reported a || reported b.
Proof. unfold reported. now rewrite printed_app, existsb_app. Qed.

(** ** Running a script against an unknown host *)

Ltac py_unfold :=
  unfold console_print, check_output, try_except, try_finally, bind, ret,
    raise, emit, subprocess_run, os_makedirs, append_to, strftime,
    requests_get_, response_json, json_get_default_branch in *.

Ltac py_simpl :=
  cbn [world trace andb orb negb Nat.eqb is_CalledProcessError is_Exception
       returncode stdout ok body fst snd].

(** One call of the host whose world is known: split on its answer. *)
Ltac host_call :=
  match goal with
  | |- context [subprocess_exec ?a ?c ?w] =>
      is_var w; destruct (subprocess_exec a c w) as [[[|?] ?] ?] eqn:?
  | |- context [fs_makedirs ?p ?w] =>
      is_var w; destruct (fs_makedirs p w) as [[|] ?] eqn:?
  | |- context [fs_append ?p ?x ?w] =>
      is_var w; destruct (fs_append p x w) as [[|] ?] eqn:?
  | |- context [requests_get ?u ?w] =>
      is_var w; destruct (requests_get u w) as [[?|[|] [[[?|]|]|]] ?] eqn:?
  end; py_simpl.

(** A test on a value the host has given: split on it. *)
Ltac py_test :=
  match goal with
  | |- context [if ?c then _ else _] =>
      lazymatch c with
      | context [subprocess_exec] => fail
      | context [fs_makedirs] => fail
      | context [fs_append] => fail
      | context [requests_get] => fail
      | _ => destruct c eqn:?
      end
  end; py_simpl.

(** The run has returned in a state whose trace extends the initial one. *)
Ltac returned := eexists _, _; split; [reflexivity|].

(** The trace of the goal's final state, as the initial one extended. *)
Ltac extension :=
  cbn [trace]; rewrite <- ?app_assoc; cbn [app]; reflexivity.

Section MonadFacts.
Context {W : Type} {host : Host W}.

Lemma bind_return {A B} (m : M W A) (k : A -> M W B) (st st1 : state W) (a : A) :
  m st = (Return a, st1) -> bind m k st = k a st1.
Proof. intros E. unfold bind. now rewrite E. Qed.

Lemma console_print_runs (text : string) (st : state W) :
  console_print text st =
  (Return tt, mkState (world st) (trace st ++ [Print text])).
Proof. reflexivity. Qed.

Lemma for_each_returns {A} (body : A -> M W unit)
    (P : A -> list event -> Prop) :
  (forall x st, exists w ext,
      body x st = (Return tt, mkState w (trace st ++ ext)) /\ P x ext) ->
  forall xs st, exists w exts,
    for_each xs body st = (Return tt, mkState w (trace st ++ concat exts)) /\
    Forall2 P xs exts.
Proof.
  intros Hbody xs. induction xs as [|x xs IH]; intros [w t].
  - exists w, []. cbn. rewrite app_nil_r. split; [reflexivity|constructor].
  - destruct (Hbody x (mkState w t)) as (w1 & ext & E & HP).
    destruct (IH (mkState w1 (t ++ ext))) as (w2 & exts & E2 & HF).
    exists w2, (ext :: exts). cbn [for_each concat trace] in *.
    rewrite (bind_return _ _ _ _ _ E), E2, <- app_assoc.
    split; [reflexivity|now constructor].
Qed.

(** *** Rules for [wp] *)

Lemma wp_known {A} (m : M W A) (Q : outcome A -> state W -> Prop)
    (st st' : state W) (r : outcome A) :
  m st = (r, st') -> Q r st' -> wp m Q st.
Proof. unfold wp. intros ->. exact (fun H => H). Qed.

Lemma wp_ret {A} (a : A) (Q : outcome A -> state W -> Prop) (st : state W) :
  Q (Return a) st -> wp (ret a) Q st.
Proof. exact (fun H => H). Qed.

Lemma wp_raise {A} (e : exn) (Q : outcome A -> state W -> Prop) (st : state W) :
  Q (Raise e) st -> wp (raise e) Q st.
Proof. exact (fun H => H). Qed.

Lemma wp_bind {A B} (m : M W A) (k : A -> M W B)
    (Q : outcome B -> state W -> Prop) (st : state W) :
  wp m (fun r st' =>
          match r with
          | Return a => wp (k a) Q st'
          | Raise e => Q (Raise e) st'
          end) st ->
  wp (bind m k) Q st.
Proof. unfold wp, bind. destruct (m st) as [[a|e] st']; exact (fun H => H). Qed.

Lemma wp_try_except {A} (m : M W A) (c : exn -> bool) (h : exn -> M W A)
    (Q : outcome A -> state W -> Prop) (st : state W) :
  wp m (fun r st' =>
          match r with
          | Return a => Q (Return a) st'
          | Raise e => if c e then wp (h e) Q st' else Q (Raise e) st'
          end) st ->
  wp (try_except m c h) Q st.
Proof.
  unfold wp, try_except. destruct (m st) as [[a|e] st']; cbn; [exact (fun H => H)|].
  destruct (c e); exact (fun H => H).
Qed.

Lemma wp_try_finally {A} (m : M W A) (cleanup : M W unit)
    (Q : outcome A -> state W -> Prop) (st : state W) :
  wp m (fun r st' =>
          wp cleanup (fun r' st'' =>
                        match r' with
                        | Return _ => Q r st''
                        | Raise e => Q (Raise e) st''
                        end) st') st ->
  wp (try_finally m cleanup) Q st.
Proof.
  unfold wp, try_finally. destruct (m st) as [r st']. cbn.
  destruct (cleanup st') as [[u|e] st'']; exact (fun H => H).
Qed.

(** The rules for the operations of the host take the state with its
    trace split into what was there at the start and what the run has
    added, so that the additions stay one list. *)

Lemma wp_console_print (text : string) (Q : outcome unit -> state W -> Prop)
    (w : W) (t ext : list event) :
  Q (Return tt) (mkState w (t ++ (ext ++ [Print text]))) ->
  wp (console_print text) Q (mkState w (t ++ ext)).
Proof. unfold wp, console_print, emit. cbn. now rewrite app_assoc. Qed.

Lemma wp_subprocess_run (cmd : list string) (cwd : option string) (check : bool)
    (Q : outcome completed -> state W -> Prop) (w : W) (t ext : list event) :
  (forall rc out w',
      subprocess_exec cmd cwd w = ((rc, out), w') ->
      Q (if check && negb (Nat.eqb rc 0)
         then Raise (CalledProcessError cmd rc)
         else Return (mkCompleted rc out))
        (mkState w' (t ++ (ext ++ [Spawn cmd cwd rc])))) ->
  wp (subprocess_run cmd cwd check) Q (mkState w (t ++ ext)).
Proof.
  unfold wp, subprocess_run. intros H. cbn [world trace].
  destruct (subprocess_exec cmd cwd w) as [[rc out] w'] eqn:E.
  specialize (H rc out w' eq_refl). rewrite app_assoc in H.
  destruct (check && negb (Nat.eqb rc 0)); exact H.
Qed.

Lemma wp_check_output (cmd : list string)
    (Q : outcome string -> state W -> Prop) (w : W) (t ext : list event) :
  (forall rc out w',
      subprocess_exec cmd None w = ((rc, out), w') ->
      Q (if negb (Nat.eqb rc 0)
         then Raise (CalledProcessError cmd rc)
         else Return out)
        (mkState w' (t ++ (ext ++ [Spawn cmd None rc])))) ->
  wp (check_output cmd) Q (mkState w (t ++ ext)).
Proof.
  intros H. unfold check_output. apply wp_bind, wp_subprocess_run.
  intros rc out w' E. specialize (H rc out w' E). cbn [andb].
  destruct (negb (Nat.eqb rc 0)); exact H.
Qed.

Lemma wp_os_makedirs (path : string) (Q : outcome unit -> state W -> Prop)
    (st : state W) :
  (forall good w,
      fs_makedirs path (world st) = (good, w) ->
      Q (if good then Return tt else Raise (PyException "OSError" path))
        (mkState w (trace st))) ->
  wp (os_makedirs path) Q st.
Proof.
  unfold wp, os_makedirs. intros H.
  destruct (fs_makedirs path (world st)) as [good w] eqn:E.
  specialize (H good w eq_refl). destruct good; exact H.
Qed.

Lemma wp_append_to (path text : string) (Q : outcome unit -> state W -> Prop)
    (w : W) (t ext : list event) :
  (forall good w',
      fs_append path text w = (good, w') ->
      Q (if good then Return tt else Raise (PyException "OSError" path))
        (mkState w' (t ++ (ext ++ [Append path text good])))) ->
  wp (append_to path text) Q (mkState w (t ++ ext)).
Proof.
  unfold wp, append_to. intros H. cbn [world trace].
  destruct (fs_append path text w) as [good w'] eqn:E.
  specialize (H good w' eq_refl). rewrite app_assoc in H.
  destruct good; exact H.
Qed.

Lemma wp_strftime (Q : outcome string -> state W -> Prop) (st : state W) :
  Q (Return (time_strftime (world st))) st -> wp strftime Q st.
Proof. exact (fun H => H). Qed.

Lemma wp_requests_get (url : string) (Q : outcome response -> state W -> Prop)
    (w : W) (t ext : list event) :
  (forall r w',
      requests_get url w = (r, w') ->
      Q match r with
        | HttpRaises msg => Raise (PyException "RequestException" msg)
        | HttpResponse o b => Return (mkResponse o b)
        end
        (mkState w' (t ++ (ext ++ [Http url])))) ->
  wp (requests_get_ url) Q (mkState w (t ++ ext)).
Proof.
  unfold wp, requests_get_. intros H. cbn [world trace].
  destruct (requests_get url w) as [r w'] eqn:E.
  specialize (H r w' eq_refl). rewrite app_assoc in H. destruct r; exact H.
Qed.

Lemma wp_input (prompt : string) (Q : outcome string -> state W -> Prop)
    (w : W) (t ext : list event) :
  (forall answer w',
      read_input prompt w = (answer, w') ->
      Q (Return answer) (mkState w' (t ++ (ext ++ [Input prompt answer])))) ->
  wp (input prompt) Q (mkState w (t ++ ext)).
Proof.
  unfold wp, input. intros H. cbn [world trace].
  destruct (read_input prompt w) as [answer w'] eqn:E.
  specialize (H answer w' eq_refl). now rewrite app_assoc in H.
Qed.

Lemma wp_os_path_exists (path : string) (Q : outcome bool -> state W -> Prop)
    (st : state W) :
  Q (Return (fs_exists path (world st))) st -> wp (os_path_exists path) Q st.
Proof. exact (fun H => H). Qed.

Lemma wp_os_path_isdir (path : string) (Q : outcome bool -> state W -> Prop)
    (st : state W) :
  Q (Return (fs_isdir path (world st))) st -> wp (os_path_isdir path) Q st.
Proof. exact (fun H => H). Qed.

(** A function known to return, with a value and an extension that
    satisfy [P]. *)
Lemma wp_returns {A} (m : M W A) (P : A -> list event -> Prop)
    (Q : outcome A -> state W -> Prop) (w : W) (t ext : list event) :
  (forall st, exists a w' e,
      m st = (Return a, mkState w' (trace st ++ e)) /\ P a e) ->
  (forall a w' e, P a e -> Q (Return a) (mkState w' (t ++ (ext ++ e)))) ->
  wp m Q (mkState w (t ++ ext)).
Proof.
  intros Hm H. destruct (Hm (mkState w (t ++ ext))) as (a & w' & e & E & HP).
  eapply wp_known; [exact E|]. cbn [trace]. rewrite <- app_assoc. now apply H.
Qed.

(** From a weakest precondition back to the equation of the run. *)
Lemma wp_returned {A} (m : M W A) (a : A) (P : list event -> Prop)
    (w : W) (t : list event) :
  wp m (fun r st' =>
          exists w' ext,
            (r, st') = (Return a, mkState w' (t ++ ext)) /\ P ext)
     (mkState w (t ++ [])) ->
  exists w' ext, m (mkState w t) = (Return a, mkState w' (t ++ ext)) /\ P ext.
Proof.
  unfold wp. rewrite app_nil_r. intros (w' & ext & E & HP).
  exists w', ext. split; [|exact HP].
  rewrite <- E. now destruct (m (mkState w t)).
Qed.

(** The same with a property of the final world too. *)
Lemma wp_returned_in {A} (m : M W A) (a : A) (P : W -> list event -> Prop)
    (w : W) (t : list event) :
  wp m (fun r st' =>
          exists w' ext,
            (r, st') = (Return a, mkState w' (t ++ ext)) /\ P w' ext)
     (mkState w (t ++ [])) ->
  exists w' ext,
    m (mkState w t) = (Return a, mkState w' (t ++ ext)) /\ P w' ext.
Proof.
  unfold wp. rewrite app_nil_r. intros (w' & ext & E & HP).
  exists w', ext. split; [|exact HP].
  rewrite <- E. now destruct (m (mkState w t)).
Qed.

(** The same from a state the run has already added to. *)
Lemma wp_returned_from {A} (m : M W A) (a : A) (P : W -> list event -> Prop)
    (w : W) (t e0 : list event) :
  wp m (fun r st' =>
          exists w' ext,
            (r, st') = (Return a, mkState w' (t ++ ext)) /\ P w' ext)
     (mkState w (t ++ e0)) ->
  exists w' ext,
    m (mkState w (t ++ e0)) = (Return a, mkState w' (t ++ ext)) /\ P w' ext.
Proof.
  unfold wp. intros (w' & ext & E & HP).
  exists w', ext. split; [|exact HP].
  rewrite <- E. now destruct (m (mkState w (t ++ e0))).
Qed.

(** The same with a property of the value, the world and the additions. *)
Lemma wp_returned_all {A} (m : M W A) (P : A -> W -> list event -> Prop)
    (w : W) (t : list event) :
  wp m (fun r st' =>
          exists a w' ext,
            (r, st') = (Return a, mkState w' (t ++ ext)) /\ P a w' ext)
     (mkState w (t ++ [])) ->
  exists a w' ext,
    m (mkState w t) = (Return a, mkState w' (t ++ ext)) /\ P a w' ext.
Proof.
  unfold wp. rewrite app_nil_r. intros (a & w' & ext & E & HP).
  exists a, w', ext. split; [|exact HP].
  rewrite <- E. now destruct (m (mkState w t)).
Qed.

(** A [try] whose first two statements are known to return. *)
Lemma try_except_bind2 {A B C} (m1 : M W A) (m2 : M W B) (k : B -> M W C)
    (c : exn -> bool) (h : exn -> M W C) (st st1 : state W) (b : B) :
  bind m1 (fun _ => m2) st = (Return b, st1) ->
  try_except (bind m1 (fun _ => bind m2 k)) c h st = try_except (k b) c h st1.
Proof.
  unfold try_except, bind. destruct (m1 st) as [[a|e] s1]; [|discriminate].
  destruct (m2 s1) as [[b'|e] s2]; [|discriminate].
  now intros [= -> ->].
Qed.

End MonadFacts.

Ltac wp_simpl :=
  cbn beta iota zeta delta
    [world trace app andb orb negb Nat.eqb is_CalledProcessError is_Exception
     returncode stdout ok body fst snd].

(** An exit status is split into zero and non-zero when the run tests it. *)
Ltac split_status rc :=
  lazymatch goal with
  | |- context [Nat.eqb rc 0] => destruct rc
  | _ => idtac
  end.

(** One step of a run: the rule of the statement at the head. *)
Ltac wp_step :=
  lazymatch goal with
  | |- wp (bind _ _) _ _ => apply wp_bind
  | |- wp (try_except _ _ _) _ _ => apply wp_try_except
  | |- wp (try_finally _ _) _ _ => apply wp_try_finally
  | |- wp (ret _) _ _ => apply wp_ret
  | |- wp (raise _) _ _ => apply wp_raise
  | |- wp (console_print _) _ _ => apply wp_console_print
  | |- wp (subprocess_run _ _ _) _ _ =>
      apply wp_subprocess_run; let rc := fresh "rc" in
      intros rc ? ? ?; wp_simpl; split_status rc
  | |- wp (check_output _) _ _ =>
      apply wp_check_output; let rc := fresh "rc" in
      intros rc ? ? ?; wp_simpl; split_status rc
  | |- wp (os_makedirs _) _ _ => apply wp_os_makedirs; intros [|] ? ?
  | |- wp (append_to _ _) _ _ => apply wp_append_to; intros [|] ? ?
  | |- wp strftime _ _ => apply wp_strftime
  | |- wp (requests_get_ _) _ _ =>
      apply wp_requests_get; intros [?|[|] [[[?|]|]|]] ? ?
  | |- wp (response_json _) _ _ => unfold response_json
  | |- wp (json_get_default_branch _ _) _ _ => unfold json_get_default_branch
  | |- wp (input _) _ _ => apply wp_input; intros ? ? ?
  | |- wp (os_path_exists _) _ _ => apply wp_os_path_exists
  | |- wp (os_path_isdir _) _ _ => apply wp_os_path_isdir
  | |- wp (if ?c then _ else _) _ _ => destruct c eqn:?
  | |- wp (match ?x with _ => _ end) _ _ => destruct x eqn:?
  end; wp_simpl.

Ltac wp_go := repeat wp_step.

Section BlacklandFacts.
Context {W : Type} {host : Host W}.

Ltac safe_push_run :=
  unfold Blackland.safe_push, Blackland.run_cmd, Blackland.log_action;
  py_unfold; py_simpl; repeat host_call.

Lemma safe_push_runs (p msg : string) (st : state W) :
  exists r st' ext,
    Blackland.safe_push p msg st = (Return r, st') /\
    trace st' = trace st ++ ext /\
    push_run p r (spawned ext).
Proof.
  destruct st as [w t]. safe_push_run;
    (do 3 eexists; split; [reflexivity|]; split; [extension|]; constructor).
Qed.

(** C4.  What [safe_push] does is decided by the exit status of the direct
    push, for a path without a closing tag of the console markup: when the
    push exits with 0, [safe_push] returns [True] having run that one
    command, with no fetch, no rebase and no forced push; when it exits with
    another status, the fetch of the recovery is the next command.  Whether
    the working copy has diverged from its remote is not what the function
    looks at. *)
Theorem safe_push_first_attempt (p msg : string) (st : state W)
    (rc : nat) (out : string) (w : W) :
  Rich.closes_no_tag p = true ->
  subprocess_exec (push_cmd p) None (world st) = ((rc, out), w) ->
  exists r st' ext,
    Blackland.safe_push p msg st = (Return r, st') /\
    trace st' = trace st ++ ext /\
    match rc with
    | 0 =>
        r = true /\
        spawned ext = [push_cmd p] /\
        count is_rebase (spawned ext) = 0 /\
        count is_force_with_lease (spawned ext) = 0
    | S _ =>
        exists rest, spawned ext = push_cmd p :: fetch_cmd p :: rest
    end.
Proof.
  intros _ Hpush. destruct st as [w0 t]. cbn [world] in Hpush.
  unfold push_cmd, fetch_cmd in *.
  unfold Blackland.safe_push, Blackland.run_cmd, Blackland.log_action.
  py_unfold. py_simpl. rewrite Hpush. destruct rc as [|rc]; py_simpl.
  - repeat host_call;
      (do 3 eexists; split; [reflexivity|]; split; [extension|];
       repeat split; reflexivity).
  - repeat host_call;
      (do 3 eexists; split; [reflexivity|]; split; [extension|];
       eexists; reflexivity).
Qed.

(** C7.  Whatever the host answers, [safe_push] returns after at most four
    commands, of which at most one is a rebase and at most one a forced
    push with lease. *)
Theorem safe_push_bounded (p msg : string) (st : state W) :
  exists r st' ext,
    Blackland.safe_push p msg st = (Return r, st') /\
    trace st' = trace st ++ ext /\
    count is_rebase (spawned ext) <= 1 /\
    count is_force_with_lease (spawned ext) <= 1 /\
    List.length (spawned ext) <= 4.
Proof.
  destruct st as [w t]. safe_push_run;
    (do 3 eexists; split; [reflexivity|]; split; [extension|];
     cbn; repeat split; lia).
Qed.

(** In [safe_push] no command forces the push unconditionally, and a
    rejected push with lease is the last command: the result is [False]. *)
Lemma safe_push_only_leased_force (p msg : string) (st : state W) :
  exists r st' ext,
    Blackland.safe_push p msg st = (Return r, st') /\
    trace st' = trace st ++ ext /\
    count is_unconditional_force (spawned ext) = 0 /\
    (forall rc, In (Spawn (lease_cmd p) None (S rc)) ext ->
       r = false /\ List.last (spawned ext) [] = lease_cmd p).
Proof.
  destruct st as [w t]. safe_push_run;
    (do 3 eexists; split; [reflexivity|]; split; [extension|];
     split; [reflexivity|];
     intros rc Hin; cbn in Hin; unfold lease_cmd in *;
     repeat (destruct Hin as [Hin|Hin]; [try discriminate|]);
     try contradiction; try (inversion Hin; fail); split; reflexivity).
Qed.

(** After a rejected push, a successful fetch and a clean rebase,
    [safe_push] returns [True] and runs nothing more: the rejected push is
    its only push. *)
Lemma safe_push_after_clean_rebase (p msg : string) (st : state W)
    (rc : nat) (o1 o2 o3 : string) (w1 w2 w3 : W) :
  subprocess_exec (push_cmd p) None (world st) = ((S rc, o1), w1) ->
  subprocess_exec (fetch_cmd p) None w1 = ((0, o2), w2) ->
  subprocess_exec (rebase_cmd p) None w2 = ((0, o3), w3) ->
  exists st' ext,
    Blackland.safe_push p msg st = (Return true, st') /\
    trace st' = trace st ++ ext /\
    spawned ext = [push_cmd p; fetch_cmd p; rebase_cmd p].
Proof.
  intros H1 H2 H3. destruct st as [w0 t]. cbn [world] in H1.
  unfold push_cmd, fetch_cmd, rebase_cmd in *.
  unfold Blackland.safe_push, Blackland.run_cmd, Blackland.log_action.
  py_unfold. py_simpl.
  rewrite H1. py_simpl. rewrite H2. py_simpl. rewrite H3. py_simpl.
  repeat host_call;
    (do 2 eexists; split; [reflexivity|]; split; [extension|]; reflexivity).
Qed.

(** C3.  The lookup of the default branch never raises, in either script,
    and when the request fails or the answer is not [ok] its result is
    [main]. *)
Theorem default_branch_lookup_never_raises (owner repo_name : string)
    (st : state W) :
  (exists b st',
     Blackland.get_github_default_branch owner repo_name st = (Return b, st') /\
     (api_failed (fst (requests_get (api_url owner repo_name) (world st))) = true
      -> b = "main")) /\
  (exists b st',
     GitFullManager.get_default_branch owner repo_name st = (Return b, st') /\
     (api_failed (fst (requests_get (api_url owner repo_name) (world st))) = true
      -> b = "main")).
Proof.
  destruct st as [w t]. unfold api_url.
  unfold Blackland.get_github_default_branch, GitFullManager.get_default_branch.
  py_unfold. py_simpl.
  split; host_call;
    (do 2 eexists; split; [reflexivity|]; cbn; intros; congruence).
Qed.

(** The branch the API lookup yields on a given answer. *)
Lemma get_github_default_branch_result (owner repo_name : string)
    (st : state W) :
  Blackland.get_github_default_branch owner repo_name st =
  (Return (branch_in (fst (requests_get (api_url owner repo_name) (world st)))),
   mkState (snd (requests_get (api_url owner repo_name) (world st)))
           (trace st ++ [Http (api_url owner repo_name)])).
Proof.
  destruct st as [w t]. unfold api_url.
  unfold Blackland.get_github_default_branch. py_unfold. py_simpl.
  host_call; reflexivity.
Qed.

Lemma wp_get_github_default_branch (owner repo_name : string)
    (Q : outcome string -> state W -> Prop) (w : W) (t ext : list event) :
  (forall r w',
      requests_get (api_url owner repo_name) w = (r, w') ->
      Q (Return (branch_in r))
        (mkState w' (t ++ (ext ++ [Http (api_url owner repo_name)])))) ->
  wp (Blackland.get_github_default_branch owner repo_name) Q
     (mkState w (t ++ ext)).
Proof.
  intros H. eapply wp_known; [apply get_github_default_branch_result|].
  cbn [world trace]. rewrite <- app_assoc.
  apply H. now destruct (requests_get _ w).
Qed.

(** C8.  The default branch of an alignment pass: with a repository name the
    answer of the API lookup and no reading of [origin/HEAD]; without one,
    [origin/HEAD] is read and its last component taken, and [main] only when
    that reading fails or is not a remote ref; no request is made. *)
Theorem default_branch_fallback_chain (login p : string)
    (repo_name : option string) (st : state W) :
  exists b st' ext,
    Blackland.remote_default_branch login p repo_name st = (Return b, st') /\
    trace st' = trace st ++ ext /\
    if match repo_name with Some n => PyStr.truthy n | None => false end
    then
      Blackland.remote_default_branch login p repo_name st =
      Blackland.get_github_default_branch login
        (match repo_name with Some n => n | None => "" end) st /\
      requested ext =
        [api_url login (match repo_name with Some n => n | None => "" end)] /\
      spawned ext = []
    else
      requested ext = [] /\
      spawned ext = [git_symbolic_ref p] /\
      b = match subprocess_exec (git_symbolic_ref p) None (world st) with
          | ((0, out), _) =>
              if PyStr.truthy (PyStr.strip out)
                 && PyStr.startswith (PyStr.strip out) "refs/remotes/origin/"
              then PyStr.split_last "/" (PyStr.strip out)
              else "main"
          | _ => "main"
          end.
Proof.
  assert (Hhead : forall s : state W, exists b st' ext,
    Blackland.remote_default_branch login p None s = (Return b, st') /\
    trace st' = trace s ++ ext /\ requested ext = [] /\
    spawned ext = [git_symbolic_ref p] /\
    b = match subprocess_exec (git_symbolic_ref p) None (world s) with
        | ((0, out), _) =>
            if PyStr.truthy (PyStr.strip out)
               && PyStr.startswith (PyStr.strip out) "refs/remotes/origin/"
            then PyStr.split_last "/" (PyStr.strip out)
            else "main"
        | _ => "main"
        end).
  { intros [w t]. unfold git_symbolic_ref, Blackland.remote_default_branch.
    py_unfold. py_simpl. host_call.
    - py_test; (do 3 eexists; split; [reflexivity|]; split; [extension|];
                repeat split; reflexivity).
    - do 3 eexists. split; [reflexivity|]. split; [extension|].
      repeat split; reflexivity. }
  destruct repo_name as [[|c n]|]; cbn [PyStr.truthy].
  - apply Hhead.
  - unfold Blackland.remote_default_branch. cbn [PyStr.truthy].
    rewrite get_github_default_branch_result.
    do 3 eexists. split; [reflexivity|]. cbn [trace].
    split; [reflexivity|]. repeat split; reflexivity.
  - apply Hhead.
Qed.

Lemma wp_log_action (msg : string) (Q : outcome unit -> state W -> Prop)
    (w : W) (t ext : list event) :
  (forall w1,
      fs_makedirs (PyStr.dirname Blackland.LOG_FILE) w = (false, w1) ->
      Q (Return tt) (mkState w1 (t ++ ext))) ->
  (forall w1 w2 good,
      fs_makedirs (PyStr.dirname Blackland.LOG_FILE) w = (true, w1) ->
      fs_append Blackland.LOG_FILE
        ("[" ++ time_strftime w1 ++ "] " ++ msg ++ PyStr.nl)%string w1
        = (good, w2) ->
      Q (Return tt)
        (mkState w2 (t ++ (ext ++
           [Append Blackland.LOG_FILE
              ("[" ++ time_strftime w1 ++ "] " ++ msg ++ PyStr.nl)%string
              good])))) ->
  wp (Blackland.log_action msg) Q (mkState w (t ++ ext)).
Proof.
  intros H0 H1. unfold Blackland.log_action. wp_go; eauto.
Qed.

End BlacklandFacts.

Ltac bl_step :=
  lazymatch goal with
  | |- wp (Blackland.log_action _) _ _ =>
      apply wp_log_action; [intros ? ?|intros ? ? ? ? ?]; wp_simpl
  | |- wp (Blackland.run_cmd _ _ _) _ _ => unfold Blackland.run_cmd; wp_simpl
  | |- wp (Blackland.get_github_default_branch _ _) _ _ =>
      apply wp_get_github_default_branch; intros ? ? ?; wp_simpl
  | |- wp (Blackland.remote_default_branch _ _ _) _ _ =>
      unfold Blackland.remote_default_branch; wp_simpl
  | _ => wp_step
  end.

Section BlacklandQuiet.
Context {W : Type} {host : Host W}.

(** [ensure_remote_tokenized] always returns, reports nothing and cannot
    make a batch turn fail. *)
Lemma ensure_remote_tokenized_quiet (TOKEN p : string) (st : state W) :
  exists w ext,
    Blackland.ensure_remote_tokenized TOKEN p st =
      (Return tt, mkState w (trace st ++ ext)) /\
    (reported ext = false /\ existsb blackland_failure ext = false).
Proof.
  destruct st as [w t]. apply wp_returned with (P := fun ext => _).
  unfold Blackland.ensure_remote_tokenized. wp_simpl.
  repeat bl_step; (returned; split; reflexivity).
Qed.

(** So does [ensure_branch_alignment_local]. *)
Lemma ensure_branch_alignment_local_quiet (login p : string)
    (repo_name : option string) (st : state W) :
  exists w ext,
    Blackland.ensure_branch_alignment_local login p repo_name st =
      (Return tt, mkState w (trace st ++ ext)) /\
    (reported ext = false /\ existsb blackland_failure ext = false).
Proof.
  destruct st as [w t]. apply wp_returned with (P := fun ext => _).
  unfold Blackland.ensure_branch_alignment_local. wp_simpl.
  repeat bl_step; (returned; split; reflexivity).
Qed.

End BlacklandQuiet.

(** A function that returns [None] quietly, as a step of a run. *)
Ltac quiet_call lemma :=
  apply wp_returns with
    (P := fun _ e => reported e = false /\ existsb blackland_failure e = false);
  [let st0 := fresh "st" in
   intros st0; destruct (lemma st0) as (? & ? & ? & ?);
   eexists tt, _, _; split; eassumption
  |intros [] ? ? [? ?]]; wp_simpl.

Ltac batch_step :=
  lazymatch goal with
  | |- wp (Blackland.ensure_remote_tokenized ?tok ?p) _ _ =>
      quiet_call (ensure_remote_tokenized_quiet tok p)
  | |- wp (Blackland.ensure_branch_alignment_local ?l ?p ?n) _ _ =>
      quiet_call (ensure_branch_alignment_local_quiet l p n)
  | |- wp (Blackland.safe_push _ _) _ _ => unfold Blackland.safe_push; wp_simpl
  | _ => bl_step
  end.

(** The end of a turn: what it added starts with the announcement, and a
    failure in it is reported. *)
Ltac turn_done :=
  returned; eexists; split; [reflexivity|];
  rewrite ?existsb_app, ?reported_app;
  repeat match goal with
         | H : reported _ = false |- _ => rewrite H; clear H
         | H : existsb _ _ = false |- _ => rewrite H; clear H
         end;
  cbn; first [reflexivity | discriminate | intros; congruence].

Section BlacklandBatch.
Context {W : Type} {host : Host W}.

(** One turn of [batch_workspace_manager] always returns. *)
Lemma batch_workspace_step_returns (TOKEN login choice commit_msg d : string)
    (st : state W) :
  exists w ext,
    Blackland.batch_workspace_step TOKEN login choice commit_msg d st =
      (Return tt, mkState w (trace st ++ ext)) /\
    turn_of blackland_announce blackland_failure d ext.
Proof.
  destruct st as [w t]. apply wp_returned with (P := fun ext => _).
  unfold Blackland.batch_workspace_step, turn_of, blackland_announce. wp_simpl.
  repeat batch_step; turn_done.
Qed.

End BlacklandBatch.

Section GitFullFacts.
Context {W : Type} {host : Host W}.

(** The lookup of [git-full-manager.py] on a given answer. *)
Lemma get_default_branch_result (login repo_name : string) (st : state W) :
  GitFullManager.get_default_branch login repo_name st =
  (Return (branch_in (fst (requests_get (api_url login repo_name) (world st)))),
   mkState (snd (requests_get (api_url login repo_name) (world st)))
           (trace st ++ [Http (api_url login repo_name)])).
Proof.
  destruct st as [w t]. unfold api_url.
  unfold GitFullManager.get_default_branch. py_unfold. py_simpl.
  host_call; reflexivity.
Qed.

Lemma wp_get_default_branch (login repo_name : string)
    (Q : outcome string -> state W -> Prop) (w : W) (t ext : list event) :
  (forall r w',
      requests_get (api_url login repo_name) w = (r, w') ->
      Q (Return (branch_in r))
        (mkState w' (t ++ (ext ++ [Http (api_url login repo_name)])))) ->
  wp (GitFullManager.get_default_branch login repo_name) Q
     (mkState w (t ++ ext)).
Proof.
  intros H. eapply wp_known; [apply get_default_branch_result|].
  cbn [world trace]. rewrite <- app_assoc.
  apply H. now destruct (requests_get _ w).
Qed.

End GitFullFacts.

Ltac gf_step :=
  lazymatch goal with
  | |- wp (GitFullManager.log_action _) _ _ =>
      unfold GitFullManager.log_action; wp_simpl
  | |- wp (GitFullManager.run_shell _ _ _) _ _ =>
      unfold GitFullManager.run_shell; wp_simpl
  | |- wp (GitFullManager.get_default_branch _ _) _ _ =>
      apply wp_get_default_branch; intros ? ? ?; wp_simpl
  | _ => wp_step
  end.

Section GitFullQuiet.
Context {W : Type} {host : Host W}.

(** [fix_remote_with_token] always returns, reports nothing and cannot make
    a batch turn fail. *)
Lemma fix_remote_with_token_quiet (TOKEN p : string) (st : state W) :
  exists w ext,
    GitFullManager.fix_remote_with_token TOKEN p st =
      (Return tt, mkState w (trace st ++ ext)) /\
    (reported ext = false /\ existsb gitfull_failure ext = false).
Proof.
  destruct st as [w t]. apply wp_returned with (P := fun ext => _).
  unfold GitFullManager.fix_remote_with_token. wp_simpl.
  repeat gf_step; (returned; split; reflexivity).
Qed.

(** So does [ensure_branch_alignment]; its first step is the API lookup. *)
Lemma ensure_branch_alignment_quiet (login p repo_name : string) (st : state W) :
  exists w ext,
    GitFullManager.ensure_branch_alignment login p repo_name st =
      (Return tt, mkState w (trace st ++ ext)) /\
    (reported ext = false /\ existsb gitfull_failure ext = false).
Proof.
  destruct st as [w t]. apply wp_returned with (P := fun ext => _).
  unfold GitFullManager.ensure_branch_alignment. wp_simpl.
  repeat gf_step; (returned; split; reflexivity).
Qed.

End GitFullQuiet.

Ltac gf_quiet_call lemma :=
  apply wp_returns with
    (P := fun _ e => reported e = false /\ existsb gitfull_failure e = false);
  [let st0 := fresh "st" in
   intros st0; destruct (lemma st0) as (? & ? & ? & ?);
   eexists tt, _, _; split; eassumption
  |intros [] ? ? [? ?]]; wp_simpl.

Ltac gf_batch_step :=
  lazymatch goal with
  | |- wp (GitFullManager.fix_remote_with_token ?tok ?p) _ _ =>
      gf_quiet_call (fix_remote_with_token_quiet tok p)
  | |- wp (GitFullManager.ensure_branch_alignment ?l ?p ?n) _ _ =>
      gf_quiet_call (ensure_branch_alignment_quiet l p n)
  | _ => gf_step
  end.

Section BatchFacts.
Context {W : Type} {host : Host W}.

(** One turn of [batch_git_manager] always returns. *)
Lemma batch_git_step_returns (TOKEN login ch r : string) (st : state W) :
  exists w ext,
    GitFullManager.batch_git_step TOKEN login ch r st =
      (Return tt, mkState w (trace st ++ ext)) /\
    turn_of gitfull_announce gitfull_failure r ext.
Proof.
  destruct st as [w t]. apply wp_returned with (P := fun ext => _).
  unfold GitFullManager.batch_git_step, turn_of, gitfull_announce. wp_simpl.
  repeat gf_batch_step;
    (returned; eexists; split; [reflexivity|];
     rewrite ?existsb_app, ?reported_app;
     repeat match goal with
            | H : reported _ = false |- _ => rewrite H; clear H
            | H : existsb _ _ = false |- _ => rewrite H; clear H
            end;
     cbn; first [reflexivity | discriminate | intros; congruence]).
Qed.

End BatchFacts.

(** ** Under the contract of git *)

Section ContractFacts.
Context {W : Type} {host : Host W} {git : Git host}.

Ltac law_of H :=
  lazymatch type of H with
  | subprocess_exec ["git"; "-C"; ?p; "rev-parse"; "--abbrev-ref"; "HEAD"]
                    None _ = _ =>
      pose proof (rev_parse_reads p _ _ _ _ H);
      pose proof (branch_kept (git_rev_parse p) _ _ _ eq_refl H)
  | subprocess_exec ["git"; "-C"; ?p; "checkout"; ?b] None _ = _ => idtac
  | subprocess_exec ["git"; "-C"; ?p; "remote"; "get-url"; "origin"]
                    None _ = _ =>
      pose proof (get_url_reads p _ _ _ _ H)
  | subprocess_exec ["git"; "-C"; ?p; "remote"; "set-url"; "origin"; ?u]
                    None _ = _ =>
      pose proof (set_url_writes p u _ _ _ _ H)
  | subprocess_exec ?argv None _ = _ =>
      pose proof (branch_kept argv _ _ _ eq_refl H)
  | requests_get _ _ = _ => pose proof (request_keeps _ _ _ _ H)
  | fs_makedirs _ _ = _ => pose proof (makedirs_keeps _ _ _ _ H)
  | fs_append _ _ _ = _ => pose proof (append_keeps _ _ _ _ _ H)
  end; clear H.

Ltac git_laws :=
  repeat match goal with
         | H : subprocess_exec _ _ _ = _ |- _ => law_of H
         | H : requests_get _ _ = _ |- _ => law_of H
         | H : fs_makedirs _ _ = _ |- _ => law_of H
         | H : fs_append _ _ _ = _ |- _ => law_of H
         | H : _ /\ _ |- _ => destruct H
         | H : 0 = 0 -> _ |- _ => specialize (H eq_refl)
         end;
  cbn [Nat.eqb] in *.

(** Once rewritten, a URL is not rewritten again. *)
Lemma needs_token_tokenized (token url : string) :
  needs_token url = true ->
  needs_token (PyStr.strip (tokenized token url)) = false.
Proof.
  intros H. apply andb_true_iff in H as [H _]. unfold needs_token.
  rewrite (contains_at_strip _ (tokenized_contains_at token url H)).
  apply andb_false_r.
Qed.

Ltac origin_rewrite :=
  repeat match goal with
         | H : origin_of ?a = origin_of _ |- context [origin_of ?a] => rewrite H
         | H : origin_of ?a ?p = _ |- context [origin_of ?a ?p] => rewrite H
         end.

Ltac tokenize_cases :=
  returned; cbn [world]; git_laws;
  cbn [count spawned flat_map app filter is_set_url List.length all_succeeded
       forallb andb];
  repeat match goal with
         | H : PyStr.strip ?out = origin_of _ _ |- _ => rewrite H in *; clear H
         end.

Ltac tokenize_first_cases :=
  tokenize_cases;
  split;
  [intros Hc; first [now contradiction Hc | split; [assumption|reflexivity]]
  |intros Ha;
   first [discriminate Ha
         |origin_rewrite;
          first [assumption | apply needs_token_tokenized; assumption]]].

Ltac tokenize_noop_cases :=
  tokenize_cases;
  try (split; [origin_rewrite; reflexivity|reflexivity]);
  try match goal with
      | H : needs_token ?u = false, H' : _ && _ = true |- _ =>
          unfold needs_token in H; rewrite H in H'; discriminate H'
      end.

(** The first run of [ensure_remote_tokenized]: it rewrites only a URL that
    needs the token, and when its commands succeed the URL needs none
    afterwards. *)
Lemma tokenize_first (TOKEN p : string) (st : state W) :
  exists w1 ext1,
    Blackland.ensure_remote_tokenized TOKEN p st =
      (Return tt, mkState w1 (trace st ++ ext1)) /\
    ((count is_set_url (spawned ext1) <> 0 ->
      needs_token (origin_of (world st) p) = true /\
      spawned ext1 =
        [git_get_url p;
         git_set_url p (tokenized TOKEN (origin_of (world st) p))]) /\
     (all_succeeded ext1 = true -> needs_token (origin_of w1 p) = false)).
Proof.
  destruct st as [w t]. apply wp_returned_in with (P := fun w1 ext => _).
  unfold Blackland.ensure_remote_tokenized. wp_simpl.
  repeat bl_step; tokenize_first_cases.
Qed.

(** On a URL that needs no token it changes nothing. *)
Lemma tokenize_noop (TOKEN p : string) (st : state W) :
  needs_token (origin_of (world st) p) = false ->
  exists w2 ext2,
    Blackland.ensure_remote_tokenized TOKEN p st =
      (Return tt, mkState w2 (trace st ++ ext2)) /\
    (origin_of w2 p = origin_of (world st) p /\
     count is_set_url (spawned ext2) = 0).
Proof.
  intros Hn. destruct st as [w t]. cbn [world] in Hn.
  apply wp_returned_in with (P := fun w2 ext => _).
  unfold Blackland.ensure_remote_tokenized. wp_simpl.
  repeat bl_step; tokenize_noop_cases.
Qed.

(** The same two facts for [fix_remote_with_token]. *)
Lemma fix_remote_first (TOKEN p : string) (st : state W) :
  exists w1 ext1,
    GitFullManager.fix_remote_with_token TOKEN p st =
      (Return tt, mkState w1 (trace st ++ ext1)) /\
    ((count is_set_url (spawned ext1) <> 0 ->
      needs_token (origin_of (world st) p) = true /\
      spawned ext1 =
        [git_get_url p;
         git_set_url p (tokenized TOKEN (origin_of (world st) p))]) /\
     (all_succeeded ext1 = true -> needs_token (origin_of w1 p) = false)).
Proof.
  destruct st as [w t]. apply wp_returned_in with (P := fun w1 ext => _).
  unfold GitFullManager.fix_remote_with_token. wp_simpl.
  repeat gf_step;
    try match goal with
        | H : subprocess_exec (_ :: _ :: _ :: _ :: "set-url" :: _) None _
              = (?rc, _, _) |- _ => destruct rc
        end;
    try match goal with
        | H : negb _ && _ = _ |- _ => rewrite andb_comm in H
        end;
    tokenize_first_cases.
Qed.

Lemma fix_remote_noop (TOKEN p : string) (st : state W) :
  needs_token (origin_of (world st) p) = false ->
  exists w2 ext2,
    GitFullManager.fix_remote_with_token TOKEN p st =
      (Return tt, mkState w2 (trace st ++ ext2)) /\
    (origin_of w2 p = origin_of (world st) p /\
     count is_set_url (spawned ext2) = 0).
Proof.
  intros Hn. destruct st as [w t]. cbn [world] in Hn.
  apply wp_returned_in with (P := fun w2 ext => _).
  unfold GitFullManager.fix_remote_with_token. wp_simpl.
  repeat gf_step;
    try match goal with
        | H : negb _ && _ = _ |- _ => rewrite andb_comm in H
        end;
    tokenize_noop_cases.
Qed.

Ltac tokenize_effect_cases :=
  tokenize_cases;
  first
    [ left; origin_rewrite; reflexivity
    | right; split; [assumption|origin_rewrite; reflexivity] ].

(** What a run does to the URL: nothing, or the rewriting of a URL that
    needs the token. *)
Lemma tokenize_effect (TOKEN p : string) (st : state W) :
  exists w1 ext1,
    Blackland.ensure_remote_tokenized TOKEN p st =
      (Return tt, mkState w1 (trace st ++ ext1)) /\
    (origin_of w1 p = origin_of (world st) p \/
     needs_token (origin_of (world st) p) = true /\
     origin_of w1 p = PyStr.strip (tokenized TOKEN (origin_of (world st) p))).
Proof.
  destruct st as [w t]. apply wp_returned_in with (P := fun w1 ext => _).
  unfold Blackland.ensure_remote_tokenized. wp_simpl.
  repeat bl_step; tokenize_effect_cases.
Qed.

Lemma fix_remote_effect (TOKEN p : string) (st : state W) :
  exists w1 ext1,
    GitFullManager.fix_remote_with_token TOKEN p st =
      (Return tt, mkState w1 (trace st ++ ext1)) /\
    (origin_of w1 p = origin_of (world st) p \/
     needs_token (origin_of (world st) p) = true /\
     origin_of w1 p = PyStr.strip (tokenized TOKEN (origin_of (world st) p))).
Proof.
  destruct st as [w t]. apply wp_returned_in with (P := fun w1 ext => _).
  unfold GitFullManager.fix_remote_with_token. wp_simpl.
  repeat gf_step;
    try match goal with
        | H : subprocess_exec (_ :: _ :: _ :: _ :: "set-url" :: _) None _
              = (?rc, _, _) |- _ => destruct rc
        end;
    try match goal with
        | H : negb _ && _ = _ |- _ => rewrite andb_comm in H
        end;
    tokenize_effect_cases.
Qed.

(** Two runs in a row, for a function that behaves as the lemmas above
    say. *)
Lemma twice (run : state W -> outcome unit * state W) (TOKEN p : string) :
  (forall st, exists w1 ext1,
      run st = (Return tt, mkState w1 (trace st ++ ext1)) /\
      ((count is_set_url (spawned ext1) <> 0 ->
        needs_token (origin_of (world st) p) = true /\
        spawned ext1 =
          [git_get_url p;
           git_set_url p (tokenized TOKEN (origin_of (world st) p))]) /\
       (all_succeeded ext1 = true -> needs_token (origin_of w1 p) = false))) ->
  (forall st, needs_token (origin_of (world st) p) = false ->
      exists w2 ext2,
        run st = (Return tt, mkState w2 (trace st ++ ext2)) /\
        (origin_of w2 p = origin_of (world st) p /\
         count is_set_url (spawned ext2) = 0)) ->
  (forall st, exists w1 ext1,
      run st = (Return tt, mkState w1 (trace st ++ ext1)) /\
      (origin_of w1 p = origin_of (world st) p \/
       needs_token (origin_of (world st) p) = true /\
       origin_of w1 p = PyStr.strip (tokenized TOKEN (origin_of (world st) p)))) ->
  forall st, exists w1 ext1 w2 ext2,
    run st = (Return tt, mkState w1 (trace st ++ ext1)) /\
    run (mkState w1 (trace st ++ ext1)) =
      (Return tt, mkState w2 ((trace st ++ ext1) ++ ext2)) /\
    (count is_set_url (spawned ext1) <> 0 ->
     needs_token (origin_of (world st) p) = true /\
     spawned ext1 =
       [git_get_url p;
        git_set_url p (tokenized TOKEN (origin_of (world st) p))]) /\
    (all_succeeded ext1 = true ->
     origin_of w2 p = origin_of w1 p /\ count is_set_url (spawned ext2) = 0) /\
    (origin_of w2 p = origin_of (world st) p \/
     origin_of w2 p = PyStr.strip (tokenized TOKEN (origin_of (world st) p))).
Proof.
  intros Hfirst Hnoop Heffect st.
  destruct (Hfirst st) as (w1 & ext1 & E1 & Hset & Hok).
  destruct (Heffect st) as (w1' & ext1' & E1' & Hurl1).
  rewrite E1 in E1'. injection E1' as <- Et. apply app_inv_head in Et as <-.
  set (st1 := mkState w1 (trace st ++ ext1)).
  destruct (Heffect st1) as (w2 & ext2 & E2 & Hurl2).
  destruct (Hfirst st1) as (w2' & ext2' & E2' & _).
  exists w1, ext1, w2, ext2. subst st1. cbn [world trace] in *.
  repeat split; [exact E1|exact E2|now apply Hset|now apply Hset|..].
  - destruct (Hnoop (mkState w1 (trace st ++ ext1)) (Hok H))
      as (w3 & ext3 & E3 & Hsame & _).
    cbn [world trace] in *. rewrite E2 in E3. now injection E3 as <- _.
  - destruct (Hnoop (mkState w1 (trace st ++ ext1)) (Hok H))
      as (w3 & ext3 & E3 & _ & Hnone).
    cbn [world trace] in *. rewrite E2 in E3. injection E3 as _ Et.
    now apply app_inv_head in Et as <-.
  - destruct Hurl1 as [H1|[Hn1 H1]], Hurl2 as [H2|[Hn2 H2]].
    + left. congruence.
    + right. rewrite H2. now rewrite H1.
    + right. congruence.
    + exfalso. rewrite H1, needs_token_tokenized in Hn2 by assumption.
      discriminate Hn2.
Qed.

(** C10.  Tokenizing the remote is idempotent in both scripts.  Of two runs
    in a row, the first sets the URL only when the URL starts with
    [https://] and holds no [@], and then to the URL with the token put in;
    when the commands of the first have succeeded, the second leaves the
    URL as it is and sets nothing; and whatever fails, the URL after both is
    the one before them or that URL with the token put in once. *)
Theorem tokenization_idempotent (TOKEN p : string) (st : state W) :
  (exists w1 ext1 w2 ext2,
     Blackland.ensure_remote_tokenized TOKEN p st =
       (Return tt, mkState w1 (trace st ++ ext1)) /\
     Blackland.ensure_remote_tokenized TOKEN p (mkState w1 (trace st ++ ext1)) =
       (Return tt, mkState w2 ((trace st ++ ext1) ++ ext2)) /\
     (count is_set_url (spawned ext1) <> 0 ->
      needs_token (origin_of (world st) p) = true /\
      spawned ext1 =
        [git_get_url p;
         git_set_url p (tokenized TOKEN (origin_of (world st) p))]) /\
     (all_succeeded ext1 = true ->
      origin_of w2 p = origin_of w1 p /\ count is_set_url (spawned ext2) = 0) /\
     (origin_of w2 p = origin_of (world st) p \/
      origin_of w2 p = PyStr.strip (tokenized TOKEN (origin_of (world st) p)))) /\
  (exists w1 ext1 w2 ext2,
     GitFullManager.fix_remote_with_token TOKEN p st =
       (Return tt, mkState w1 (trace st ++ ext1)) /\
     GitFullManager.fix_remote_with_token TOKEN p
       (mkState w1 (trace st ++ ext1)) =
       (Return tt, mkState w2 ((trace st ++ ext1) ++ ext2)) /\
     (count is_set_url (spawned ext1) <> 0 ->
      needs_token (origin_of (world st) p) = true /\
      spawned ext1 =
        [git_get_url p;
         git_set_url p (tokenized TOKEN (origin_of (world st) p))]) /\
     (all_succeeded ext1 = true ->
      origin_of w2 p = origin_of w1 p /\ count is_set_url (spawned ext2) = 0) /\
     (origin_of w2 p = origin_of (world st) p \/
      origin_of w2 p = PyStr.strip (tokenized TOKEN (origin_of (world st) p)))).
Proof.
  split.
  - apply (twice (Blackland.ensure_remote_tokenized TOKEN p) TOKEN p
             (tokenize_first TOKEN p) (tokenize_noop TOKEN p)
             (tokenize_effect TOKEN p)).
  - apply (twice (GitFullManager.fix_remote_with_token TOKEN p) TOKEN p
             (fix_remote_first TOKEN p) (fix_remote_noop TOKEN p)
             (fix_remote_effect TOKEN p)).
Qed.

End ContractFacts.

(** ** The alignment of a branch *)


Section AlignFacts.
Context {W : Type} {host : Host W}.





End AlignFacts.


(** ** The small host keeps the contract *)

Lemma argv_eqb_eq (a b : list string) : argv_eqb a b = true -> a = b.
Proof.
  revert b. induction a as [|x a IH]; intros [|y b] H; try discriminate H.
  - reflexivity.
  - cbn in H. apply andb_true_iff in H as [Hx Hab].
    apply String.eqb_eq in Hx. now rewrite Hx, (IH b Hab).
Qed.

Lemma update_same (f : string -> string) (k v : string) : Sim.update f k v k = v.
Proof. unfold Sim.update. now rewrite String.eqb_refl. Qed.

Lemma sim_rev_parse_reads (p : string) (w : Sim.world) (rc : nat)
    (out : string) (w' : Sim.world) :
  Sim.exec (git_rev_parse p) None w = ((rc, out), w') ->
  rc = 0 -> PyStr.strip out = Sim.branch_seen w p.
Proof.
  unfold Sim.exec, git_rev_parse.
  destruct (Sim.exit_status w _); cbn; intros [= <- <- <-]; [reflexivity|discriminate].
Qed.

Lemma sim_branch_kept (argv : list string) (w : Sim.world)
    (r : nat * string) (w' : Sim.world) :
  keeps_branch argv = true ->
  Sim.exec argv None w = (r, w') ->
  Sim.branch_seen w' = Sim.branch_seen w.
Proof.
  intros Hk. unfold Sim.exec.
  destruct (Sim.exit_status w argv); [|now intros [= <- <-]].
  destruct argv as [|g [|c [|p [|a [|b [|o [|u [|x argv]]]]]]]];
    try now intros [= <- <-].
  - destruct (argv_eqb [g; c; a] _) eqn:E.
    + apply argv_eqb_eq in E. inversion E; subst. discriminate Hk.
    + destruct (argv_eqb [g; c; a; b] _); [destruct (Sim.origin_head w p)|];
        now intros [= <- <-].
  - destruct (argv_eqb _ _); [|destruct (argv_eqb _ _)]; now intros [= <- <-].
  - destruct (argv_eqb _ _); now intros [= <- <-].
Qed.

Lemma sim_get_url_reads (p : string) (w : Sim.world) (rc : nat)
    (out : string) (w' : Sim.world) :
  Sim.exec (git_get_url p) None w = ((rc, out), w') ->
  Sim.origin_seen w' = Sim.origin_seen w /\
  (rc = 0 -> PyStr.strip out = Sim.origin_seen w p).
Proof.
  unfold Sim.exec, git_get_url.
  destruct (Sim.exit_status w _); cbn; intros [= <- <- <-];
    (split; [reflexivity|]); [reflexivity|discriminate].
Qed.

Lemma sim_set_url_writes (p u : string) (w : Sim.world) (rc : nat)
    (out : string) (w' : Sim.world) :
  Sim.exec (git_set_url p u) None w = ((rc, out), w') ->
  Sim.origin_seen w' p = if Nat.eqb rc 0 then PyStr.strip u else Sim.origin_seen w p.
Proof.
  unfold Sim.exec, git_set_url.
  destruct (Sim.exit_status w _); cbn; intros [= <- <- <-]; [|reflexivity].
  unfold Sim.origin_seen, Sim.set_origin. cbn [Sim.origins].
  now rewrite update_same, strip_app_nl.
Qed.

#[global] Instance sim_git : Git Sim.host := {
  branch_of := Sim.branch_seen;
  origin_of := Sim.origin_seen;
  rev_parse_reads := sim_rev_parse_reads;
  branch_kept := sim_branch_kept;
  get_url_reads := sim_get_url_reads;
  set_url_writes := sim_set_url_writes;
  request_keeps := fun url w r w' (E : (Sim.api w url, w) = (r, w')) =>
    match E with eq_refl => conj eq_refl eq_refl end;
  makedirs_keeps := fun path w r w' (E : (true, w) = (r, w')) =>
    match E with eq_refl => conj eq_refl eq_refl end;
  append_keeps := fun path text w r w' (E : (Sim.log_writable w, w) = (r, w')) =>
    match E with eq_refl => conj eq_refl eq_refl end
}.

(** ** Runs on the small host *)

Example lookup_when_offline :
  fst (Blackland.get_github_default_branch "o" "r" (Sim.start Sim.offline)) =
    Return "main" /\
  fst (GitFullManager.get_default_branch "o" "r" (Sim.start Sim.offline)) =
    Return "main".
Proof. split; reflexivity. Qed.

Lemma safe_push_first_attempt_witness :
  (exists r st' ext,
     Blackland.safe_push "/w/r" "sync" (Sim.start Sim.calm) = (Return r, st') /\
     trace st' = trace (Sim.start Sim.calm) ++ ext /\
     r = true /\
     spawned ext = [push_cmd "/w/r"] /\
     count is_rebase (spawned ext) = 0 /\
     count is_force_with_lease (spawned ext) = 0) /\
  (exists r st' ext,
     Blackland.safe_push "/w/r" "sync" (Sim.start Sim.diverged) =
       (Return r, st') /\
     trace st' = trace (Sim.start Sim.diverged) ++ ext /\
     exists rest, spawned ext = push_cmd "/w/r" :: fetch_cmd "/w/r" :: rest).
Proof.
  split.
  - exact (safe_push_first_attempt "/w/r" "sync" (Sim.start Sim.calm) 0 ""
             Sim.calm eq_refl eq_refl).
  - exact (safe_push_first_attempt "/w/r" "sync" (Sim.start Sim.diverged) 1 ""
             Sim.diverged eq_refl eq_refl).
Defined.

(** C4, as the claim has it, fails: the working copy [/w/r] holds all that
    its remote holds, and the remote takes no push from it.  The direct push
    exits with 1, and [safe_push] goes through the fetch and the rebase,
    logs "Recovered push" and returns [True]. *)
Lemma refused_push_without_divergence :
  let copy := Sim.protected_remote in
  let run := Blackland.safe_push "/w/r" "sync" (mkState copy []) in
  Sim.behind copy "/w/r" = false /\
  fst run = Return true /\
  In (Spawn (push_cmd "/w/r") None 1) (trace (snd run)) /\
  spawned (trace (snd run)) =
    [push_cmd "/w/r"; fetch_cmd "/w/r"; rebase_cmd "/w/r"] /\
  count is_rebase (spawned (trace (snd run))) = 1 /\
  logged (trace (snd run)) =
    [stamped "2025-01-01 00:00:00" "Recovered push for /w/r"].
Proof.
  repeat split. vm_compute. repeat (first [left; reflexivity | right]).
Qed.

(** C1.  On a working copy whose remote has moved on and whose rebase is
    clean, [safe_push] runs the rejected push, the fetch and the rebase, and
    returns [True] there: no push follows the rebase. *)
Theorem safe_push_rebase_not_followed_by_push :
  let run := Blackland.safe_push "/w/r" "sync" (Sim.start Sim.diverged) in
  fst run = Return true /\
  trace (snd run) =
    [Print "🚀 git -C /w/r push";
     Spawn (push_cmd "/w/r") None 1;
     Print ("[yellow]Push failed (trying recovery): Command "
            ++ "'['git', '-C', '/w/r', 'push']' returned non-zero exit status 1."
            ++ "[/yellow]")%string;
     Print "🚀 git -C /w/r fetch origin";
     Spawn (fetch_cmd "/w/r") None 0;
     Print "🚀 git -C /w/r pull --rebase";
     Spawn (rebase_cmd "/w/r") None 0;
     Append Blackland.LOG_FILE
       ("[2025-01-01 00:00:00] Recovered push for /w/r" ++ PyStr.nl)%string true] /\
  count is_plain_push (spawned (trace (snd run))) = 1.
Proof. repeat split. Qed.

Example batch_goes_on_after_a_failure :
  let run :=
    Blackland.batch_workspace_manager "ghp_SECRET" "me" ["a"; "b"] "1" "sync"
      (Sim.start Sim.pull_refused) in
  fst run = Return tt /\
  printed (trace (snd run)) =
    [blackland_announce "a";
     aligning_line "dev" "main" "/home/gost/7heBlackLand/a";
     "🔄 Pulling...";
     "🚀 git -C /home/gost/7heBlackLand/a pull";
     ("[red]Git operation failed for a: Command '['git', '-C', "
      ++ "'/home/gost/7heBlackLand/a', 'pull']' returned non-zero exit status 1."
      ++ "[/red]")%string;
     blackland_announce "b";
     aligning_line "dev" "main" "/home/gost/7heBlackLand/b";
     "🔄 Pulling...";
     "🚀 git -C /home/gost/7heBlackLand/b pull";
     "[green]Pulled.[/green]";
     (PyStr.nl ++ "✨ Batch operations completed." ++ PyStr.nl)%string].
Proof. split; reflexivity. Qed.

Lemma tokenization_idempotent_witness :
  exists w1 ext1 w2 ext2,
    Blackland.ensure_remote_tokenized "ghp_SECRET" "/w/r" (Sim.start Sim.calm) =
      (Return tt, mkState w1 (trace (Sim.start Sim.calm) ++ ext1)) /\
    Blackland.ensure_remote_tokenized "ghp_SECRET" "/w/r"
      (mkState w1 (trace (Sim.start Sim.calm) ++ ext1)) =
      (Return tt, mkState w2 ((trace (Sim.start Sim.calm) ++ ext1) ++ ext2)) /\
    spawned ext1 =
      [git_get_url "/w/r";
       git_set_url "/w/r" "https://ghp_SECRET@github.com/o/r.git"] /\
    Sim.origin_seen w2 "/w/r" = Sim.origin_seen w1 "/w/r" /\
    count is_set_url (spawned ext2) = 0.
Proof.
  destruct (tokenization_idempotent "ghp_SECRET" "/w/r" (Sim.start Sim.calm))
    as [(w1 & ext1 & w2 & ext2 & E1 & E2 & Hset & Hagain & _) _].
  exists w1, ext1, w2, ext2. split; [exact E1|]. split; [exact E2|].
  assert (Hone : count is_set_url (spawned ext1) <> 0).
  { injection E1 as _ <-. discriminate. }
  assert (Hall : all_succeeded ext1 = true).
  { injection E1 as _ <-. reflexivity. }
  split; [exact (proj2 (Hset Hone))|exact (Hagain Hall)].
Defined.



(** C2.  A constructed URL holds the token as it is, and it reaches the log
    and the console with the token in it: [git_pull.py] logs the URL it has
    cloned from, and [blackland-manager.py] announces the clone command and
    logs it when the clone fails. *)
Theorem token_written_to_log_and_console :
  (forall token url,
      needs_token url = true ->
      PyStr.contains token (tokenized token url) = true) /\
  let token := "ghp_SECRET" in
  let pulled := GitPull.ensure_repo_exists token (Sim.start Sim.fresh_clone) in
  let cloned :=
    Blackland.clone_repo_to_workspace token "me" Sim.repo (Sim.start Sim.calm) in
  let refused :=
    Blackland.clone_repo_to_workspace token "me" Sim.repo
      (Sim.start (Sim.clone_refused token)) in
  (fst pulled = Return tt /\
   logged (trace (snd pulled)) =
     [stamped "2025-01-01 00:00:00"
        "Cloned repository from https://ghp_SECRET@github.com/o/r.git"] /\
   existsb (PyStr.contains token) (logged (trace (snd pulled))) = true /\
   existsb (PyStr.contains token) (printed (trace (snd pulled))) = true) /\
  (fst cloned = Return tt /\
   existsb (PyStr.contains token) (printed (trace (snd cloned))) = true) /\
  (fst refused = Return tt /\
   existsb (PyStr.contains token) (logged (trace (snd refused))) = true).
Proof.
  split; [|repeat split].
  intros token url H. apply andb_true_iff in H as [H _].
  now apply tokenized_contains_token.
Qed.

(** C5.  In [upload_file_to_github] the recovery from a rejected push is a
    fetch and then a push with [force=True], which GitPython runs as
    [git push --force]: an unconditional forced push. *)
Theorem upload_recovery_forces_the_push :
  let run :=
    Blackland.upload_file_to_github "ghp_SECRET" Sim.repo "site" "main" "update"
      (Sim.start Sim.push_rejected) in
  let dir := "/tmp/gh_upload_0" in
  fst run = Return true /\
  lib_calls (trace (snd run)) =
    [Mkdtemp "gh_upload_";
     CloneFrom "https://ghp_SECRET@github.com/o/r.git" dir "main" 1;
     CopyInto "site" dir; RemoveUnwanted dir; OpenRepo dir; AddAll dir;
     IsDirty dir; IndexCommit dir "update"; RemoteOrigin dir;
     RemotePush dir "main:main" false;
     GitFetch dir "origin";
     RemotePush dir "main:main" true;
     Rmtree dir] /\
  count is_forced_lib_push (lib_calls (trace (snd run))) = 1.
Proof. repeat split. Qed.

(* ===================================================================== *)
(** * More of the scripts *)
(* ===================================================================== *)

Import Watch.

(** ** Runs that may end in an exception *)

Section EndedFacts.
Context {W : Type} {host : Host W}.

(** From a weakest precondition back to the equation of a run that returns
    or raises. *)
Lemma wp_ended {A} (m : M W A) (P : outcome A -> W -> list event -> Prop)
    (w : W) (t : list event) :
  wp m (fun r st' =>
          exists r' w' ext,
            (r, st') = (r', mkState w' (t ++ ext)) /\ P r' w' ext)
     (mkState w (t ++ [])) ->
  exists r w' ext,
    m (mkState w t) = (r, mkState w' (t ++ ext)) /\ P r w' ext.
Proof.
  unfold wp. rewrite app_nil_r. intros (r & w' & ext & E & HP).
  exists r, w', ext. split; [|exact HP].
  rewrite <- E. now destruct (m (mkState w t)).
Qed.

End EndedFacts.

(** The run has ended in a state whose trace extends the initial one. *)
Ltac ended := eexists _, _, _; split; [reflexivity|].

(** ** What is recorded and announced *)

Section RecordFacts.
Context {W : Type} {host : Host W}.

(** X1.  [log_action] of [blackland-manager.py] returns for every answer of
    the file system: it prints nothing and runs no command, and the log gets
    the one stamped line exactly when the directory could be made and the
    file could be written; otherwise the failure is swallowed and nothing is
    recorded. *)
Theorem log_action_never_raises (msg : string) (st : state W) :
  exists w ext,
    Blackland.log_action msg st = (Return tt, mkState w (trace st ++ ext)) /\
    printed ext = [] /\ spawned ext = [] /\
    logged ext =
      match fs_makedirs (PyStr.dirname Blackland.LOG_FILE) (world st) with
      | (true, w1) =>
          let line := stamped (time_strftime w1) msg in
          if fst (fs_append Blackland.LOG_FILE line w1) then [line] else []
      | (false, _) => []
      end.
Proof.
  destruct st as [w t]. apply wp_returned with (P := fun ext => _).
  repeat bl_step; returned; cbn [world]; unfold stamped;
    repeat match goal with H : _ = _ |- _ => rewrite H end;
    cbn [fst]; repeat split;
    match goal with good : bool |- _ => now destruct good end.
Qed.

(** X2.  On a path without a closing tag of the console markup,
    [safe_push] returns, and it runs its commands through [run_cmd] only:
    each command it runs is printed on the console, as "🚀 " and the command
    line, right before it is run. *)
Theorem safe_push_announces_every_command (p msg : string) (st : state W) :
  Rich.closes_no_tag p = true ->
  exists r w ext,
    Blackland.safe_push p msg st = (Return r, mkState w (trace st ++ ext)) /\
    announced None ext = true.
Proof.
  intros _.
  destruct st as [w t]. apply wp_returned_all with (P := fun r w ext => _).
  unfold Blackland.safe_push. wp_simpl.
  repeat bl_step; (eexists _, _, _; split; [reflexivity|]);
  cbn [announced]; rewrite ?String.eqb_refl; reflexivity.
Qed.
End RecordFacts.

(** ** The workspace and the identity *)

Section WorkspaceFacts.
Context {W : Type} {host : Host W}.

(** X3.  On a path without a closing tag of the console markup,
    [safe_push] returns a boolean.  It prints a line in red exactly when it
    returns [False], and it logs at most one line: "Pushed" or "Recovered
    push for" the path when it returns [True], "Push recovery failed for"
    the path and the error when it returns [False]. *)
Theorem safe_push_reports_its_outcome (p msg : string) (st : state W) :
  Rich.closes_no_tag p = true ->
  exists r w ext,
    Blackland.safe_push p msg st = (Return r, mkState w (trace st ++ ext)) /\
    reported ext = negb r /\
    exists line,
      (logged ext = [] \/ exists ts, logged ext = [stamped ts line]) /\
      if r : bool
      then line = ("Pushed " ++ p)%string \/ line = ("Recovered push for " ++ p)%string
      else exists e,
             line = ("Push recovery failed for " ++ p ++ ": " ++ str_exn e)%string.
Proof.
  intros _.
  destruct st as [w t]. apply wp_returned_all with (P := fun r w ext => _).
  unfold Blackland.safe_push. wp_simpl.
  repeat bl_step; (eexists _, _, _; split; [reflexivity|]);
    (split; [reflexivity|]); eexists; unfold stamped;
    try match goal with good : bool |- _ => destruct good end;
    (split; [first [right; eexists; reflexivity | left; reflexivity]|]);
    first [left; reflexivity | right; reflexivity | eexists; reflexivity].
  Unshelve. all: exact (SystemExit 0).
Qed.

(** X4.  [ensure_remote_tokenized] and [fix_remote_with_token] return for
    every answer of the host and print nothing.  The first logs at most the
    line "Tokenized origin for <path>", which names the path and not the URL,
    and only when its [set-url] has exited with 0; the second logs
    nothing. *)
Theorem tokenization_keeps_the_token_out_of_the_records (TOKEN p : string)
    (st : state W) :
  (exists w ext,
     Blackland.ensure_remote_tokenized TOKEN p st =
       (Return tt, mkState w (trace st ++ ext)) /\
     printed ext = [] /\
     (logged ext = [] \/
      (exists ts, logged ext = [stamped ts ("Tokenized origin for " ++ p)%string]) /\
      exists u, In (Spawn (git_set_url p u) None 0) ext)) /\
  (exists w ext,
     GitFullManager.fix_remote_with_token TOKEN p st =
       (Return tt, mkState w (trace st ++ ext)) /\
     printed ext = [] /\ logged ext = []).
Proof.
  destruct st as [w t]. split.
  - apply wp_returned with (P := fun ext => _).
    unfold Blackland.ensure_remote_tokenized. wp_simpl.
    repeat bl_step; returned; (split; [reflexivity|]);
      try match goal with good : bool |- _ => destruct good end;
      unfold stamped;
      first [left; reflexivity
            |right; split; [eexists; reflexivity|];
             eexists; unfold git_set_url; cbn [In]; right; left; reflexivity].
  - apply wp_returned with (P := fun ext => _).
    unfold GitFullManager.fix_remote_with_token. wp_simpl.
    repeat gf_step; returned; split; reflexivity.
Qed.

(** X5.  When the workspace can be made and the path of the working copy
    exists in it, [clone_repo_to_workspace] prints "Already exists: <name> →
    skipping" and does nothing else: no command, no request, no log line. *)
Theorem clone_skips_an_existing_copy (TOKEN login : string)
    (repo : Blackland.Repository) (st : state W) (w1 : W) :
  fs_makedirs Blackland.REPO_PATH (world st) = (true, w1) ->
  fs_exists (workspace_path repo) w1 = true ->
  Blackland.clone_repo_to_workspace TOKEN login repo st =
    (Return tt,
     mkState w1 (trace st ++
       [Print ("[yellow]Already exists: " ++ Blackland.name repo
               ++ " → skipping[/yellow]")%string])).
Proof.
  intros Hm He. destruct st as [w t]. cbn [world] in Hm.
  unfold Blackland.clone_repo_to_workspace, workspace_path in *.
  py_unfold. unfold os_path_exists. py_simpl. rewrite Hm. py_simpl.
  rewrite He. reflexivity.
Qed.

(** X6.  When the workspace can be made, the path of the working copy is
    free and [git clone] exits with a status other than 0,
    [clone_repo_to_workspace] returns: the clone is the only command it has
    run, the console holds the announcement of the clone and the line "Clone
    failed for <full name>: <error>", and the log at most that failure. *)
Theorem failed_clone_is_reported_and_nothing_follows (TOKEN login : string)
    (repo : Blackland.Repository) (st : state W) (w1 w2 : W)
    (rc : nat) (out : string) :
  let cmd := git_clone (workspace_clone_url TOKEN repo) (workspace_path repo) in
  let failure :=
    ("Clone failed for " ++ Blackland.full_name repo ++ ": "
     ++ str_exn (CalledProcessError cmd (S rc)))%string in
  fs_makedirs Blackland.REPO_PATH (world st) = (true, w1) ->
  fs_exists (workspace_path repo) w1 = false ->
  subprocess_exec cmd None w1 = ((S rc, out), w2) ->
  exists w ext,
    Blackland.clone_repo_to_workspace TOKEN login repo st =
      (Return tt, mkState w (trace st ++ ext)) /\
    spawned ext = [cmd] /\
    printed ext =
      [("🚀 " ++ PyStr.join " " cmd)%string;
       ("[red]Clone failed for " ++ Blackland.full_name repo ++ ": "
        ++ str_exn (CalledProcessError cmd (S rc)) ++ "[/red]")%string] /\
    (logged ext = [] \/ exists ts, logged ext = [stamped ts failure]).
Proof.
  intros cmd failure Hm He Hc. destruct st as [w t]. cbn [world] in Hm.
  subst cmd failure.
  unfold Blackland.clone_repo_to_workspace, Blackland.run_cmd, Blackland.log_action,
    workspace_path, workspace_clone_url, git_clone, needs_token, tokenized in *.
  py_unfold. unfold os_path_exists. py_simpl. rewrite Hm. py_simpl.
  rewrite He. py_simpl. rewrite Hc. py_simpl.
  repeat host_call;
    (eexists _, _; split; [rewrite <- ?app_assoc; reflexivity|]);
    (split; [reflexivity|]); (split; [reflexivity|]); unfold stamped;
    first [left; reflexivity | right; eexists; reflexivity].
Qed.

Ltac identity_replaced :=
  split; [reflexivity|];
  first [exists [["git"; "config"; "--global"; "user.name"]];
         split; [reflexivity|left; reflexivity]
        |exists [["git"; "config"; "--global"; "user.name"];
                 ["git"; "config"; "--global"; "user.email"]];
         split; [reflexivity|right; reflexivity]].

(** X7.  [ensure_git_identity] reads the global [user.name] and
    [user.email].  When both reads exit with 0 and give text, it does nothing
    more; otherwise, also when only one of the two is missing, it announces
    the change and writes both the name "Auto Commit Bot" and the e-mail
    address, right after the reads.  In [blackland-manager.py] it always
    returns; in [git-full-manager.py] it can end in the error of its
    [log_action], after both writes. *)
Theorem git_identity_is_kept_or_replaced_whole (st : state W) :
  (exists w ext,
     Blackland.ensure_git_identity st = (Return tt, mkState w (trace st ++ ext)) /\
     if identity_complete (world st)
     then ext = [Spawn read_name None 0; Spawn read_email None 0]
     else printed ext = ["⚙️ Setting default git identity..."] /\
          exists reads,
            spawned ext = reads ++ [set_name; set_email] /\
            (reads = [read_name] \/ reads = [read_name; read_email])) /\
  (exists r w ext,
     GitFullManager.ensure_git_identity st = (r, mkState w (trace st ++ ext)) /\
     if identity_complete (world st)
     then r = Return tt /\ ext = [Spawn read_name None 0; Spawn read_email None 0]
     else (r = Return tt \/ exists path, r = Raise (PyException "OSError" path)) /\
          printed ext = ["⚙️ Setting default git identity..."] /\
          exists reads,
            spawned ext = reads ++ [set_name; set_email] /\
            (reads = [read_name] \/ reads = [read_name; read_email])).
Proof.
  destruct st as [w t]. split.
  - apply wp_returned with (P := fun ext => _).
    unfold Blackland.ensure_git_identity. wp_simpl.
    repeat bl_step; returned; cbn [world];
      unfold identity_complete, read_name, read_email, set_name, set_email;
      repeat match goal with
             | H : subprocess_exec _ _ _ = _ |- _ => rewrite H
             | H : _ && _ = _ |- _ => rewrite H
             end;
      first [reflexivity | identity_replaced].
  - apply wp_ended with (P := fun r w ext => _).
    unfold GitFullManager.ensure_git_identity. wp_simpl.
    repeat gf_step; ended; cbn [world];
      unfold identity_complete, read_name, read_email, set_name, set_email;
      repeat match goal with
             | H : subprocess_exec _ _ _ = _ |- _ => rewrite H
             | H : _ && _ = _ |- _ => rewrite H
             end;
      first [split; reflexivity
            |split; [first [left; reflexivity | right; eexists; reflexivity]|];
             identity_replaced].
Qed.
End WorkspaceFacts.

(** ** The commands of a batch *)

Lemma spawned_app (a b : list event) : spawned (a ++ b) = spawned a ++ spawned b.
Proof. apply flat_map_app. Qed.

Lemma upkeep_runs_nothing_else (words : list string) (cmds : list (list string)) :
  forallb (fun s => negb (PyStr.mem s words)) upkeep = true ->
  forallb (runs upkeep) cmds = true ->
  existsb (runs words) cmds = false.
Proof.
  intros Hw. induction cmds as [|argv cmds IH]; [reflexivity|].
  cbn [forallb existsb]. intros H. apply andb_true_iff in H as [Ha Hc].
  rewrite (IH Hc), orb_false_r. clear IH Hc.
  unfold runs in *. destruct (subcommand argv) as [s|]; [|reflexivity].
  unfold upkeep, PyStr.mem in Ha, Hw. cbn [existsb forallb] in Ha, Hw.
  repeat match goal with
         | H : _ || _ = true |- _ => apply orb_true_iff in H as [H|H]
         | H : _ && _ = true |- _ => apply andb_true_iff in H as [? H]
         | H : String.eqb s _ = true |- _ => apply String.eqb_eq in H; subst s
         | H : negb ?b = true |- ?b = false => now apply negb_true_iff
         end; try discriminate.
Qed.

Lemma upkeep_runs_no_plain_pull (cmds : list (list string)) :
  forallb (runs upkeep) cmds = true -> existsb is_plain_pull cmds = false.
Proof.
  intros H. apply (upkeep_runs_nothing_else ["pull"]) in H; [|reflexivity].
  induction cmds as [|argv cmds IH]; [reflexivity|].
  cbn [existsb] in *. apply orb_false_iff in H as [Ha Hc].
  rewrite (IH Hc), orb_false_r. clear IH Hc.
  destruct argv as [|g [|c [|p [|s [|x argv]]]]]; try reflexivity.
  unfold is_plain_pull. destruct (argv_eqb _ _) eqn:E; [|reflexivity].
  apply argv_eqb_eq in E. injection E as -> -> ->. discriminate Ha.
Qed.

Section Upkeep.
Context {W : Type} {host : Host W}.

Lemma ensure_remote_tokenized_upkeep (TOKEN p : string) (st : state W) :
  exists w ext,
    Blackland.ensure_remote_tokenized TOKEN p st =
      (Return tt, mkState w (trace st ++ ext)) /\
    forallb (runs upkeep) (spawned ext) = true.
Proof.
  destruct st as [w t]. apply wp_returned with (P := fun ext => _).
  unfold Blackland.ensure_remote_tokenized. wp_simpl.
  repeat bl_step; (returned; reflexivity).
Qed.

Lemma ensure_branch_alignment_local_upkeep (login p : string)
    (repo_name : option string) (st : state W) :
  exists w ext,
    Blackland.ensure_branch_alignment_local login p repo_name st =
      (Return tt, mkState w (trace st ++ ext)) /\
    forallb (runs upkeep) (spawned ext) = true.
Proof.
  destruct st as [w t]. apply wp_returned with (P := fun ext => _).
  unfold Blackland.ensure_branch_alignment_local. wp_simpl.
  repeat bl_step; (returned; reflexivity).
Qed.

Lemma fix_remote_with_token_upkeep (TOKEN p : string) (st : state W) :
  exists w ext,
    GitFullManager.fix_remote_with_token TOKEN p st =
      (Return tt, mkState w (trace st ++ ext)) /\
    forallb (runs upkeep) (spawned ext) = true.
Proof.
  destruct st as [w t]. apply wp_returned with (P := fun ext => _).
  unfold GitFullManager.fix_remote_with_token. wp_simpl.
  repeat gf_step; (returned; reflexivity).
Qed.

Lemma ensure_branch_alignment_upkeep (login p repo_name : string) (st : state W) :
  exists w ext,
    GitFullManager.ensure_branch_alignment login p repo_name st =
      (Return tt, mkState w (trace st ++ ext)) /\
    forallb (runs upkeep) (spawned ext) = true.
Proof.
  destruct st as [w t]. apply wp_returned with (P := fun ext => _).
  unfold GitFullManager.ensure_branch_alignment. wp_simpl.
  repeat gf_step; (returned; reflexivity).
Qed.

End Upkeep.

Ltac upkeep_call lemma :=
  apply wp_returns with
    (P := fun _ e => forallb (runs upkeep) (spawned e) = true);
  [let st0 := fresh "st" in
   intros st0; destruct (lemma st0) as (? & ? & ? & ?);
   eexists tt, _, _; split; eassumption
  |intros [] ? ? ?]; wp_simpl.

Ltac upkeep_step :=
  lazymatch goal with
  | |- wp (Blackland.ensure_remote_tokenized ?tok ?p) _ _ =>
      upkeep_call (ensure_remote_tokenized_upkeep tok p)
  | |- wp (Blackland.ensure_branch_alignment_local ?l ?p ?n) _ _ =>
      upkeep_call (ensure_branch_alignment_local_upkeep l p n)
  | |- wp (GitFullManager.fix_remote_with_token ?tok ?p) _ _ =>
      upkeep_call (fix_remote_with_token_upkeep tok p)
  | |- wp (GitFullManager.ensure_branch_alignment ?l ?p ?n) _ _ =>
      upkeep_call (ensure_branch_alignment_upkeep l p n)
  | |- wp (Blackland.safe_push _ _) _ _ => unfold Blackland.safe_push; wp_simpl
  | |- wp (GitFullManager.log_action _) _ _ =>
      unfold GitFullManager.log_action; wp_simpl
  | |- wp (GitFullManager.run_shell _ _ _) _ _ =>
      unfold GitFullManager.run_shell; wp_simpl
  | _ => bl_step
  end.

(** The commands of a turn, the upkeep of its first two calls taken as
    known. *)
Ltac turn_commands words :=
  repeat match goal with
         | |- context [spawned (?e :: ?t)] =>
             lazymatch t with
             | [] => fail
             | _ => change (spawned (e :: t)) with (spawned [e] ++ spawned t)
             end
         end;
  rewrite ?spawned_app, ?existsb_app;
  repeat match goal with
         | H : forallb (runs upkeep) (spawned ?e) = true |- _ =>
             try rewrite (upkeep_runs_nothing_else words _ eq_refl H);
             try rewrite (upkeep_runs_no_plain_pull _ H); clear H
         end;
  reflexivity.

Section BatchCommands.
Context {W : Type} {host : Host W}.

Lemma for_each_spawns_none {A} (body : A -> M W unit)
    (f : list string -> bool) :
  (forall x st, exists w ext,
      body x st = (Return tt, mkState w (trace st ++ ext)) /\
      existsb f (spawned ext) = false) ->
  forall xs st, exists w ext,
    for_each xs body st = (Return tt, mkState w (trace st ++ ext)) /\
    existsb f (spawned ext) = false.
Proof.
  intros Hbody xs st.
  destruct (for_each_returns body (fun _ e => existsb f (spawned e) = false)
              Hbody xs st) as (w & exts & E & HF).
  exists w, (concat exts). split; [exact E|].
  clear E. induction HF as [|x e xs exts He _ IH]; [reflexivity|].
  cbn [concat]. now rewrite spawned_app, existsb_app, He, IH.
Qed.

Lemma pull_turn_of_blackland (TOKEN login commit_msg d : string) (st : state W) :
  exists w ext,
    Blackland.batch_workspace_step TOKEN login "1" commit_msg d st =
      (Return tt, mkState w (trace st ++ ext)) /\
    existsb (runs ["add"; "commit"; "push"]) (spawned ext) = false.
Proof.
  destruct st as [w t]. apply wp_returned with (P := fun ext => _).
  unfold Blackland.batch_workspace_step.
  change (PyStr.mem "1" ["1"; "3"]) with true.
  change (PyStr.mem "1" ["2"; "3"]) with false. wp_simpl.
  repeat upkeep_step; returned; turn_commands ["add"; "commit"; "push"].
Qed.

Lemma pull_turn_of_gitfull (TOKEN login r : string) (st : state W) :
  exists w ext,
    GitFullManager.batch_git_step TOKEN login "1" r st =
      (Return tt, mkState w (trace st ++ ext)) /\
    existsb (runs ["add"; "commit"; "push"]) (spawned ext) = false.
Proof.
  destruct st as [w t]. apply wp_returned with (P := fun ext => _).
  unfold GitFullManager.batch_git_step.
  change (PyStr.mem "1" ["1"; "3"]) with true.
  change (PyStr.mem "1" ["2"; "3"]) with false. wp_simpl.
  repeat upkeep_step; returned; turn_commands ["add"; "commit"; "push"].
Qed.

(** X8.  Under the choice "1" (pull all) the loops of
    [batch_workspace_manager] and of [batch_git_manager] run no [add], no
    [commit] and no [push], over any list of directories and whatever the
    commands answer. *)
Theorem pull_all_never_commits_or_pushes (TOKEN login commit_msg : string)
    (dirs : list string) (st : state W) :
  (exists w ext,
     Blackland.batch_workspace_manager TOKEN login dirs "1" commit_msg st =
       (Return tt, mkState w (trace st ++ ext)) /\
     existsb (runs ["add"; "commit"; "push"]) (spawned ext) = false) /\
  (exists w ext,
     GitFullManager.batch_git_manager TOKEN login dirs "1" st =
       (Return tt, mkState w (trace st ++ ext)) /\
     existsb (runs ["add"; "commit"; "push"]) (spawned ext) = false).
Proof.
  split.
  - destruct (for_each_spawns_none _ _
                (pull_turn_of_blackland TOKEN login commit_msg) dirs st)
      as (w & ext & E & H).
    eexists w, _. unfold Blackland.batch_workspace_manager.
    rewrite (bind_return _ _ _ _ _ E), console_print_runs. cbn [world trace].
    rewrite <- app_assoc. split; [reflexivity|].
    now rewrite spawned_app, existsb_app, H.
  - apply (for_each_spawns_none _ _ (pull_turn_of_gitfull TOKEN login)).
Qed.

Lemma push_turn_of_blackland (TOKEN login commit_msg d : string) (st : state W) :
  exists w ext,
    Blackland.batch_workspace_step TOKEN login "2" commit_msg d st =
      (Return tt, mkState w (trace st ++ ext)) /\
    existsb is_plain_pull (spawned ext) = false.
Proof.
  destruct st as [w t]. apply wp_returned with (P := fun ext => _).
  unfold Blackland.batch_workspace_step.
  change (PyStr.mem "2" ["1"; "3"]) with false.
  change (PyStr.mem "2" ["2"; "3"]) with true. wp_simpl.
  repeat upkeep_step; returned; turn_commands ["pull"].
Qed.

Lemma push_turn_of_gitfull (TOKEN login r : string) (st : state W) :
  exists w ext,
    GitFullManager.batch_git_step TOKEN login "2" r st =
      (Return tt, mkState w (trace st ++ ext)) /\
    existsb (runs ["pull"]) (spawned ext) = false.
Proof.
  destruct st as [w t]. apply wp_returned with (P := fun ext => _).
  unfold GitFullManager.batch_git_step.
  change (PyStr.mem "2" ["1"; "3"]) with false.
  change (PyStr.mem "2" ["2"; "3"]) with true. wp_simpl.
  repeat upkeep_step; returned; turn_commands ["pull"].
Qed.

(** X9.  Under the choice "2" (push all) the loop of [batch_git_manager]
    runs no [pull] at all, and the loop of [batch_workspace_manager] runs no
    plain [git -C <path> pull]: the one pull it can run is the
    [pull --rebase] of the recovery in [safe_push]. *)
Theorem push_all_never_pulls_first (TOKEN login commit_msg : string)
    (dirs : list string) (st : state W) :
  (exists w ext,
     Blackland.batch_workspace_manager TOKEN login dirs "2" commit_msg st =
       (Return tt, mkState w (trace st ++ ext)) /\
     existsb is_plain_pull (spawned ext) = false) /\
  (exists w ext,
     GitFullManager.batch_git_manager TOKEN login dirs "2" st =
       (Return tt, mkState w (trace st ++ ext)) /\
     existsb (runs ["pull"]) (spawned ext) = false).
Proof.
  split.
  - destruct (for_each_spawns_none _ _
                (push_turn_of_blackland TOKEN login commit_msg) dirs st)
      as (w & ext & E & H).
    eexists w, _. unfold Blackland.batch_workspace_manager.
    rewrite (bind_return _ _ _ _ _ E), console_print_runs. cbn [world trace].
    rewrite <- app_assoc. split; [reflexivity|].
    now rewrite spawned_app, existsb_app, H.
  - apply (for_each_spawns_none _ _ (push_turn_of_gitfull TOKEN login)).
Qed.


(** The end of a turn in which a push needs a commit that went through. *)
Ltac push_needs_commit :=
  let Hpush := fresh "Hpush" in
  intros Hpush;
  repeat match goal with
         | H : context [?e :: ?t] |- _ =>
             lazymatch t with
             | [] => fail
             | _ => change (e :: t) with ([e] ++ t) in H
             end
         | |- context [?e :: ?t] =>
             lazymatch t with
             | [] => fail
             | _ => change (e :: t) with ([e] ++ t)
             end
         end;
  rewrite ?spawned_app, ?existsb_app in Hpush;
  repeat match goal with
         | H : forallb (runs upkeep) (spawned ?e) = true |- _ =>
             try rewrite (upkeep_runs_nothing_else ["push"] _ eq_refl H) in Hpush;
             clear H
         end;
  first [discriminate Hpush
        |rewrite ?existsb_app; cbn; rewrite ?orb_true_r; reflexivity].

Lemma blackland_turn_pushes_after_commit (TOKEN login choice commit_msg d : string)
    (st : state W) :
  exists w ext,
    Blackland.batch_workspace_step TOKEN login choice commit_msg d st =
      (Return tt, mkState w (trace st ++ ext)) /\
    (existsb (runs ["push"]) (spawned ext) = true ->
     existsb commit_succeeded ext = true).
Proof.
  destruct st as [w t]. apply wp_returned with (P := fun ext => _).
  unfold Blackland.batch_workspace_step. wp_simpl.
  repeat upkeep_step; returned; push_needs_commit.
Qed.

Lemma gitfull_turn_pushes_after_commit (TOKEN login ch r : string)
    (st : state W) :
  exists w ext,
    GitFullManager.batch_git_step TOKEN login ch r st =
      (Return tt, mkState w (trace st ++ ext)) /\
    (existsb (runs ["push"]) (spawned ext) = true ->
     existsb commit_succeeded ext = true).
Proof.
  destruct st as [w t]. apply wp_returned with (P := fun ext => _).
  unfold GitFullManager.batch_git_step. wp_simpl.
  repeat upkeep_step; returned; push_needs_commit.
Qed.

(** X10.  For every choice, in the turn of each directory of a batch a
    [push] is run only if the [commit] of that turn has exited with 0: a
    working copy with nothing to commit, or whose commit fails, is not
    pushed. *)
Theorem batch_pushes_only_what_it_committed (TOKEN login choice commit_msg : string)
    (dirs : list string) (st : state W) :
  (exists w turns,
     Blackland.batch_workspace_manager TOKEN login dirs choice commit_msg st =
       (Return tt,
        mkState w (trace st ++ concat turns ++
                   [Print (PyStr.nl ++ "✨ Batch operations completed."
                           ++ PyStr.nl)%string])) /\
     Forall2 (fun _ turn =>
                existsb (runs ["push"]) (spawned turn) = true ->
                existsb commit_succeeded turn = true) dirs turns) /\
  (exists w turns,
     GitFullManager.batch_git_manager TOKEN login dirs choice st =
       (Return tt, mkState w (trace st ++ concat turns)) /\
     Forall2 (fun _ turn =>
                existsb (runs ["push"]) (spawned turn) = true ->
                existsb commit_succeeded turn = true) dirs turns).
Proof.
  split.
  - destruct (for_each_returns
                (Blackland.batch_workspace_step TOKEN login choice commit_msg) _
                (fun d s => blackland_turn_pushes_after_commit TOKEN login choice
                              commit_msg d s) dirs st)
      as (w & turns & E & HF).
    exists w, turns. split; [|exact HF].
    unfold Blackland.batch_workspace_manager.
    rewrite (bind_return _ _ _ _ _ E), console_print_runs. cbn [world trace].
    now rewrite <- app_assoc.
  - apply (for_each_returns (GitFullManager.batch_git_step TOKEN login choice) _
             (fun r s => gitfull_turn_pushes_after_commit TOKEN login choice r s)).
Qed.

End BatchCommands.

(** ** The turns of the batch loops *)


Section CareFacts.
Context {W : Type} {host : Host W}.





End CareFacts.







Section TurnFacts.
Context {W : Type} {host : Host W}.




End TurnFacts.

(** ** A working copy that is aligned *)

Section AlignedFacts.
Context {W : Type} {host : Host W} {git : Git host}.

Ltac law_of H :=
  lazymatch type of H with
  | subprocess_exec ["git"; "-C"; ?p; "rev-parse"; "--abbrev-ref"; "HEAD"]
                    None _ = _ =>
      pose proof (rev_parse_reads p _ _ _ _ H);
      pose proof (branch_kept (git_rev_parse p) _ _ _ eq_refl H)
  | subprocess_exec ["git"; "-C"; ?p; "checkout"; ?b] None _ = _ => idtac
  | subprocess_exec ?argv None _ = _ =>
      pose proof (branch_kept argv _ _ _ eq_refl H)
  | requests_get _ _ = _ => pose proof (request_keeps _ _ _ _ H)
  | fs_makedirs _ _ = _ => pose proof (makedirs_keeps _ _ _ _ H)
  | fs_append _ _ _ = _ => pose proof (append_keeps _ _ _ _ _ H)
  end; clear H.

Ltac git_laws :=
  repeat match goal with
         | H : subprocess_exec _ _ _ = _ |- _ => law_of H
         | H : requests_get _ _ = _ |- _ => law_of H
         | H : fs_makedirs _ _ = _ |- _ => law_of H
         | H : fs_append _ _ _ = _ |- _ => law_of H
         | H : _ /\ _ |- _ => destruct H
         | H : 0 = 0 -> _ |- _ => specialize (H eq_refl)
         end;
  cbn [Nat.eqb] in *.

Ltac branch_rewrite :=
  repeat match goal with
         | H : PyStr.strip ?out = branch_of _ _ |- _ => rewrite H in *; clear H
         end;
  repeat match goal with
         | H : branch_of ?a = branch_of _ |- context [branch_of ?a] => rewrite H
         | H : branch_of ?a ?p = _ |- context [branch_of ?a ?p] => rewrite H
         end.

Lemma alignment_prefix_switches_nothing (login p : string)
    (repo_name : option string) (st : state W) :
  exists d w1 e1,
    (subprocess_run (git_fetch_all p) None false ;;
     Blackland.remote_default_branch login p repo_name)%py st =
      (Return d, mkState w1 (trace st ++ e1)) /\
    (branch_of w1 = branch_of (world st) /\
     printed e1 = [] /\ logged e1 = [] /\
     existsb (runs ["checkout"; "branch"]) (spawned e1) = false /\
     ~ In (Spawn (git_rev_parse p) None 0) e1).
Proof.
  destruct st as [w t].
  apply wp_returned_all with (P := fun d w1 e1 => _).
  unfold git_fetch_all. wp_simpl.
  repeat bl_step;
    (eexists _, _, _; split; [reflexivity|]; cbn [world]; git_laws;
     repeat split; try reflexivity; try congruence;
     cbn [In]; unfold git_rev_parse; intuition congruence).
Qed.

(** X11.  On a host whose git keeps the contract of [Git],
    [ensure_branch_alignment_local] leaves alone a working copy that is on
    the default branch the pass determines, and one whose branch cannot be
    read: it prints and logs nothing, runs neither [checkout] nor [branch],
    and the checked-out branch is what it was. *)
Theorem alignment_leaves_an_aligned_copy_alone (login p : string)
    (repo_name : option string) (st : state W) :
  exists d st1 w ext,
    (subprocess_run (git_fetch_all p) None false ;;
     Blackland.remote_default_branch login p repo_name)%py st =
      (Return d, st1) /\
    Blackland.ensure_branch_alignment_local login p repo_name st =
      (Return tt, mkState w (trace st ++ ext)) /\
    (branch_of (world st) p = d \/ ~ In (Spawn (git_rev_parse p) None 0) ext ->
     printed ext = [] /\ logged ext = [] /\
     existsb (runs ["checkout"; "branch"]) (spawned ext) = false /\
     branch_of w p = branch_of (world st) p).
Proof.
  destruct (alignment_prefix_switches_nothing login p repo_name st)
    as (d & w1 & e1 & E1 & Hb & Hp & Hl & Hc & Hn).
  exists d, (mkState w1 (trace st ++ e1)). destruct st as [w t].
  cbn [world trace] in *.
  cut (exists w' ext,
         Blackland.ensure_branch_alignment_local login p repo_name (mkState w t)
           = (Return tt, mkState w' (t ++ ext)) /\
         (branch_of w p = d \/ ~ In (Spawn (git_rev_parse p) None 0) ext ->
          printed ext = [] /\ logged ext = [] /\
          existsb (runs ["checkout"; "branch"]) (spawned ext) = false /\
          branch_of w' p = branch_of w p)).
  { intros (w' & ext & E & H). exists w', ext. auto. }
  unfold Blackland.ensure_branch_alignment_local.
  rewrite (try_except_bind2 _ _ _ _ _ _ _ _ E1).
  apply wp_returned_from with (P := fun w' ext => _). wp_simpl.
  repeat bl_step; returned; cbn [world]; git_laws;
    rewrite <- ?app_assoc; cbn [app]; intros Hwhy.
  all: first
    [ rewrite printed_app, logged_app, spawned_app, existsb_app, Hp, Hl, Hc;
      repeat split; try reflexivity; branch_rewrite; reflexivity
    | exfalso;
      match goal with
      | H : negb (String.eqb ?a ?a) = true |- _ =>
          rewrite String.eqb_refl in H; discriminate H
      end
    | exfalso; destruct Hwhy as [Heq|Hno];
      [match goal with
       | H : negb (String.eqb _ _) = true |- _ =>
           apply negb_true_iff, String.eqb_neq in H; apply H;
           branch_rewrite; rewrite ?Hb; congruence
       end
      |apply Hno, in_or_app; right; left; reflexivity] ].
Qed.

(** X12.  On a host whose git keeps the contract of [Git],
    [ensure_branch_alignment] of [git-full-manager.py] leaves alone a working
    copy that is on the branch the API names (or "main", when the API gives
    none), and one whose branch cannot be read: nothing is printed or logged,
    no [checkout] and no [branch] is run, and the checked-out branch is what
    it was. *)
Theorem gitfull_alignment_leaves_an_aligned_copy_alone
    (login p repo_name : string) (st : state W) :
  exists w ext,
    GitFullManager.ensure_branch_alignment login p repo_name st =
      (Return tt, mkState w (trace st ++ ext)) /\
    (branch_of (world st) p =
       branch_in (fst (requests_get (api_url login repo_name) (world st))) \/
     ~ In (Spawn (git_rev_parse p) None 0) ext ->
     printed ext = [] /\ logged ext = [] /\
     existsb (runs ["checkout"; "branch"]) (spawned ext) = false /\
     branch_of w p = branch_of (world st) p).
Proof.
  destruct st as [w t]. apply wp_returned_in with (P := fun w' ext => _).
  unfold GitFullManager.ensure_branch_alignment. wp_simpl.
  repeat gf_step; returned; cbn [world fst] in *;
    match goal with
    | H : requests_get _ _ = (?r, _) |- _ => rewrite H; cbn [fst]
    end;
    git_laws; intros Hwhy.
  all: first
    [ repeat split; try reflexivity; branch_rewrite; reflexivity
    | exfalso; destruct Hwhy as [Heq|Hno];
      [match goal with
       | H : negb (String.eqb _ _) = true |- _ =>
           apply negb_true_iff, String.eqb_neq in H; apply H;
           branch_rewrite; congruence
       end
      |apply Hno; cbn [In]; unfold git_rev_parse;
       repeat (first [left; reflexivity | right])] ].
Qed.
End AlignedFacts.

(** ** The upload *)

Section LibraryRules.
Context {W : Type} {host : Host W}.

Lemma wp_lib (op : libop) (Q : outcome libres -> state W -> Prop)
    (w : W) (t ext : list event) :
  (forall msg w',
      library op w = (LibRaises msg, w') ->
      Q (Raise (PyException "Exception" msg))
        (mkState w' (t ++ (ext ++ [Lib op (LibRaises msg)])))) ->
  (forall r w',
      library op w = (r, w') -> raises r = false ->
      Q (Return r) (mkState w' (t ++ (ext ++ [Lib op r])))) ->
  wp (lib op) Q (mkState w (t ++ ext)).
Proof.
  unfold wp, lib. intros Hraise Hret. cbn [world trace].
  destruct (library op w) as [r w'] eqn:E. rewrite <- app_assoc.
  destruct r; [now apply Hraise|now apply Hret..].
Qed.

Lemma wp_lib_ignore_errors (op : libop) (Q : outcome unit -> state W -> Prop)
    (w : W) (t ext : list event) :
  (forall r w',
      library op w = (r, w') ->
      Q (Return tt) (mkState w' (t ++ (ext ++ [Lib op r])))) ->
  wp (lib_ignore_errors op) Q (mkState w (t ++ ext)).
Proof.
  unfold wp, lib_ignore_errors. intros H. cbn [world trace].
  destruct (library op w) as [r w'] eqn:E. rewrite <- app_assoc. now apply H.
Qed.

Lemma wp_lib_text (op : libop) (Q : outcome string -> state W -> Prop)
    (w : W) (t ext : list event) :
  (forall msg w',
      library op w = (LibRaises msg, w') ->
      Q (Raise (PyException "Exception" msg))
        (mkState w' (t ++ (ext ++ [Lib op (LibRaises msg)])))) ->
  (forall r w',
      library op w = (r, w') -> raises r = false ->
      Q (Return (text_of r)) (mkState w' (t ++ (ext ++ [Lib op r])))) ->
  wp (lib_text op) Q (mkState w (t ++ ext)).
Proof.
  intros Hraise Hret. unfold lib_text. apply wp_bind, wp_lib.
  - exact Hraise.
  - intros r w' E Hr. specialize (Hret r w' E Hr). now destruct r.
Qed.

Lemma wp_lib_flag (op : libop) (Q : outcome bool -> state W -> Prop)
    (w : W) (t ext : list event) :
  (forall msg w',
      library op w = (LibRaises msg, w') ->
      Q (Raise (PyException "Exception" msg))
        (mkState w' (t ++ (ext ++ [Lib op (LibRaises msg)])))) ->
  (forall r w',
      library op w = (r, w') -> raises r = false ->
      Q (Return (flag_of r)) (mkState w' (t ++ (ext ++ [Lib op r])))) ->
  wp (lib_flag op) Q (mkState w (t ++ ext)).
Proof.
  intros Hraise Hret. unfold lib_flag. apply wp_bind, wp_lib.
  - exact Hraise.
  - intros r w' E Hr. specialize (Hret r w' E Hr). now destruct r.
Qed.

End LibraryRules.

Ltac lib_step :=
  lazymatch goal with
  | |- wp (lib_ _) _ _ => unfold lib_
  | |- wp (lib_flag _) _ _ =>
      apply wp_lib_flag; [intros ? ? ?|intros ? ? ? ?]; wp_simpl
  | |- wp (lib_text _) _ _ =>
      apply wp_lib_text; [intros ? ? ?|intros ? ? ? ?]; wp_simpl
  | |- wp (lib _) _ _ => apply wp_lib; [intros ? ? ?|intros ? ? ? ?]; wp_simpl
  | |- wp (lib_ignore_errors _) _ _ =>
      apply wp_lib_ignore_errors; intros ? ? ?; wp_simpl
  | _ => bl_step
  end.

Section UploadFacts.
Context {W : Type} {host : Host W}.


(** X14.  When [upload_file_to_github] returns, it has printed a line in red
    exactly when the result is [False], and it has logged at most one line.
    When the result is [True], the last line on the console is "✅ Uploaded
    to <full name>@<branch>" and the log line, if it could be written, is
    "Uploaded <path> -> <full name>@<branch>". *)
Theorem upload_result_matches_its_report (TOKEN : string)
    (repo : Blackland.Repository) (file_path branch_name commit_message : string)
    (st : state W) :
  exists r w ext,
    Blackland.upload_file_to_github TOKEN repo file_path branch_name
      commit_message st = (r, mkState w (trace st ++ ext)) /\
    forall b, r = Return b ->
      reported ext = negb b /\
      List.length (logged ext) <= 1 /\
      (b = true ->
       List.last (printed ext) "" =
         ("[green]✅ Uploaded to " ++ Blackland.full_name repo ++ "@"
          ++ branch_name ++ "[/green]")%string /\
       (logged ext = [] \/
        exists ts,
          logged ext =
            [stamped ts ("Uploaded " ++ file_path ++ " -> "
                         ++ Blackland.full_name repo ++ "@" ++ branch_name)%string])).
Proof.
  destruct st as [w t]. apply wp_ended with (P := fun r w ext => _).
  unfold Blackland.upload_file_to_github. wp_simpl.
  repeat lib_step.
  all: ended; intros b Hb; first [discriminate Hb | injection Hb as <-].
  all: try match goal with good : bool |- _ => destruct good end.
  all: split; [reflexivity|]; split; [cbn; lia|].
  all: intros Ht; first [discriminate Ht | split; [reflexivity|]].
  all: unfold stamped; first [left; reflexivity | right; eexists; reflexivity].
Qed.

(** X15.  [upload_file_to_github] pushes only after a commit of its own has
    gone through.  When the clone is clean ([is_dirty] gives [False]) it
    makes no commit and no push, prints "No changes to commit." and still
    returns [True]. *)
Theorem upload_pushes_only_a_commit (TOKEN : string)
    (repo : Blackland.Repository) (file_path branch_name commit_message : string)
    (st : state W) :
  exists r w ext,
    Blackland.upload_file_to_github TOKEN repo file_path branch_name
      commit_message st = (r, mkState w (trace st ++ ext)) /\
    (existsb is_push_call (lib_calls ext) = true ->
     existsb commit_made ext = true) /\
    (forall dir res,
       In (Lib (IsDirty dir) res) ext ->
       raises res = false -> flag_of res = false ->
       r = Return true /\
       existsb is_commit_call (lib_calls ext) = false /\
       existsb is_push_call (lib_calls ext) = false /\
       In "[yellow]No changes to commit.[/yellow]" (printed ext)).
Proof.
  destruct st as [w t]. apply wp_ended with (P := fun r w ext => _).
  unfold Blackland.upload_file_to_github. wp_simpl.
  repeat lib_step.
  all: ended; split.
  all: try (intros Hpush; try discriminate Hpush; cbn [existsb commit_made];
            repeat match goal with
                   | H : raises ?r = false |- context [raises ?r] => rewrite H
                   end;
            cbn [negb orb]; rewrite ?orb_true_r; reflexivity).
  all: intros dir res Hin Hr Hf; cbn [In] in Hin;
    repeat match goal with
           | H : _ \/ _ |- _ => destruct H as [H|H]
           | H : False |- _ => contradiction H
           | H : Lib _ _ = Lib _ _ |- _ =>
               first [discriminate H | injection H as ? ?; subst]
           | H : Print _ = Lib _ _ |- _ => discriminate H
           | H : Http _ = Lib _ _ |- _ => discriminate H
           | H : Append _ _ _ = Lib _ _ |- _ => discriminate H
           end;
    try (cbn [raises flag_of] in *; congruence).
  all: repeat split; try reflexivity; cbn; auto 10.
Qed.

End UploadFacts.

(** ** Parts of a script and their commands *)

Section PartFacts.
Context {W : Type} {host : Host W}.

Lemma spawns_none_bind {A B} (f : list string -> bool) (m : M W A)
    (k : A -> M W B) :
  spawns_none f m -> (forall a, spawns_none f (k a)) ->
  spawns_none f (bind m k).
Proof.
  intros Hm Hk st. destruct (Hm st) as (r & w & ext & E & H).
  unfold bind. rewrite E. destruct r as [a|e].
  - destruct (Hk a (mkState w (trace st ++ ext))) as (r' & w' & ext' & E' & H').
    exists r', w', (ext ++ ext'). cbn [trace] in E'. rewrite E', app_assoc.
    split; [reflexivity|]. now rewrite spawned_app, existsb_app, H, H'.
  - now exists (Raise e), w, ext.
Qed.

Lemma spawns_none_steps {A} (f : list string -> bool) (m : M W A) :
  (forall w t,
      wp m (fun r st' =>
              exists r' w' ext,
                (r, st') = (r', mkState w' (t ++ ext)) /\
                existsb f (spawned ext) = false)
         (mkState w (t ++ []))) ->
  spawns_none f m.
Proof.
  intros H [w t]. now apply wp_ended with (P := fun _ _ ext => _).
Qed.

Lemma spawns_none_for_each {A} (f : list string -> bool) (body : A -> M W unit)
    (xs : list A) :
  (forall x, spawns_none f (body x)) -> spawns_none f (for_each xs body).
Proof.
  intros Hbody. induction xs as [|x xs IH].
  - intros [w t]. exists (Return tt), w, []. cbn. now rewrite app_nil_r.
  - cbn [for_each]. apply spawns_none_bind; [apply Hbody|intros _; exact IH].
Qed.

(** Such a part as a step of a run. *)
Lemma wp_spawns_none {A} (f : list string -> bool) (m : M W A)
    (Q : outcome A -> state W -> Prop) (w : W) (t ext : list event) :
  spawns_none f m ->
  (forall r w' e,
      existsb f (spawned e) = false -> Q r (mkState w' (t ++ (ext ++ e)))) ->
  wp m Q (mkState w (t ++ ext)).
Proof.
  intros Hm H. destruct (Hm (mkState w (t ++ ext))) as (r & w' & e & E & He).
  eapply wp_known; [exact E|]. cbn [trace]. rewrite <- app_assoc. now apply H.
Qed.

End PartFacts.

(** ** [git_pull.py] as a whole *)

Section SystemRules.
Context {W : Type} {host : Host W} {process : System.Process W}.

Lemma wp_os_chdir (path : string) (Q : outcome unit -> state W -> Prop)
    (st : state W) :
  (forall entered w,
      System.process_chdir path (world st) = (entered, w) ->
      Q (if entered then Return tt
         else Raise (PyException "FileNotFoundError" path))
        (mkState w (trace st))) ->
  wp (System.os_chdir path) Q st.
Proof.
  unfold wp, System.os_chdir. intros H.
  destruct (System.process_chdir path (world st)) as [entered w] eqn:E.
  specialize (H entered w eq_refl). destruct entered; exact H.
Qed.

End SystemRules.

Ltac gp_step :=
  lazymatch goal with
  | |- wp (GitPull.log_action _) _ _ => unfold GitPull.log_action; wp_simpl
  | |- wp (GitPull.run _ _) _ _ => unfold GitPull.run; wp_simpl
  | |- wp (GitPull.require_token _) _ _ => unfold GitPull.require_token; wp_simpl
  | |- wp (GitPull.configure_git_identity) _ _ =>
      unfold GitPull.configure_git_identity; wp_simpl
  | |- wp (GitPull.fix_remote_url _) _ _ =>
      unfold GitPull.fix_remote_url; wp_simpl
  | |- wp (GitPull.perform_git_pull) _ _ =>
      unfold GitPull.perform_git_pull; wp_simpl
  | |- wp (GitPull.ensure_repo_exists _) _ _ =>
      unfold GitPull.ensure_repo_exists; wp_simpl
  | |- wp (System.os_chdir _) _ _ => apply wp_os_chdir; intros [|] ? ?; wp_simpl
  | _ => wp_step
  end.

Section GitPullFacts.
Context {W : Type} {host : Host W}.

(** X16.  In [git_pull.py], once the working copy is there, neither a failure
    to set the identity nor a failure to rewrite the remote stops the script:
    [git pull] is run exactly once and is the last command, and the script
    ends normally or in the error of its [log_action]. *)
Theorem git_pull_always_attempts_the_pull (token : string) (st : state W) :
  exists r w ext,
    (GitPull.configure_git_identity ;; GitPull.fix_remote_url token ;;
     GitPull.perform_git_pull)%py st = (r, mkState w (trace st ++ ext)) /\
    List.last (spawned ext) [] = git_pull_cmd /\
    count (argv_eqb git_pull_cmd) (spawned ext) = 1 /\
    (r = Return tt \/ exists path, r = Raise (PyException "OSError" path)).
Proof.
  destruct st as [w t]. apply wp_ended with (P := fun r w ext => _).
  repeat gp_step; ended; (split; [reflexivity|]); (split; [reflexivity|]);
    first [left; reflexivity | right; eexists; reflexivity].
Qed.

(** X17.  Whatever the token and the answers of git, the part of
    [git_pull.py] after the clone prints only its fixed lines and the failure
    of the pull, and logs only "Pulled latest changes from GitHub" or that
    failure: the rewritten URL of the remote, which holds the token, is
    neither printed nor logged. *)
Theorem git_pull_sync_records_hold_no_token (token : string) (st : state W) :
  exists r w ext,
    (GitPull.configure_git_identity ;; GitPull.fix_remote_url token ;;
     GitPull.perform_git_pull)%py st = (r, mkState w (trace st ++ ext)) /\
    Forall sync_print (printed ext) /\ Forall sync_record (logged ext).
Proof.
  destruct st as [w t]. apply wp_ended with (P := fun r w ext => _).
  repeat gp_step; ended; split.
  all: cbn [printed logged flat_map app].
  all: repeat (apply Forall_cons; [|]); try apply Forall_nil.
  all: unfold sync_print, sync_record, sync_warnings, pull_failure, git_pull_cmd, stamped.
  all: try (left; cbn [In]; repeat (first [left; reflexivity | right]); fail).
  all: try (right; eexists; reflexivity).
  all: try (eexists; left; reflexivity).
  all: try (eexists; right; eexists; reflexivity).
Qed.


(** X18.  The block "Ensure repo exists" of [git_pull.py] does nothing when
    the working copy is there.  When it is missing, the script exits with 0
    without running a command if the user answers anything but "1" or gives
    an empty URL, exits with 1 if the clone fails, and goes on if the clone
    succeeds, that [git clone] being the one command run; the only other way
    out is the error of a directory or a log that cannot be written. *)
Theorem git_pull_exit_status (token : string) (st : state W) :
  exists r w ext,
    GitPull.ensure_repo_exists token st = (r, mkState w (trace st ++ ext)) /\
    if fs_isdir GitPull.REPO_PATH (world st)
    then r = Return tt /\ ext = []
    else
      (r = Raise (SystemExit 0) /\ spawned ext = [] /\ logged ext = [] /\
       ((exists a, answered ext = [a] /\ PyStr.strip a <> "1") \/
        (exists a u, answered ext = [a; u] /\ PyStr.strip u = ""))) \/
      (exists url rc,
         r = Raise (SystemExit 1) /\ logged ext = [] /\
         spawned ext = [git_clone url GitPull.REPO_PATH] /\
         In (Spawn (git_clone url GitPull.REPO_PATH) None (S rc)) ext) \/
      (exists url,
         r = Return tt /\
         spawned ext = [git_clone url GitPull.REPO_PATH] /\
         In (Spawn (git_clone url GitPull.REPO_PATH) None 0) ext) \/
      (exists path, r = Raise (PyException "OSError" path)).
Proof.
  destruct st as [w t]. apply wp_ended with (P := fun r w ext => _).
  repeat gp_step; ended.
  all: try (split; reflexivity).
  all: try (left; repeat split;
            first [left; eexists; split; [reflexivity|];
                   match goal with
                   | H : String.eqb _ _ = false |- _ =>
                       now apply String.eqb_neq in H
                   end
                  |right; eexists _, _; split; [reflexivity|];
                   match goal with
                   | H : negb (PyStr.truthy ?s) = true |- _ =>
                       now destruct s
                   end]; fail).
  all: try (right; left; eexists _, _; repeat split;
            cbn [In]; repeat (first [left; reflexivity | right]); fail).
  all: try (right; right; left; eexists; repeat split;
            cbn [In]; repeat (first [left; reflexivity | right]); fail).
  all: try (right; right; right; eexists; reflexivity).
Qed.

End GitPullFacts.

Section GitPullFile.
Context {W : Type} {host : Host W} {process : System.Process W}.

(** X19.  The file [git_pull.py], with the script [git_push.py] that follows
    in it, runs no [add], no [commit] and no [push] on any run: the second
    script stops where its own comment says the push logic is still to be
    added. *)
Theorem git_pull_file_never_pushes (token : string) (st : state W) :
  exists r w ext,
    GitPull.main token st = (r, mkState w (trace st ++ ext)) /\
    existsb (runs ["add"; "commit"; "push"]) (spawned ext) = false.
Proof.
  revert st. change (spawns_none (runs ["add"; "commit"; "push"]) (GitPull.main token)).
  unfold GitPull.main, GitPull.git_pull, GitPull.git_push.
  repeat (apply spawns_none_bind; [|intros ?]);
    apply spawns_none_steps; intros w t;
    repeat gp_step; ended; reflexivity.
Qed.

End GitPullFile.

(** ** The functions over the API *)

Import Hub.

Section DeskRules.
Context {W : Type} {host : Host W} {service : Service W}.

Lemma wp_api (c : call) (Q : outcome answer -> state (desk W) -> Prop)
    (w : W) (j jx : list entry) (t : list event) :
  (forall (ge : bool) msg w',
      github c w = (Fails ge msg, w') ->
      Q (Raise (PyException (if ge then "GithubException" else "Exception") msg))
        (mkState (mkDesk w' (j ++ (jx ++ [Api c (Fails ge msg)]))) t)) ->
  (forall a w',
      github c w = (a, w') -> failed a = false ->
      Q (Return a) (mkState (mkDesk w' (j ++ (jx ++ [Api c a]))) t)) ->
  wp (api c) Q (mkState (mkDesk w (j ++ jx)) t).
Proof.
  unfold wp, api, note. intros Hraise Hret. cbn [world trace under journal].
  destruct (github c w) as [a w'] eqn:E. rewrite <- app_assoc.
  destruct a as [[|] msg| | | |];
    first [now apply (Hraise true) | now apply (Hraise false) | now apply Hret].
Qed.

Lemma wp_Prompt_ask (prompt : string) (default : option string)
    (Q : outcome string -> state (desk W) -> Prop)
    (w : W) (j jx : list entry) (t : list event) :
  (forall reply w',
      prompt_ask prompt default w = (reply, w') ->
      Q (Return reply)
        (mkState (mkDesk w' (j ++ (jx ++ [Asked prompt default reply]))) t)) ->
  wp (Prompt_ask prompt default) Q (mkState (mkDesk w (j ++ jx)) t).
Proof.
  unfold wp, Prompt_ask, note. intros H. cbn [world trace under journal].
  destruct (prompt_ask prompt default w) as [reply w'] eqn:E.
  specialize (H reply w' eq_refl). now rewrite <- app_assoc.
Qed.

Lemma wp_Confirm_ask (question : string) (default : option bool)
    (Q : outcome bool -> state (desk W) -> Prop)
    (w : W) (j jx : list entry) (t : list event) :
  (forall reply w',
      confirm_ask question default w = (reply, w') ->
      Q (Return reply)
        (mkState (mkDesk w' (j ++ (jx ++ [Confirmed question default reply]))) t)) ->
  wp (Confirm_ask question default) Q (mkState (mkDesk w (j ++ jx)) t).
Proof.
  unfold wp, Confirm_ask, note. intros H. cbn [world trace under journal].
  destruct (confirm_ask question default w) as [reply w'] eqn:E.
  specialize (H reply w' eq_refl). now rewrite <- app_assoc.
Qed.

(** On a desk, [log_action] runs as on the host under it and leaves the
    journal alone. *)
Lemma log_action_on_desk (msg : string) (w : W) (j : list entry)
    (t : list event) :
  Blackland.log_action msg (mkState (mkDesk w j) t) =
  (Return tt,
   mkState (mkDesk (world (snd (Blackland.log_action msg (mkState w t)))) j)
           (trace (snd (Blackland.log_action msg (mkState w t))))).
Proof.
  unfold Blackland.log_action. py_unfold. py_simpl.
  cbn [fs_makedirs fs_append time_strftime desk_host]. unfold on_desk.
  cbn [under journal].
  destruct (fs_makedirs _ w) as [[|] w1]; py_simpl; [|reflexivity].
  cbn [under journal].
  destruct (fs_append _ _ w1) as [[|] w2]; reflexivity.
Qed.

Lemma wp_desk_log_action (msg : string)
    (Q : outcome unit -> state (desk W) -> Prop)
    (w : W) (j : list entry) (t ext : list event) :
  (forall w' e,
      printed e = [] -> spawned e = [] ->
      (logged e = [] \/ exists ts, logged e = [stamped ts msg]) ->
      Q (Return tt) (mkState (mkDesk w' j) (t ++ (ext ++ e)))) ->
  wp (Blackland.log_action msg) Q (mkState (mkDesk w j) (t ++ ext)).
Proof.
  intros H. eapply wp_known; [apply log_action_on_desk|].
  assert (L : exists w' e,
             Blackland.log_action msg (mkState w (t ++ ext)) =
               (Return tt, mkState w' ((t ++ ext) ++ e)) /\
             (printed e = [] /\ spawned e = [] /\
              (logged e = [] \/ exists ts, logged e = [stamped ts msg]))).
  { apply wp_returned with (P := fun e => _).
    repeat bl_step; returned; (split; [reflexivity|]); (split; [reflexivity|]);
      try match goal with good : bool |- _ => destruct good end; unfold stamped;
      first [left; reflexivity | right; eexists; reflexivity]. }
  destruct L as (w' & e & E & Hp & Hs & Hl). rewrite E. cbn [snd world trace].
  rewrite <- app_assoc. now apply H.
Qed.

(** The same for the [log_action] of [git-full-manager.py], which may
    raise. *)
Lemma gitfull_log_action_on_desk (msg : string) (w : W) (j : list entry)
    (t : list event) :
  GitFullManager.log_action msg (mkState (mkDesk w j) t) =
  (fst (GitFullManager.log_action msg (mkState w t)),
   mkState (mkDesk (world (snd (GitFullManager.log_action msg (mkState w t)))) j)
           (trace (snd (GitFullManager.log_action msg (mkState w t))))).
Proof.
  unfold GitFullManager.log_action. py_unfold. py_simpl.
  cbn [fs_makedirs fs_append time_strftime desk_host]. unfold on_desk.
  cbn [under journal].
  destruct (fs_makedirs _ w) as [[|] w1]; py_simpl; [|reflexivity].
  cbn [under journal].
  destruct (fs_append _ _ w1) as [[|] w2]; reflexivity.
Qed.

Lemma wp_desk_gitfull_log_action (msg : string)
    (Q : outcome unit -> state (desk W) -> Prop)
    (w : W) (j : list entry) (t ext : list event) :
  (forall r w' e,
      printed e = [] -> spawned e = [] ->
      (r = Return tt \/ exists path, r = Raise (PyException "OSError" path)) ->
      Q r (mkState (mkDesk w' j) (t ++ (ext ++ e)))) ->
  wp (GitFullManager.log_action msg) Q (mkState (mkDesk w j) (t ++ ext)).
Proof.
  intros H. eapply wp_known; [apply gitfull_log_action_on_desk|].
  assert (L : exists r w' e,
             GitFullManager.log_action msg (mkState w (t ++ ext)) =
               (r, mkState w' ((t ++ ext) ++ e)) /\
             (printed e = [] /\ spawned e = [] /\
              (r = Return tt \/
               exists path, r = Raise (PyException "OSError" path)))).
  { apply wp_ended with (P := fun r _ e => _).
    repeat gf_step; ended; (split; [reflexivity|]); (split; [reflexivity|]);
      first [left; reflexivity | right; eexists; reflexivity]. }
  destruct L as (r & w' & e & E & Hp & Hs & Hr). rewrite E. cbn [fst snd world trace].
  rewrite <- app_assoc. now apply H.
Qed.

(** From a weakest precondition back to the equation of a run on a desk. *)
Lemma wp_desk_ended {A} (m : M (desk W) A)
    (P : outcome A -> list entry -> list event -> Prop)
    (w : W) (j : list entry) (t : list event) :
  wp m (fun r st' =>
          exists r' w' jx ext,
            (r, st') = (r', mkState (mkDesk w' (j ++ jx)) (t ++ ext)) /\
            P r' jx ext)
     (mkState (mkDesk w (j ++ [])) (t ++ [])) ->
  exists r w' jx ext,
    m (mkState (mkDesk w j) t) = (r, mkState (mkDesk w' (j ++ jx)) (t ++ ext)) /\
    P r jx ext.
Proof.
  unfold wp. rewrite !app_nil_r. intros (r & w' & jx & ext & E & HP).
  exists r, w', jx, ext. split; [|exact HP].
  rewrite <- E. now destruct (m (mkState (mkDesk w j) t)).
Qed.

End DeskRules.

(** An entry of a journal that is known: which one it is. *)
Ltac in_cases :=
  repeat match goal with
         | H : In _ (_ :: _) |- _ => cbn [In] in H
         | H : In _ [] |- _ => contradiction H
         | H : _ \/ _ |- _ => destruct H as [H|H]
         | H : False |- _ => contradiction H
         | H : @eq entry _ _ |- _ => inversion H; subst; clear H
         | H : @eq event _ _ |- _ => inversion H; subst; clear H
         end.

Ltac desk_ended := eexists _, _, _, _; split; [reflexivity|].

Ltac desk_step :=
  lazymatch goal with
  | |- context [is_GithubException (PyException _ _)] =>
      progress cbn [is_GithubException]
  | |- wp (api_ _) _ _ => unfold api_
  | |- wp (get_repos) _ _ => unfold get_repos
  | |- wp (create_repo _ _ _ _) _ _ => unfold create_repo
  | |- wp (get_contents _ _ _) _ _ => unfold get_contents
  | |- wp (api _) _ _ =>
      apply wp_api; [intros [|] ? ? ?|intros ? ? ? ?]; wp_simpl
  | |- wp (match ?x with _ => _ end) _ _ =>
      let T := type of x in
      lazymatch T with
      | answer =>
          destruct x;
          try match goal with
              | H : failed (Fails _ _) = false |- _ => discriminate H
              end;
          wp_simpl
      | _ => wp_step
      end
  | |- wp (Prompt_ask _ _) _ _ => apply wp_Prompt_ask; intros ? ? ?; wp_simpl
  | |- wp (Confirm_ask _ _) _ _ => apply wp_Confirm_ask; intros [|] ? ?; wp_simpl
  | |- wp (print_table _ _ _) _ _ => unfold print_table
  | |- wp (print_panel _) _ _ => unfold print_panel
  | |- wp (Blackland.log_action _) _ _ =>
      apply wp_desk_log_action; intros ? ? ? ? ?; wp_simpl
  | |- wp (GitFullManager.log_action _) _ _ =>
      apply wp_desk_gitfull_log_action; intros ? ? ? ? ? ?; wp_simpl
  | _ => wp_step
  end.

Section MenuFacts.
Context {W : Type} {host : Host W} {process : System.Process W}
        {service : Service W}.

(** X20.  [delete_branch_api] never asks GitHub to delete the reference of
    the default branch of the repository; when the user names that branch it
    makes no call of the API at all and prints "Cannot delete default
    branch.".  It returns on every path. *)
Theorem default_branch_is_never_deleted (repo : listed) (w : W)
    (j : list entry) (t : list event) :
  exists w' jx ext,
    BlacklandMenus.delete_branch_api repo (mkState (mkDesk w j) t) =
      (Return tt, mkState (mkDesk w' (j ++ jx)) (t ++ ext)) /\
    (forall fn ref a,
       In (Api (DeleteGitRef fn ref) a) jx ->
       ref <> ("heads/" ++ Blackland.default_branch repo)%string) /\
    (forall d,
       In (Asked "Branch name to delete" d (Blackland.default_branch repo)) jx ->
       api_calls jx = [] /\
       printed ext = ["[yellow]Cannot delete default branch.[/yellow]"]).
Proof.
  cut (exists r w' jx ext,
    BlacklandMenus.delete_branch_api repo (mkState (mkDesk w j) t) =
      (r, mkState (mkDesk w' (j ++ jx)) (t ++ ext)) /\
    (r = Return tt /\
    (forall fn ref a,
       In (Api (DeleteGitRef fn ref) a) jx ->
       ref <> ("heads/" ++ Blackland.default_branch repo)%string) /\
    (forall d,
       In (Asked "Branch name to delete" d (Blackland.default_branch repo)) jx ->
       api_calls jx = [] /\
       printed ext = ["[yellow]Cannot delete default branch.[/yellow]"]))).
  { intros (r & w' & jx & ext & E & -> & H). now exists w', jx, ext. }
  apply wp_desk_ended with (P := fun r jx ext => _).
  unfold BlacklandMenus.delete_branch_api. wp_simpl.
  repeat desk_step; desk_ended; (split; [reflexivity|]); split.
  all: intros; in_cases;
    repeat match goal with
           | H : String.eqb _ _ = false |- _ => apply String.eqb_neq in H
           | H : String.eqb _ _ = true |- _ => apply String.eqb_eq in H
           end;
    try congruence; try (split; reflexivity).
  all: match goal with
       | |- ?a <> ?b =>
           let E := fresh in intros E; cbn in E; injection E as E; congruence
       end.
Qed.

(** X21.  In both managers a repository is deleted only after the user has
    answered yes to the confirmation.  In [blackland-manager.py] a no makes
    no call of the API and prints "Cancelled". *)
Theorem a_repository_is_deleted_only_when_confirmed
    (int : string -> option Z) (repo : listed) (w : W)
    (j : list entry) (t : list event) :
  (exists w' jx ext,
     BlacklandMenus.delete_repo_interactive repo (mkState (mkDesk w j) t) =
       (Return tt, mkState (mkDesk w' (j ++ jx)) (t ++ ext)) /\
     (existsb is_delete_repo (api_calls jx) = true -> confirmed jx = true) /\
     (confirmed jx = false ->
      api_calls jx = [] /\ printed ext = ["[cyan]Cancelled[/cyan]"])) /\
  (exists r w' jx ext,
     GitFullMenus.delete_repo int (mkState (mkDesk w j) t) =
       (r, mkState (mkDesk w' (j ++ jx)) (t ++ ext)) /\
     (existsb is_delete_repo (api_calls jx) = true -> confirmed jx = true)).
Proof.
  split.
  - cut (exists r w' jx ext,
      BlacklandMenus.delete_repo_interactive repo (mkState (mkDesk w j) t) =
        (r, mkState (mkDesk w' (j ++ jx)) (t ++ ext)) /\
      (r = Return tt /\
       (existsb is_delete_repo (api_calls jx) = true -> confirmed jx = true) /\
       (confirmed jx = false ->
        api_calls jx = [] /\ printed ext = ["[cyan]Cancelled[/cyan]"]))).
    { intros (r & w' & jx & ext & E & -> & H). now exists w', jx, ext. }
    apply wp_desk_ended with (P := fun r jx ext => _).
    unfold BlacklandMenus.delete_repo_interactive. wp_simpl.
    repeat desk_step; desk_ended; (split; [reflexivity|]); split;
      first [reflexivity | discriminate | intros; split; reflexivity].
  - apply wp_desk_ended with (P := fun r jx ext => _).
    unfold GitFullMenus.delete_repo, GitFullMenus.list_repos,
      GitFullMenus.int_or_raise, GitFullMenus.item. wp_simpl.
    repeat desk_step; desk_ended; first [reflexivity | discriminate].
Qed.


Lemma index_from_the_end {A} (xs : list A) (d : A) :
  xs <> [] -> PyList.index xs (0 - 1) = Some (List.last xs d).
Proof.
  intros Hne. unfold PyList.index.
  change (0 <=? 0 - 1)%Z with false. cbn iota.
  destruct xs as [|x xs]; [contradiction|].
  assert (Hlen : (- Z.of_nat (List.length (x :: xs)) <=? 0 - 1)%Z = true).
  { apply Z.leb_le. cbn [List.length]. lia. }
  rewrite Hlen.
  replace (Z.to_nat (Z.of_nat (List.length (x :: xs)) + (0 - 1)))
    with (List.length xs) by (cbn [List.length]; lia).
  clear Hne Hlen. revert x. induction xs as [|y xs IH]; intros x; [reflexivity|].
  cbn [List.length nth_error]. rewrite (IH y). reflexivity.
Qed.

(** X22.  [delete_repo] of [git-full-manager.py] takes the number typed as a
    Python index, less one, into the list it has shown: text that is no
    number ends it in [ValueError] and a number out of range in [IndexError],
    with no deletion; otherwise the repository at that index is the one
    deleted when the user confirms, and none is when the user does not.  The
    range is Python's: the number 0 is the index -1, the last repository of
    a list that is not empty. *)
Theorem delete_repo_takes_a_python_index (int : string -> option Z) (w : W)
    (j : list entry) (t : list event) :
  exists r w' jx ext,
    GitFullMenus.delete_repo int (mkState (mkDesk w j) t) =
      (r, mkState (mkDesk w' (j ++ jx)) (t ++ ext)) /\
    let rs := listing (fst (github GetRepos w)) in
    (forall answer d,
       In (Asked "Enter repo number to delete" d answer) jx ->
       match int answer with
       | None =>
           r = Raise (PyException "ValueError" answer) /\
           api_calls jx = [GetRepos]
       | Some idx =>
           match PyList.index rs (idx - 1) with
           | None =>
               r = Raise (PyException "IndexError" "list index out of range") /\
               api_calls jx = [GetRepos]
           | Some repo =>
               if confirmed jx
               then api_calls jx =
                      [GetRepos; DeleteRepo (Blackland.full_name repo)]
               else api_calls jx = [GetRepos] /\ r = Return tt
           end
       end) /\
    (forall d, rs <> [] -> PyList.index rs (0 - 1) = Some (List.last rs d)).
Proof.
  cut (exists r w' jx ext,
    GitFullMenus.delete_repo int (mkState (mkDesk w j) t) =
      (r, mkState (mkDesk w' (j ++ jx)) (t ++ ext)) /\
    let rs := listing (fst (github GetRepos w)) in
    (forall answer d,
       In (Asked "Enter repo number to delete" d answer) jx ->
       match int answer with
       | None =>
           r = Raise (PyException "ValueError" answer) /\
           api_calls jx = [GetRepos]
       | Some idx =>
           match PyList.index rs (idx - 1) with
           | None =>
               r = Raise (PyException "IndexError" "list index out of range") /\
               api_calls jx = [GetRepos]
           | Some repo =>
               if confirmed jx
               then api_calls jx =
                      [GetRepos; DeleteRepo (Blackland.full_name repo)]
               else api_calls jx = [GetRepos] /\ r = Return tt
           end
       end)).
  { intros (r & w' & jx & ext & E & H). exists r, w', jx, ext.
    split; [exact E|]. split; [exact H|]. intros d. apply index_from_the_end. }
  apply wp_desk_ended with (P := fun r jx ext => _).
  unfold GitFullMenus.delete_repo, GitFullMenus.list_repos,
    GitFullMenus.int_or_raise, GitFullMenus.item. wp_simpl.
  repeat desk_step; desk_ended;
    match goal with
    | H : github GetRepos _ = _ |- _ => rewrite H; cbn [fst listing]
    end;
    intros answer d Hin; in_cases;
    repeat match goal with
           | H : int _ = _ |- _ => rewrite H
           | H : PyList.index _ _ = _ |- _ => rewrite H
           end;
    cbn [confirmed existsb orb];
    first [reflexivity | split; reflexivity].
Qed.


(** X23.  [list_repos(limit)] of [blackland-manager.py] makes one call of the
    API and always returns: the first [limit] repositories of the listing, in
    its order and with nothing printed, or the empty list and a line in red
    when the call fails. *)
Theorem list_repos_is_bounded_and_never_raises (limit : nat) (w : W)
    (j : list entry) (t : list event) :
  exists rs w' jx ext,
    BlacklandMenus.list_repos limit (mkState (mkDesk w j) t) =
      (Return rs, mkState (mkDesk w' (j ++ jx)) (t ++ ext)) /\
    List.length rs <= limit /\
    api_calls jx = [GetRepos] /\
    match fst (github GetRepos w) with
    | Repos all => rs = firstn limit all /\ ext = []
    | _ => rs = [] /\ reported ext = true
    end.
Proof.
  cut (exists r w' jx ext,
    BlacklandMenus.list_repos limit (mkState (mkDesk w j) t) =
      (r, mkState (mkDesk w' (j ++ jx)) (t ++ ext)) /\
    exists rs, r = Return rs /\
    List.length rs <= limit /\
    api_calls jx = [GetRepos] /\
    match fst (github GetRepos w) with
    | Repos all => rs = firstn limit all /\ ext = []
    | _ => rs = [] /\ reported ext = true
    end).
  { intros (r & w' & jx & ext & E & rs & -> & H). now exists rs, w', jx, ext. }
  apply wp_desk_ended with (P := fun r jx ext => _).
  unfold BlacklandMenus.list_repos. wp_simpl.
  repeat desk_step; desk_ended; eexists; (split; [reflexivity|]);
    match goal with
    | H : github GetRepos _ = _ |- _ => rewrite H; cbn [fst]
    end;
    (split; [first [apply firstn_le_length | cbn; lia]|]);
    (split; [reflexivity|]); split; reflexivity.
Qed.



Lemma index_in_range {A} (xs : list A) (idx : Z) :
  ((1 <=? idx) && (idx <=? Z.of_nat (List.length xs)))%Z = true ->
  PyList.index xs (idx - 1) = nth_error xs (Z.to_nat (idx - 1)) /\
  nth_error xs (Z.to_nat (idx - 1)) <> None.
Proof.
  intros H. apply andb_true_iff in H as [H1 H2].
  apply Z.leb_le in H1, H2. unfold PyList.index.
  assert (H0 : (0 <=? idx - 1)%Z = true) by (apply Z.leb_le; lia).
  rewrite H0. split; [reflexivity|]. apply nth_error_Some. lia.
Qed.

(** X25.  [select_repo_interactive] always returns.  Of the number typed it
    accepts 0, which creates a repository, and 1 up to the number of
    repositories shown, which selects the one on that line, with no further
    call of the API; any other number gives [None] and "Choice out of range",
    and text that is no number gives [None] and "Invalid input".  No index
    outside the list is ever taken. *)
Theorem repo_selection_stays_in_range (int : string -> option Z) (w : W)
    (j : list entry) (t : list event) :
  exists r w' jx ext,
    BlacklandMenus.select_repo_interactive int (mkState (mkDesk w j) t) =
      (Return r, mkState (mkDesk w' (j ++ jx)) (t ++ ext)) /\
    let rs := firstn 200 (listing (fst (github GetRepos w))) in
    forall choice d,
      In (Asked "Enter number" d choice) jx ->
      match int choice with
      | None =>
          r = None /\ api_calls jx = [GetRepos] /\
          In "[red]Invalid input[/red]" (printed ext)
      | Some idx =>
          if (idx =? 0)%Z
          then exists name description private auto_init,
                 api_calls jx =
                   [GetRepos; CreateRepo name description private auto_init]
          else if ((1 <=? idx) && (idx <=? Z.of_nat (List.length rs)))%Z
          then r = nth_error rs (Z.to_nat (idx - 1)) /\ r <> None /\
               api_calls jx = [GetRepos]
          else r = None /\ api_calls jx = [GetRepos] /\
               In "[red]Choice out of range[/red]" (printed ext)
      end.
Proof.
  cut (exists r0 w' jx ext,
    BlacklandMenus.select_repo_interactive int (mkState (mkDesk w j) t) =
      (r0, mkState (mkDesk w' (j ++ jx)) (t ++ ext)) /\
    exists r, r0 = Return r /\
    let rs := firstn 200 (listing (fst (github GetRepos w))) in
    forall choice d,
      In (Asked "Enter number" d choice) jx ->
      match int choice with
      | None =>
          r = None /\ api_calls jx = [GetRepos] /\
          In "[red]Invalid input[/red]" (printed ext)
      | Some idx =>
          if (idx =? 0)%Z
          then exists name description private auto_init,
                 api_calls jx =
                   [GetRepos; CreateRepo name description private auto_init]
          else if ((1 <=? idx) && (idx <=? Z.of_nat (List.length rs)))%Z
          then r = nth_error rs (Z.to_nat (idx - 1)) /\ r <> None /\
               api_calls jx = [GetRepos]
          else r = None /\ api_calls jx = [GetRepos] /\
               In "[red]Choice out of range[/red]" (printed ext)
      end).
  { intros (r0 & w' & jx & ext & E & r & -> & H). now exists r, w', jx, ext. }
  apply wp_desk_ended with (P := fun r jx ext => _).
  unfold BlacklandMenus.select_repo_interactive, BlacklandMenus.list_repos,
    BlacklandMenus.create_repo_interactive. wp_simpl.
  repeat desk_step; desk_ended; eexists; (split; [reflexivity|]);
    match goal with
    | H : github GetRepos _ = _ |- _ => rewrite H; cbn [fst listing]
    end;
    intros choice d Hin; in_cases;
    repeat match goal with
           | H : int _ = _ |- _ => rewrite H
           | H : Z.eqb _ _ = _ |- _ => rewrite H
           | H : firstn _ _ = _ |- _ => rewrite H in *
           | H : (_ && _)%bool = _ |- _ => rewrite H
           end.
  all: try (eexists _, _, _, _; reflexivity).
  all: try (repeat split; cbn; auto; fail).
  all: match goal with
       | H : (_ && _)%bool = true |- _ =>
           destruct (index_in_range _ _ H) as [-> Hsome]
       end; repeat split; auto.
Qed.

End MenuFacts.

(** ** The clone loop of [git-full-manager.py] *)

Ltac in_cases_events :=
  repeat match goal with
         | H : In _ (_ :: _) |- _ => cbn [In] in H
         | H : In _ [] |- _ => contradiction H
         | H : _ \/ _ |- _ => destruct H as [H|H]
         | H : False |- _ => contradiction H
         | H : @eq event _ _ |- _ => inversion H; subst; clear H
         end.

Section CloneFacts.
Context {W : Type} {host : Host W} {process : System.Process W}
        {service : Service W}.

Lemma last_app_nonempty {A} (a b : list A) (d : A) :
  b <> [] -> List.last (a ++ b) d = List.last b d.
Proof.
  intros Hb. induction a as [|x a IH]; [reflexivity|].
  cbn [app]. destruct (a ++ b) eqn:E.
  - apply app_eq_nil in E as [_ ->]. contradiction.
  - exact IH.
Qed.

Lemma clone_turn (TOKEN : string) (r0 : listed) (st : state (desk W)) :
  exists r w ext,
    GitFullMenus.clone_each TOKEN [r0] st = (r, mkState w (trace st ++ ext)) /\
    stops_at_failure r ext /\
    clone_error TOKEN [r0] r ext /\
    Forall (fun s => In s (clone_lines r0)) (printed ext) /\
    Forall (clone_record r0) (logged ext).
Proof.
  destruct st as [w t]. apply wp_ended with (P := fun r w ext => _).
  unfold GitFullMenus.clone_each. cbn [for_each]. wp_simpl.
  repeat gf_step; ended;
    unfold stops_at_failure, clone_error, clone_lines, clone_record.
  all: split; [intros cmd cwd code Hin; in_cases_events; split; reflexivity|].
  all: split; [intros cmd cwd code Hin; in_cases_events;
               try (exists r0; repeat split; first [now left | reflexivity])|].
  all: split; repeat (apply Forall_cons; [|]); try apply Forall_nil.
  all: try (cbn [In]; auto; fail). all: unfold stamped; try (eexists; reflexivity).
Qed.

Lemma for_each_cons {A} (body : A -> M (desk W) unit) (x : A) (xs : list A)
    (st : state (desk W)) :
  for_each (x :: xs) body st =
  match for_each [x] body st with
  | (Return _, st1) => for_each xs body st1
  | (Raise e, st1) => (Raise e, st1)
  end.
Proof.
  cbn [for_each]. unfold bind, ret. now destruct (body x st) as [[[]|e] st1].
Qed.

(** X26.  In the loop of [clone_repositories_to_workspace] a clone that exits
    with a status other than 0 is the last command of the run, and its
    [CalledProcessError] is how the run ends: the repositories after it are
    not cloned.  That error is the one of the clone of a chosen repository,
    and it carries the command line with the URL that holds the token:
    nothing catches it.  The lines that the script itself prints and logs
    are the lines "Skipping" and "Cloning" and the records "Cloned" of the
    repositories chosen, by their names. *)
Theorem clone_loop_stops_at_the_first_failure (TOKEN : string)
    (to_clone : list listed) (st : state (desk W)) :
  exists r w ext,
    GitFullMenus.clone_each TOKEN to_clone st =
      (r, mkState w (trace st ++ ext)) /\
    stops_at_failure r ext /\
    clone_error TOKEN to_clone r ext /\
    Forall (fun s => exists r0, In r0 to_clone /\ In s (clone_lines r0))
           (printed ext) /\
    Forall (fun s => exists r0, In r0 to_clone /\ clone_record r0 s)
           (logged ext).
Proof.
  revert st. induction to_clone as [|x xs IH]; intros st.
  - exists (Return tt), (world st), []. destruct st as [w t]. cbn.
    rewrite app_nil_r. split; [reflexivity|].
    split; [intros ? ? ? []|]. split; [intros ? ? ? []|]. split; constructor.
  - destruct (clone_turn TOKEN x st)
      as (r1 & w1 & e1 & E1 & Hs1 & Hc1 & Hp1 & Hl1).
    unfold GitFullMenus.clone_each in *. rewrite for_each_cons, E1.
    assert (Hp : Forall (fun s => exists r0, In r0 (x :: xs) /\ In s (clone_lines r0))
                        (printed e1)).
    { eapply Forall_impl; [|exact Hp1]. intros s Hs. exists x. split; [now left|exact Hs]. }
    assert (Hl : Forall (fun s => exists r0, In r0 (x :: xs) /\ clone_record r0 s)
                        (logged e1)).
    { eapply Forall_impl; [|exact Hl1]. intros s Hs. exists x. split; [now left|exact Hs]. }
    destruct r1 as [[]|e].
    + destruct (IH (mkState w1 (trace st ++ e1)))
        as (r2 & w2 & e2 & E2 & Hs2 & Hc2 & Hp2 & Hl2).
      cbn [trace] in E2. exists r2, w2, (e1 ++ e2). rewrite E2, app_assoc.
      split; [reflexivity|]. split; [|split; [|split]].
      * intros cmd cwd rc Hin. apply in_app_or in Hin as [Hin|Hin].
        { destruct (Hs1 cmd cwd rc Hin) as [Habs _]. discriminate Habs. }
        destruct (Hs2 cmd cwd rc Hin) as [-> Hlast]. split; [reflexivity|].
        rewrite spawned_app, last_app_nonempty; [exact Hlast|].
        intros Hnil. clear - Hin Hnil. induction e2 as [|e e2 IH2]; [contradiction|].
        destruct Hin as [->|Hin]; [discriminate Hnil|].
        apply IH2; [exact Hin|]. destruct e; try exact Hnil; discriminate Hnil.
      * intros cmd cwd rc Hin. apply in_app_or in Hin as [Hin|Hin].
        { destruct (Hs1 cmd cwd rc Hin) as [Habs _]. discriminate Habs. }
        destruct (Hc2 cmd cwd rc Hin) as (r0 & Hin0 & Hcmd & Hr).
        exists r0. split; [now right|]. split; assumption.
      * rewrite printed_app. apply Forall_app. split; [exact Hp|].
        eapply Forall_impl; [|exact Hp2].
        intros s (r0 & Hin & Hs). exists r0. split; [now right|exact Hs].
      * rewrite logged_app. apply Forall_app. split; [exact Hl|].
        eapply Forall_impl; [|exact Hl2].
        intros s (r0 & Hin & Hs). exists r0. split; [now right|exact Hs].
    + exists (Raise e), w1, e1. split; [reflexivity|].
      split; [exact Hs1|]. split; [|split; assumption].
      intros cmd cwd rc Hin. destruct (Hc1 cmd cwd rc Hin) as (r0 & [<-|[]] & Hcmd & Hr).
      exists x. split; [now left|]. split; assumption.
Qed.

End CloneFacts.

(** ** The batch menus *)


Section MenuRules.
Context {W : Type} {host : Host W} {process : System.Process W}
        {service : Service W}.

Lemma wp_os_listdir (path : string)
    (Q : outcome (list string) -> state (desk W) -> Prop) (st : state (desk W)) :
  Q match System.process_listdir path (under (world st)) with
    | Some names => Return names
    | None => Raise (PyException "FileNotFoundError" path)
    end st ->
  wp (System.os_listdir path) Q st.
Proof.
  unfold wp, System.os_listdir. cbn [System.process_listdir desk_process].
  now destruct (System.process_listdir path (under (world st))).
Qed.

Lemma keep_if_isdir (path_of : string -> string) (names : list string)
    (st : state (desk W)) :
  keep_if (fun d => os_path_isdir (path_of d)) names st =
  (Return (filter (fun d => fs_isdir (path_of d) (under (world st))) names), st).
Proof.
  induction names as [|d names IH]; [reflexivity|].
  cbn [keep_if filter]. unfold bind, os_path_isdir at 1, ret. rewrite IH.
  cbn [fs_isdir desk_host]. now destruct (fs_isdir (path_of d) (under (world st))).
Qed.

Lemma wp_keep_if_isdir (path_of : string -> string) (names : list string)
    (Q : outcome (list string) -> state (desk W) -> Prop) (st : state (desk W)) :
  Q (Return (filter (fun d => fs_isdir (path_of d) (under (world st))) names)) st ->
  wp (keep_if (fun d => os_path_isdir (path_of d)) names) Q st.
Proof. intros H. eapply wp_known; [apply keep_if_isdir|exact H]. Qed.

(** The prompts, when the journal is not looked at. *)
Lemma wp_Prompt_ask_any (prompt : string) (default : option string)
    (Q : outcome string -> state (desk W) -> Prop) (st : state (desk W)) :
  (forall w',
      Q (Return (fst (prompt_ask prompt default (under (world st)))))
        (mkState w' (trace st))) ->
  wp (Prompt_ask prompt default) Q st.
Proof.
  unfold wp, Prompt_ask, note. intros H.
  destruct (prompt_ask prompt default (under (world st))) as [reply w'].
  apply H.
Qed.

End MenuRules.


Lemma existsb_never {A} (l : list A) : existsb (fun _ => false) l = false.
Proof. now induction l. Qed.

Lemma only_upkeep (cmds : list (list string)) :
  existsb beyond_upkeep cmds = false <-> forallb (runs upkeep) cmds = true.
Proof.
  unfold beyond_upkeep. induction cmds as [|c cmds IH]; [now split|].
  cbn [existsb forallb]. rewrite orb_false_iff, andb_true_iff, negb_false_iff.
  now rewrite IH.
Qed.

(** The commands of a part of a script, its calls of the upkeep taken as
    known. *)
Ltac part_commands :=
  repeat match goal with
         | |- context [spawned (?e :: ?t)] =>
             lazymatch t with
             | [] => fail
             | _ => change (spawned (e :: t)) with (spawned [e] ++ spawned t)
             end
         end;
  rewrite ?spawned_app, ?existsb_app;
  repeat match goal with
         | H : forallb (runs upkeep) (spawned ?e) = true |- _ =>
             apply only_upkeep in H; try rewrite H; clear H
         end;
  first [reflexivity | apply existsb_never
        | rewrite ?existsb_never; reflexivity].

Section LoopCommands.
Context {W : Type} {host : Host W}.

Lemma blackland_turn_outside_the_menu (TOKEN login choice commit_msg d : string) :
  PyStr.mem choice ["1"; "3"] = false -> PyStr.mem choice ["2"; "3"] = false ->
  spawns_none beyond_upkeep
    (Blackland.batch_workspace_step TOKEN login choice commit_msg d).
Proof.
  intros H1 H2. apply spawns_none_steps. intros w t.
  unfold Blackland.batch_workspace_step. rewrite H1, H2. wp_simpl.
  repeat upkeep_step; ended; part_commands.
Qed.

Lemma gitfull_turn_outside_the_menu (TOKEN login ch r : string) :
  PyStr.mem ch ["1"; "3"] = false -> PyStr.mem ch ["2"; "3"] = false ->
  spawns_none beyond_upkeep (GitFullManager.batch_git_step TOKEN login ch r).
Proof.
  intros H1 H2. apply spawns_none_steps. intros w t.
  unfold GitFullManager.batch_git_step. rewrite H1, H2. wp_simpl.
  repeat upkeep_step; ended; part_commands.
Qed.

Lemma blackland_turn_ends (TOKEN login choice commit_msg d : string) :
  spawns_none (fun _ => false)
    (Blackland.batch_workspace_step TOKEN login choice commit_msg d).
Proof.
  intros st.
  destruct (batch_workspace_step_returns TOKEN login choice commit_msg d st)
    as (w & ext & E & _).
  exists (Return tt), w, ext. split; [exact E|apply existsb_never].
Qed.

Lemma gitfull_turn_ends (TOKEN login ch r : string) :
  spawns_none (fun _ => false) (GitFullManager.batch_git_step TOKEN login ch r).
Proof.
  intros st.
  destruct (batch_git_step_returns TOKEN login ch r st) as (w & ext & E & _).
  exists (Return tt), w, ext. split; [exact E|apply existsb_never].
Qed.

Lemma clone_repo_to_workspace_ends (TOKEN login : string)
    (repo : Blackland.Repository) :
  spawns_none (fun _ => false)
    (Blackland.clone_repo_to_workspace TOKEN login repo).
Proof.
  apply spawns_none_steps. intros w t.
  unfold Blackland.clone_repo_to_workspace. wp_simpl.
  repeat upkeep_step; ended; apply existsb_never.
Qed.

End LoopCommands.

Section MenuCommands.
Context {W : Type} {host : Host W} {process : System.Process W}
        {service : Service W}.

Lemma blackland_loop_outside_the_menu (TOKEN login choice commit_msg : string)
    (dirs : list string) :
  PyStr.mem choice ["1"; "3"] = false -> PyStr.mem choice ["2"; "3"] = false ->
  spawns_none (W := desk W) beyond_upkeep
    (Blackland.batch_workspace_manager TOKEN login dirs choice commit_msg).
Proof.
  intros H1 H2. unfold Blackland.batch_workspace_manager.
  apply spawns_none_bind.
  - apply spawns_none_for_each. intros d.
    now apply blackland_turn_outside_the_menu.
  - intros []. apply spawns_none_steps. intros w t.
    repeat upkeep_step. ended. reflexivity.
Qed.

Lemma blackland_loop_ends (TOKEN login choice commit_msg : string)
    (dirs : list string) :
  spawns_none (W := desk W) (fun _ => false)
    (Blackland.batch_workspace_manager TOKEN login dirs choice commit_msg).
Proof.
  unfold Blackland.batch_workspace_manager. apply spawns_none_bind.
  - apply spawns_none_for_each. intros d. apply blackland_turn_ends.
  - intros []. apply spawns_none_steps. intros w t.
    repeat upkeep_step. ended. reflexivity.
Qed.

Lemma outside_the_menu (choice : string) :
  PyStr.mem choice ["1"; "2"; "3"; "4"; "5"] = false ->
  PyStr.mem choice ["1"; "3"] = false /\ PyStr.mem choice ["2"; "3"] = false /\
  String.eqb choice "4" = false /\ String.eqb choice "5" = false.
Proof.
  unfold PyStr.mem. cbn [existsb]. rewrite !orb_false_r, !orb_false_iff.
  rewrite !(String.eqb_sym choice). tauto.
Qed.

Lemma list_repos_runs_nothing (limit : nat) :
  spawns_none (W := desk W) (fun _ => false) (BlacklandMenus.list_repos limit).
Proof.
  intros [d t].
  unfold BlacklandMenus.list_repos, try_except, get_repos, bind, api, note.
  cbn [world trace]. destruct (github GetRepos (under d)) as [a w].
  destruct a as [[|] msg| |rs|r|p sha]; cbn [is_Exception];
    unfold console_print, emit, bind, ret, raise; cbn [world trace];
    eexists _, _, _; (split; [|apply existsb_never]);
    first [reflexivity | rewrite app_nil_r; reflexivity].
Qed.

Lemma clone_missing_runs (TOKEN login : string) (repos : list listed) :
  spawns_none (W := desk W) (fun _ => false)
    (for_each repos
       (fun r : listed =>
          bind (os_path_exists
                  (PyStr.path_join Blackland.REPO_PATH (Blackland.name r)))
               (fun there =>
                  if negb there
                  then Blackland.clone_repo_to_workspace TOKEN login r
                  else ret tt))).
Proof.
  apply spawns_none_for_each. intros r. apply spawns_none_bind.
  - apply spawns_none_steps. intros w t. repeat upkeep_step.
    ended. reflexivity.
  - intros there. destruct there; cbn [negb].
    + apply spawns_none_steps. intros w t. wp_simpl. ended. reflexivity.
    + apply clone_repo_to_workspace_ends.
Qed.

Ltac menu_step :=
  lazymatch goal with
  | |- wp (System.os_listdir _) _ _ =>
      apply wp_os_listdir; cbn [world under];
      match goal with
      | |- context [System.process_listdir ?p ?w] =>
          destruct (System.process_listdir p w)
      end; wp_simpl
  | |- wp (keep_if _ _) _ _ => apply wp_keep_if_isdir; wp_simpl
  | |- wp (Prompt_ask _ _) _ _ =>
      apply wp_Prompt_ask_any; intros ?; cbn [world trace under]; wp_simpl
  | |- wp (print_panel _) _ _ => unfold print_panel; wp_simpl
  | |- wp (match ?l with [] => _ | _ => _ end) _ _ =>
      destruct l eqn:?; wp_simpl
  | _ => upkeep_step
  end.

(** What is left once the menu has run: each of the three cases is read off
    the commands, or is not the case at hand. *)
Ltac menu_done :=
  ended; cbn [fs_isdir desk_host] in *;
  (split; [|split]);
  let Hx := fresh "Hx" in
  intros Hx;
  first
    [ reflexivity
    | match goal with
      | H : existsb beyond_upkeep (spawned ?e) = false |- _ =>
          apply only_upkeep;
          repeat match goal with
                 | |- context [spawned (?x :: ?l)] =>
                     lazymatch l with
                     | [] => fail
                     | _ => change (spawned (x :: l))
                              with (spawned [x] ++ spawned l)
                     end
                 end;
          rewrite ?spawned_app, ?existsb_app, H; reflexivity
      end
    | exfalso;
      first
        [ discriminate Hx
        | match goal with
          | H : negb _ = false |- _ => rewrite Hx in H; discriminate H
          end
        | match goal with
          | H : (_ =? "5") = false |- _ => rewrite Hx in H; discriminate H
          end
        | apply outside_the_menu in Hx; destruct Hx as (? & ? & ? & ?);
          congruence ] ].

(** X27.  [batch_workspace_manager] as a whole, from the listing of the
    workspace to the end of the loop: it runs no command when the workspace
    is missing and when the user chooses "5" (also by default); and on an
    answer that is none of "1" to "5" it does not stop but goes through the
    loop, where it runs only the commands of the upkeep of each working copy
    ([remote], [fetch], [symbolic-ref], [rev-parse], [checkout], [branch]):
    no pull, commit or push. *)
Theorem batch_menu_runs_only_what_was_chosen (TOKEN login : string)
    (d : desk W) (t : list event) :
  let choice := PyStr.strip
                  (fst (prompt_ask "Enter choice" (Some "5") (under d))) in
  exists r d' ext,
    BlacklandMenus.batch_workspace_manager TOKEN login (mkState d t) =
      (r, mkState d' (t ++ ext)) /\
    (fs_isdir Blackland.REPO_PATH (under d) = false -> spawned ext = []) /\
    (choice = "5" -> spawned ext = []) /\
    (PyStr.mem choice ["1"; "2"; "3"; "4"; "5"] = false ->
     forallb (runs upkeep) (spawned ext) = true).
Proof.
  intros choice. subst choice. apply wp_ended.
  unfold BlacklandMenus.batch_workspace_manager. wp_simpl.
  repeat menu_step;
    lazymatch goal with
    | |- wp (BlacklandMenus.list_repos _) _ _ =>
        apply wp_spawns_none with (f := fun _ => false);
        [apply list_repos_runs_nothing|];
        intros [repos|e] ? ? _; wp_simpl;
        [apply wp_spawns_none with (f := fun _ => false);
         [apply clone_missing_runs|]; intros ? ? ? _|]
    | |- wp (Blackland.batch_workspace_manager _ _ _ ?c _) _ _ =>
        let Hm := fresh "Hm" in
        destruct (PyStr.mem c ["1"; "2"; "3"; "4"; "5"]) eqn:Hm;
        [apply wp_spawns_none with (f := fun _ => false);
         [apply blackland_loop_ends|]; intros ? ? ? _
        |apply wp_spawns_none with (f := beyond_upkeep);
         [apply outside_the_menu in Hm; destruct Hm as (? & ? & ? & ?);
          now apply blackland_loop_outside_the_menu|]; intros ? ? ? ?]
    | _ => idtac
    end.
  all: menu_done.
Qed.

Lemma gitfull_loop_outside_the_menu (TOKEN login ch : string)
    (repos : list string) :
  PyStr.mem ch ["1"; "3"] = false -> PyStr.mem ch ["2"; "3"] = false ->
  spawns_none (W := desk W) beyond_upkeep
    (GitFullManager.batch_git_manager TOKEN login repos ch).
Proof.
  intros H1 H2. apply spawns_none_for_each. intros r.
  now apply gitfull_turn_outside_the_menu.
Qed.

Lemma gitfull_loop_ends (TOKEN login ch : string) (repos : list string) :
  spawns_none (W := desk W) (fun _ => false)
    (GitFullManager.batch_git_manager TOKEN login repos ch).
Proof. apply spawns_none_for_each. intros r. apply gitfull_turn_ends. Qed.

Lemma outside_the_gitfull_menu (ch : string) :
  PyStr.mem ch ["1"; "2"; "3"; "4"] = false ->
  PyStr.mem ch ["1"; "3"] = false /\ PyStr.mem ch ["2"; "3"] = false /\
  String.eqb ch "4" = false.
Proof.
  unfold PyStr.mem. cbn [existsb]. rewrite !orb_false_r, !orb_false_iff.
  rewrite !(String.eqb_sym ch). tauto.
Qed.

Ltac gitfull_menu_done :=
  ended; cbn [fs_isdir desk_host] in *;
  (split; [|split]);
  let Hx := fresh "Hx" in
  intros Hx;
  first
    [ reflexivity
    | match goal with
      | H : existsb beyond_upkeep (spawned ?e) = false |- _ =>
          apply only_upkeep;
          repeat match goal with
                 | |- context [spawned (?x :: ?l)] =>
                     lazymatch l with
                     | [] => fail
                     | _ => change (spawned (x :: l))
                              with (spawned [x] ++ spawned l)
                     end
                 end;
          rewrite ?spawned_app, ?existsb_app, H; reflexivity
      end
    | exfalso;
      first
        [ discriminate Hx
        | match goal with
          | H : negb _ = false |- _ => rewrite Hx in H; discriminate H
          end
        | match goal with
          | H : (_ =? "4") = false |- _ => rewrite Hx in H; discriminate H
          end ] ].

(** X28.  [batch_git_manager] as a whole: it runs no command when the
    workspace is missing and when the user chooses "4" (also by default);
    on an answer that is none of "1" to "4" it goes through the loop all the
    same and runs only the commands of the upkeep of each working copy: no
    pull, commit or push. *)
Theorem gitfull_batch_menu_runs_only_what_was_chosen (TOKEN login : string)
    (d : desk W) (t : list event) :
  let ch := fst (prompt_ask "Choice" (Some "4") (under d)) in
  exists r d' ext,
    GitFullMenus.batch_git_manager TOKEN login (mkState d t) =
      (r, mkState d' (t ++ ext)) /\
    (fs_isdir GitFullManager.REPO_PATH (under d) = false -> spawned ext = []) /\
    (ch = "4" -> spawned ext = []) /\
    (PyStr.mem ch ["1"; "2"; "3"; "4"] = false ->
     forallb (runs upkeep) (spawned ext) = true).
Proof.
  intros ch. subst ch. apply wp_ended.
  unfold GitFullMenus.batch_git_manager. wp_simpl.
  repeat menu_step;
    lazymatch goal with
    | |- wp (GitFullManager.batch_git_manager _ _ _ ?c) _ _ =>
        let Hm := fresh "Hm" in
        destruct (PyStr.mem c ["1"; "2"; "3"; "4"]) eqn:Hm;
        [apply wp_spawns_none with (f := fun _ => false);
         [apply gitfull_loop_ends|]; intros ? ? ? _
        |apply wp_spawns_none with (f := beyond_upkeep);
         [apply outside_the_gitfull_menu in Hm; destruct Hm as (? & ? & ?);
          now apply gitfull_loop_outside_the_menu|]; intros ? ? ? ?]
    | _ => idtac
    end.
  all: gitfull_menu_done.
Qed.

End MenuCommands.

(** ** The selection of the clones *)

Section SelectionRules.
Context {W : Type} {host : Host W} {process : System.Process W}
        {service : Service W}.

Lemma on_desk_under {A} (f : W -> A * W) (d d' : desk W) (a : A) :
  on_desk f d = (a, d') -> a = fst (f (under d)) /\ under d' = snd (f (under d)).
Proof.
  unfold on_desk. destruct (f (under d)) as [a0 w0]. intros E.
  injection E as <- <-. split; reflexivity.
Qed.

(** The calls of the API and the prompts, when only the host under the desk
    is followed. *)
Lemma wp_api_under (c : call) (Q : outcome answer -> state (desk W) -> Prop)
    (st : state (desk W)) :
  (forall d',
      under d' = snd (github c (under (world st))) ->
      Q match fst (github c (under (world st))) with
        | Fails true msg => Raise (PyException "GithubException" msg)
        | Fails false msg => Raise (PyException "Exception" msg)
        | a => Return a
        end (mkState d' (trace st))) ->
  wp (api c) Q st.
Proof.
  unfold wp, api, note. intros H.
  destruct (github c (under (world st))) as [a w'] eqn:E. cbn [fst snd] in H.
  specialize (H (mkDesk w' (journal (world st) ++ [Api c a])) eq_refl).
  destruct a as [[|] msg| | | |]; exact H.
Qed.

Lemma wp_Prompt_ask_under (prompt : string) (default : option string)
    (Q : outcome string -> state (desk W) -> Prop) (st : state (desk W)) :
  (forall d',
      under d' = snd (prompt_ask prompt default (under (world st))) ->
      Q (Return (fst (prompt_ask prompt default (under (world st)))))
        (mkState d' (trace st))) ->
  wp (Prompt_ask prompt default) Q st.
Proof.
  unfold wp, Prompt_ask, note. intros H.
  destruct (prompt_ask prompt default (under (world st))) as [reply w'].
  now apply H.
Qed.

(** The selection is read without a command and without a line. *)
Lemma numbers_reads (int : string -> option Z) (parts : list string)
    (st : state (desk W)) :
  exists r,
    GitFullMenus.numbers int parts st = (r, st) /\
    (forall e, r = Raise e -> is_selection_error e = true).
Proof.
  induction parts as [|x parts IH].
  - exists (Return []). split; [reflexivity|discriminate].
  - cbn [GitFullMenus.numbers]. unfold bind, GitFullMenus.int_or_raise.
    destruct (int (PyStr.strip x)) as [i|]; unfold ret, raise.
    + destruct IH as (r & -> & Hr). destruct r as [more|e].
      * eexists. split; [reflexivity|discriminate].
      * eexists. split; [reflexivity|]. intros e' E. injection E as <-.
        now apply Hr.
    + eexists. split; [reflexivity|]. intros e' E. injection E as <-.
      reflexivity.
Qed.

Lemma chosen_reads (repos : list listed) (idxs : list Z) (st : state (desk W)) :
  exists r,
    GitFullMenus.chosen repos idxs st = (r, st) /\
    (forall e, r = Raise e -> is_selection_error e = true).
Proof.
  induction idxs as [|i idxs IH].
  - exists (Return []). split; [reflexivity|discriminate].
  - cbn [GitFullMenus.chosen]. unfold bind, GitFullMenus.item.
    destruct (PyList.index repos (i - 1)) as [x|]; unfold ret, raise.
    + destruct IH as (r & -> & Hr). destruct r as [more|e].
      * eexists. split; [reflexivity|discriminate].
      * eexists. split; [reflexivity|]. intros e' E. injection E as <-.
        now apply Hr.
    + eexists. split; [reflexivity|]. intros e' E. injection E as <-.
      reflexivity.
Qed.

(** The loop of the clones ends in no error of a selection. *)
Lemma clone_turn_ends (TOKEN : string) (r0 : listed) (st : state (desk W)) :
  exists r w ext,
    GitFullMenus.clone_each TOKEN [r0] st = (r, mkState w (trace st ++ ext)) /\
    ends_in is_selection_error r = false.
Proof.
  destruct st as [w t]. apply wp_ended with (P := fun r w ext => _).
  unfold GitFullMenus.clone_each. cbn [for_each]. wp_simpl.
  repeat gf_step; ended; reflexivity.
Qed.

Lemma clone_each_ends (TOKEN : string) (to_clone : list listed)
    (st : state (desk W)) :
  exists r w ext,
    GitFullMenus.clone_each TOKEN to_clone st =
      (r, mkState w (trace st ++ ext)) /\
    ends_in is_selection_error r = false.
Proof.
  revert st. induction to_clone as [|x xs IH]; intros st.
  - exists (Return tt), (world st), []. destruct st as [w t]. cbn.
    now rewrite app_nil_r.
  - destruct (clone_turn_ends TOKEN x st) as (r1 & w1 & e1 & E1 & H1).
    unfold GitFullMenus.clone_each in *. rewrite for_each_cons, E1.
    destruct r1 as [[]|e].
    + destruct (IH (mkState w1 (trace st ++ e1))) as (r2 & w2 & e2 & E2 & H2).
      cbn [trace] in E2. exists r2, w2, (e1 ++ e2).
      now rewrite E2, app_assoc.
    + now exists (Raise e), w1, e1.
Qed.

End SelectionRules.

Ltac under_step :=
  repeat match goal with
         | H : under ?d = _ |- context [under ?d] => rewrite H
         end;
  lazymatch goal with
  | |- match match fst (github ?c ?w) with _ => _ end with _ => _ end =>
      destruct (fst (github c w)) as [[|] ?| | | |] eqn:?; wp_simpl
  | |- wp (os_makedirs _) _ _ =>
      apply wp_os_makedirs; cbn [world trace fs_makedirs desk_host];
      let good := fresh "good" in
      let E := fresh "E" in
      intros good ? E; apply on_desk_under in E; cbn [under] in E;
      destruct E as [_ ?]; destruct good; wp_simpl
  | |- wp get_repos _ _ => unfold get_repos; wp_simpl
  | |- wp (api _) _ _ =>
      apply wp_api_under; cbn [world trace under]; intros ? ?; wp_simpl
  | |- wp (Prompt_ask _ _) _ _ =>
      apply wp_Prompt_ask_under; cbn [world trace under]; intros ? ?; wp_simpl
  | |- wp (print_table _ _ _) _ _ => unfold print_table; wp_simpl
  | |- wp (GitFullMenus.numbers ?int ?parts) _ ?st =>
      let r := fresh "r" in
      let E := fresh "E" in
      let Hr := fresh "Hr" in
      destruct (numbers_reads int parts st) as (r & E & Hr);
      eapply wp_known; [exact E|]; destruct r; wp_simpl
  | |- wp (GitFullMenus.chosen ?repos ?idxs) _ ?st =>
      let r := fresh "r" in
      let E := fresh "E" in
      let Hr := fresh "Hr" in
      destruct (chosen_reads repos idxs st) as (r & E & Hr);
      eapply wp_known; [exact E|]; destruct r; wp_simpl
  | |- wp (GitFullMenus.clone_each _ (if ?c then _ else _)) _ _ =>
      destruct c eqn:?
  | |- wp (GitFullMenus.clone_each _ []) _ _ =>
      unfold GitFullMenus.clone_each; cbn [for_each]; wp_simpl
  | |- wp (GitFullMenus.clone_each ?tok ?l) _ (mkState ?d (?t ++ ?ext)) =>
      let r := fresh "r" in
      let E := fresh "E" in
      let Hr := fresh "Hr" in
      destruct (clone_each_ends tok l (mkState d (t ++ ext)))
        as (r & ? & ? & E & Hr);
      eapply wp_known; [exact E|]; cbn [trace]; rewrite <- app_assoc
  | _ => wp_step
  end.

Lemma neither_all_nor_some (ch : string) :
  PyStr.mem ch ["1"; "2"] = false ->
  String.eqb ch "1" = false /\ String.eqb ch "2" = false.
Proof.
  unfold PyStr.mem. cbn [existsb]. rewrite !orb_false_r, !orb_false_iff.
  rewrite !(String.eqb_sym ch). tauto.
Qed.

Ltac selection_done :=
  ended; split;
  let Hx := fresh "Hx" in
  intros Hx;
  first
    [ reflexivity
    | discriminate Hx
    | congruence
    | apply neither_all_nor_some in Hx; destruct Hx; congruence
    | split; [reflexivity|apply String.eqb_eq; assumption] ].

Section SelectionFacts.
Context {W : Type} {host : Host W} {process : System.Process W}
        {service : Service W}.

(** X29.  [clone_repositories_to_workspace] reads the whole selection before
    the first clone: when it ends in the [ValueError] of a part that is no
    number, or in the [IndexError] of a number out of range, the choice was
    "2" and no command has been run.  It runs no command either on a choice
    that is neither "1" nor "2": "3" (also by default) cancels, and any
    other answer leaves the list of the clones empty. *)
Theorem selection_is_read_before_any_clone (TOKEN : string)
    (int : string -> option Z) (w : W) (j : list entry) (t : list event) :
  let w1 := snd (fs_makedirs GitFullManager.REPO_PATH w) in
  let w2 := snd (github GetRepos w1) in
  let ch := fst (prompt_ask "Choice" (Some "3") w2) in
  exists r d' ext,
    GitFullMenus.clone_repositories_to_workspace TOKEN int
      (mkState (mkDesk w j) t) = (r, mkState d' (t ++ ext)) /\
    (PyStr.mem ch ["1"; "2"] = false -> spawned ext = []) /\
    (ends_in is_selection_error r = true -> spawned ext = [] /\ ch = "2").
Proof.
  intros w1 w2 ch. subst w1 w2 ch. apply wp_ended.
  unfold GitFullMenus.clone_repositories_to_workspace. wp_simpl.
  repeat under_step; selection_done.
Qed.

End SelectionFacts.

(** ** More runs on the small host *)

Lemma clone_skips_an_existing_copy_witness :
  Blackland.clone_repo_to_workspace "ghp_SECRET" "o" Sim.repo
    (Sim.start Sim.already_cloned) =
  (Return tt,
   mkState Sim.already_cloned
     (trace (Sim.start Sim.already_cloned) ++
      [Print "[yellow]Already exists: r → skipping[/yellow]"])).
Proof.
  exact (clone_skips_an_existing_copy "ghp_SECRET" "o" Sim.repo
           (Sim.start Sim.already_cloned) Sim.already_cloned eq_refl eq_refl).
Defined.

Lemma failed_clone_is_reported_and_nothing_follows_witness :
  let cmd := ["git"; "clone"; "https://ghp_SECRET@github.com/o/r.git";
              "/home/gost/7heBlackLand/r"] in
  exists w ext,
    Blackland.clone_repo_to_workspace "ghp_SECRET" "o" Sim.repo
      (Sim.start (Sim.clone_refused "ghp_SECRET")) =
      (Return tt,
       mkState w (trace (Sim.start (Sim.clone_refused "ghp_SECRET")) ++ ext)) /\
    spawned ext = [cmd] /\
    printed ext =
      [("🚀 " ++ PyStr.join " " cmd)%string;
       ("[red]Clone failed for o/r: "
        ++ str_exn (CalledProcessError cmd 1) ++ "[/red]")%string] /\
    (logged ext = [] \/
     exists ts,
       logged ext =
         [stamped ts ("Clone failed for o/r: "
                      ++ str_exn (CalledProcessError cmd 1))%string]).
Proof.
  exact (failed_clone_is_reported_and_nothing_follows "ghp_SECRET" "o" Sim.repo
           (Sim.start (Sim.clone_refused "ghp_SECRET"))
           (Sim.clone_refused "ghp_SECRET") (Sim.clone_refused "ghp_SECRET")
           0 "" eq_refl eq_refl eq_refl).
Defined.

(** The number 0 typed at [delete_repo] deletes the last repository of the
    list. *)
Example delete_repo_zero_is_the_last :
  let run := GitFullMenus.delete_repo PyInt.int
               (Sim.at_desk (Sim.with_answers Sim.calm ["0"; "y"])) in
  fst run = Return tt /\
  api_calls (journal (world (snd run))) = [GetRepos; DeleteRepo "o/s"].
Proof. split; reflexivity. Qed.

(** At the menu of the batch, an answer that is no choice still goes through
    the loop: the working copies, in sorted order, get their upkeep and
    nothing else. *)
Example batch_menu_on_an_unknown_choice :
  let run := BlacklandMenus.batch_workspace_manager "ghp_SECRET" "o"
               (Sim.at_desk (Sim.with_answers Sim.workspace ["9"])) in
  fst run = Return tt /\
  map Watch.subcommand (spawned (trace (snd run))) =
    map Some ["remote"; "remote"; "fetch"; "rev-parse"; "checkout"; "branch";
              "remote"; "remote"; "fetch"; "rev-parse"; "checkout"; "branch"] /\
  filter (fun s => PyStr.startswith s (PyStr.nl ++ "📂"))
         (printed (trace (snd run))) =
    [(PyStr.nl ++ "📂 [bold cyan]a[/bold cyan]")%string;
     (PyStr.nl ++ "📂 [bold cyan]b[/bold cyan]")%string].
Proof. repeat split. Qed.

(** [safe_push] on the machine where everything succeeds. *)
Lemma safe_push_announces_every_command_witness :
  exists r w ext,
    Blackland.safe_push "/w/r" "sync" (Sim.start Sim.calm) =
      (Return r, mkState w (trace (Sim.start Sim.calm) ++ ext)) /\
    announced None ext = true.
Proof.
  exact (safe_push_announces_every_command "/w/r" "sync" (Sim.start Sim.calm)
           eq_refl).
Defined.

(** [safe_push] on the machine whose remote has moved on. *)
Lemma safe_push_reports_its_outcome_witness :
  exists r w ext,
    Blackland.safe_push "/w/r" "sync" (Sim.start Sim.diverged) =
      (Return r, mkState w (trace (Sim.start Sim.diverged) ++ ext)) /\
    reported ext = negb r /\
    exists line,
      (logged ext = [] \/ exists ts, logged ext = [stamped ts line]) /\
      if r : bool
      then line = "Pushed /w/r" \/ line = "Recovered push for /w/r"
      else exists e,
             line = ("Push recovery failed for /w/r: " ++ str_exn e)%string.
Proof.
  exact (safe_push_reports_its_outcome "/w/r" "sync" (Sim.start Sim.diverged)
           eq_refl).
Defined.

(** The error that ends the clone loop when the clone of [o/r] is refused
    holds the token in its text. *)
Example clone_error_holds_the_token :
  let run := GitFullMenus.clone_each "ghp_SECRET" [Hub.mkListed Sim.repo false]
               (Sim.at_desk (Sim.clone_refused "ghp_SECRET")) in
  fst run =
    Raise (CalledProcessError
             (gitfull_clone_cmd "ghp_SECRET" (Hub.mkListed Sim.repo false)) 1) /\
  forall e, fst run = Raise e ->
            PyStr.contains "ghp_SECRET" (str_exn e) = true.
Proof.
  split; [reflexivity|]. intros e E. vm_compute in E. injection E as <-.
  reflexivity.
Qed.

(** Python strips the white space of Unicode: at the prompt of
    [git_pull.py] the answer "1" followed by a no-break space is the choice
    1, and the clone is run. *)
Example git_pull_reads_a_padded_choice :
  let nbsp := String (ascii_of_nat 194) (String (ascii_of_nat 160) "") in
  let run := GitPull.ensure_repo_exists "ghp_SECRET"
               (Sim.start (Sim.with_answers Sim.calm
                             [("1" ++ nbsp)%string;
                              "https://github.com/o/r.git"])) in
  fst run = Return tt /\
  spawned (trace (snd run)) =
    [git_clone "https://ghp_SECRET@github.com/o/r.git" GitPull.REPO_PATH].
Proof. split; reflexivity. Qed.
